(** * PSK import / PSA export: a shallow embedding of the exporter and importer

    The development follows [psa_exporter.py] ([build_psa], [write_psa],
    [psa_export]) and [psk/importer.py] ([pskimport]).

    Conventions of the embedding.
    - Python [int] is [Z]; a [c_int32] structure field is a [Z] reduced by
      [c_int32] (two's complement wrap-around, as ctypes does on assignment).
    - Python [float] is modelled by exact rational arithmetic ([Q]): the
      rounding of binary64/binary32 is not represented.  Concrete inputs used
      below are dyadic and small, so the binary64 computation is exact on them.
    - Python [str] is a list of Unicode code points, [bytes] a list of byte
      values.
    - Exceptions are the left summand of [result]. *)

From Stdlib Require Import ZArith NArith QArith Qround Lia List.
From Stdlib Require Import Strings.String Strings.Ascii Strings.Byte.
From stdpp Require Import base list.

Open Scope Z_scope.

(** ** Python primitives *)

Module Py.

Definition pystr := list N.
Definition pybytes := list Byte.byte.

(** Code points of an ASCII literal. *)
Definition codes (s : string) : pystr :=
  List.map N_of_ascii (list_ascii_of_string s).

Inductive exn :=
| RuntimeError (msg : pystr)
| ValueError
| IndexError
| ZeroDivisionError
| AttributeError
| IOError
| ReError.

Definition result (A : Type) : Type := exn + A.

Definition ok {A} (a : A) : result A := inr a.
Definition raise {A} (e : exn) : result A := inl e.

Definition bind {A B} (m : result A) (k : A -> result B) : result B :=
  match m with
  | inl e => inl e
  | inr a => k a
  end.

(** [int(x)] on a float: truncation toward zero. *)
Definition py_int (q : Q) : Z := Z.quot (Qnum q) (Zpos (Qden q)).

(** [round(x)] with one argument: nearest integer, ties to even. *)
Definition py_round (q : Q) : Z :=
  let f := Qfloor q in
  match Qcompare (q - inject_Z f) (1 # 2) with
  | Lt => f
  | Gt => f + 1
  | Eq => if Z.even f then f else f + 1
  end.

(** [x % 1.0]: the result carries the sign of the divisor. *)
Definition py_mod1 (q : Q) : Q := (q - inject_Z (Qfloor q))%Q.

(** True division [a / b]. *)
Definition py_truediv (a b : Q) : result Q :=
  if Qeq_bool b 0 then raise ZeroDivisionError else ok (a / b)%Q.

(** Storing a Python int into a [c_int32] field. *)
Definition c_int32 (v : Z) : Z := (v + 2 ^ 31) mod 2 ^ 32 - 2 ^ 31.

(** The bytes of a value up to its first NUL: what [strlen] measures. *)
Fixpoint c_string (b : pybytes) : pybytes :=
  match b with
  | [] => []
  | c :: r => if Byte.eqb c x00%byte then [] else c :: c_string r
  end.

(** Assigning [bytes] to a [c_char * n] field of a fresh (zeroed)
    structure: ctypes takes the value as a C string, that is up to its
    first NUL, rejects it when that is longer than the array, and copies
    it otherwise, the rest of the field staying NUL. *)
Definition c_char_array (n : nat) (b : pybytes) : result pybytes :=
  let s := c_string b in
  if (n <? length s)%nat then raise ValueError
  else ok (s ++ replicate (n - length s) x00%byte).

(** [str.isspace] for one code point (the white-space table of CPython). *)
Definition is_space (c : N) : bool :=
  ((9 <=? c) && (c <=? 13) || (28 <=? c) && (c <=? 32)
   || (c =? 0x85) || (c =? 0xa0) || (c =? 0x1680)
   || (0x2000 <=? c) && (c <=? 0x200a)
   || (c =? 0x2028) || (c =? 0x2029) || (c =? 0x202f)
   || (c =? 0x205f) || (c =? 0x3000))%N.

Fixpoint lstrip (s : pystr) : pystr :=
  match s with
  | c :: r => if is_space c then lstrip r else s
  | [] => []
  end.

(** [str.strip()] *)
Definition strip (s : pystr) : pystr := rev (lstrip (rev (lstrip s))).

(** The code points above U+00FF that the [cp1252] codec maps to the bytes
    0x80..0x9F (0x81, 0x8D, 0x8F, 0x90 and 0x9D are undefined there). *)
Definition cp1252_high : list (N * N) :=
  [ (0x20ac, 0x80); (0x201a, 0x82); (0x0192, 0x83); (0x201e, 0x84);
    (0x2026, 0x85); (0x2020, 0x86); (0x2021, 0x87); (0x02c6, 0x88);
    (0x2030, 0x89); (0x0160, 0x8a); (0x2039, 0x8b); (0x0152, 0x8c);
    (0x017d, 0x8e); (0x2018, 0x91); (0x2019, 0x92); (0x201c, 0x93);
    (0x201d, 0x94); (0x2022, 0x95); (0x2013, 0x96); (0x2014, 0x97);
    (0x02dc, 0x98); (0x2122, 0x99); (0x0161, 0x9a); (0x203a, 0x9b);
    (0x0153, 0x9c); (0x017e, 0x9e); (0x0178, 0x9f) ]%N.

Fixpoint assoc (c : N) (t : list (N * N)) : option N :=
  match t with
  | [] => None
  | (k, v) :: r => if (k =? c)%N then Some v else assoc c r
  end.

Definition cp1252_encode_char (c : N) : option Byte.byte :=
  if (c <? 0x80)%N || (0xa0 <=? c)%N && (c <=? 0xff)%N then Byte.of_N c
  else match assoc c cp1252_high with
       | Some b => Byte.of_N b
       | None => None
       end.

(** [bytes(s, encoding='windows-1252')]; [None] is [UnicodeEncodeError]. *)
Fixpoint cp1252_encode (s : pystr) : option pybytes :=
  match s with
  | [] => Some []
  | c :: r =>
      match cp1252_encode_char c, cp1252_encode r with
      | Some b, Some bs => Some (b :: bs)
      | _, _ => None
      end
  end.

Definition encodable (s : pystr) : Prop := is_Some (cp1252_encode s).

(** [l.index(x)] through a decidable test; [None] is [ValueError]. *)
Definition py_index {A} (P : A -> Prop) `{forall a, Decision (P a)}
                    (l : list A) : option nat :=
  fst <$> list_find P l.

(** [OrderedDict.__setitem__]: an existing key keeps its position. *)
Fixpoint odict_set {V} (k : pystr) (v : V) (d : list (pystr * V))
  : list (pystr * V) :=
  match d with
  | [] => [(k, v)]
  | (k', v') :: r =>
      if decide (k' = k) then (k', v) :: r else (k', v') :: odict_set k v r
  end.

End Py.

Import Py.

Notation "'let*' x := m 'in' k" := (bind m (fun x => k))
  (at level 10, x name, m at level 100, k at level 200).

(** ** The sequence sampler: frame arithmetic of [build_psa] *)

Module Sampler.

(** [PsaBuildSequence.NlaState] *)
Record NlaState := {
  action : nat;
  frame_start : Z;
  frame_end : Z
}.

(** [PsaBuildSequence] *)
Record PsaBuildSequence := {
  name : pystr;
  nla_state : NlaState;
  compression_ratio : Q;
  key_quota : Z;
  fps : Q
}.

Definition frame_extents (s : PsaBuildSequence) : Z :=
  Z.abs (frame_end (nla_state s) - frame_start (nla_state s)).

Definition frame_count_raw (s : PsaBuildSequence) : Z :=
  frame_extents s + 1.

(** [max(key_quota, int(frame_count_raw * compression_ratio))] *)
Definition frame_count (s : PsaBuildSequence) : Z :=
  Z.max (key_quota s)
        (py_int (inject_Z (frame_count_raw s) * compression_ratio s)).

(** The [try ... except ZeroDivisionError] block followed by the reversal
    of the step for a reverse sequence. *)
Definition frame_step (s : PsaBuildSequence) : Q :=
  let step :=
    match py_truediv (inject_Z (frame_extents s))
                     (inject_Z (frame_count s - 1)) with
    | inr q => q
    | inl _ => 0%Q
    end in
  if frame_start (nla_state s) >? frame_end (nla_state s)
  then (- step)%Q else step.

(** [sequence_duration = frame_count_raw / export_sequence.fps] *)
Definition sequence_duration (s : PsaBuildSequence) : result Q :=
  py_truediv (inject_Z (frame_count_raw s)) (fps s).

(** The frame count as the specification words it, with [round]. *)
Definition spec_frame_count (s : PsaBuildSequence) : Z :=
  Z.max (key_quota s)
        (py_round (inject_Z (frame_count_raw s) * compression_ratio s)).

Definition mk_sequence (nm : pystr) (act : nat) (fs fe : Z)
                       (ratio : Q) (quota : Z) (rate : Q) :=
  {| name := nm;
     nla_state := {| action := act; frame_start := fs; frame_end := fe |};
     compression_ratio := ratio; key_quota := quota; fps := rate |}.

End Sampler.

(** ** The host data handed to the exporter *)

Module Blender.

(** [bpy.types.Bone] as far as [build_psa] looks at it: its identity (two
    bone objects compare equal when they are the same bone), its name and
    its parent. *)
Record Bone := {
  ptr : nat;
  name : pystr;
  parent : option nat
}.

(** [bpy.types.Action] as far as [psa_export] looks at it; [fcurves]
    holds the [data_path] of each curve. *)
Record Action := {
  action_id : nat;
  action_name : pystr;
  frame_range : Q * Q;
  fcurves : list pystr
}.

End Blender.

(** ** The records of the animation file *)

Module Psa.

Record Vector3 := { x : Q; y : Q; z : Q }.

Record Quaternion := { qx : Q; qy : Q; qz : Q; qw : Q }.

Module Bone.
Record t := {
  name : pybytes;
  flags : Z;
  children_count : Z;
  parent_index : Z;
  rotation : Quaternion;
  location : Vector3;
  padding : pybytes
}.
Definition sizeof : Z := 64 + 4 + 4 + 4 + 16 + 12 + 16.
End Bone.

Module Sequence.
Record t := {
  name : pybytes;
  group : pybytes;
  bone_count : Z;
  root_include : Z;
  compression_style : Z;
  key_quotum : Z;
  key_reduction : Q;
  track_time : Q;
  fps : Q;
  start_bone : Z;
  frame_start_index : Z;
  frame_count : Z
}.
Definition sizeof : Z := 64 + 64 + 4 * 10.
End Sequence.

Module Key.
Record t := {
  location : Vector3;
  rotation : Quaternion;
  time : Q
}.
Definition sizeof : Z := 12 + 16 + 4.
End Key.

(** [class Psa]: [sequences] is an [OrderedDict] keyed by sequence name. *)
Record t := {
  bones : list Bone.t;
  sequences : list (pystr * Sequence.t);
  keys : list Key.t
}.

End Psa.

(** [bpy.types.AnimData]: the action currently linked, if any. *)
Record AnimData := { linked_action : option nat }.

(** [PsaBuildOptions], without the fields that only select bones. *)
Record PsaBuildOptions := {
  animation_data : option AnimData;
  sequences : list Sampler.PsaBuildSequence;
  should_enforce_bone_name_restrictions : bool;
  sequence_name_prefix : pystr;
  sequence_name_suffix : pystr;
  root_motion : bool
}.

(** ** [build_psa] *)

Module Build.

Definition quote : pystr := [34%N].

Definition no_bones_error : exn :=
  RuntimeError (codes "No bones available for export").

Definition codepage_tail : pystr :=
  codes " contains characters that cannot be encoded in the Windows-1252 codepage".

Definition bone_name_error (nm : pystr) : exn :=
  RuntimeError (codes "Bone name " ++ quote ++ nm ++ quote ++ codepage_tail).

Definition sequence_name_error (nm : pystr) : exn :=
  RuntimeError (codes "Sequence name " ++ quote ++ nm ++ quote ++ codepage_tail).

(** [bytes(nm, encoding='windows-1252')] inside its [try], and the
    assignment to the 64-byte name field. *)
Definition encode_name (err : pystr -> exn) (nm : pystr) : result pybytes :=
  let* raw := match cp1252_encode nm with
              | Some b => ok b
              | None => raise (err nm)
              end in
  c_char_array 64 raw.

(** [bones.index(bone.parent)]: [None] stands for [ValueError], raised
    also when the bone has no parent at all. *)
Definition bones_index (bones : list Blender.Bone) (p : option nat)
  : option nat :=
  match p with
  | None => None
  | Some q => py_index (fun b => Blender.ptr b = q) bones
  end.

(** [psa.bones[i].children_count += 1] on a [c_int32] field. *)
Definition incr_children (b : Psa.Bone.t) : Psa.Bone.t :=
  {| Psa.Bone.name := Psa.Bone.name b;
     Psa.Bone.flags := Psa.Bone.flags b;
     Psa.Bone.children_count := c_int32 (Psa.Bone.children_count b + 1);
     Psa.Bone.parent_index := Psa.Bone.parent_index b;
     Psa.Bone.rotation := Psa.Bone.rotation b;
     Psa.Bone.location := Psa.Bone.location b;
     Psa.Bone.padding := Psa.Bone.padding b |}.

(** Lines 330-341 for the armature bones: the exported bones are those
    named by [export_bone_names], in that order. *)
Fixpoint select_bones (armature_bones : list Blender.Bone)
                      (export_bone_names : list pystr)
  : result (list Blender.Bone) :=
  match export_bone_names with
  | [] => ok []
  | nm :: rest =>
      match py_index (fun b => Blender.name b = nm) armature_bones with
      | None => raise ValueError
      | Some i =>
          match armature_bones !! i with
          | None => raise IndexError
          | Some b =>
              let* bs := select_bones armature_bones rest in ok (b :: bs)
          end
      end
  end.

(** The renaming loop over [options.sequences]. *)
Definition rename (options : PsaBuildOptions) (s : Sampler.PsaBuildSequence)
  : Sampler.PsaBuildSequence :=
  {| Sampler.name :=
       strip (sequence_name_prefix options ++ Sampler.name s
              ++ sequence_name_suffix options);
     Sampler.nla_state := Sampler.nla_state s;
     Sampler.compression_ratio := Sampler.compression_ratio s;
     Sampler.key_quota := Sampler.key_quota s;
     Sampler.fps := Sampler.fps s |}.

(** The number of bones of [l] whose parent is found at position [j] of
    the exported list [bones]. *)
Definition children_in (bones l : list Blender.Bone) (j : nat) : nat :=
  length (filter (fun b => bones_index bones (Blender.parent b) = Some j) l).

(** The children count as the specification words it: the number of
    records whose [parent_index] equals the given index. *)
Definition spec_children_count (records : list Psa.Bone.t) (i : nat) : Z :=
  Z.of_nat
    (length (filter (fun r => Psa.Bone.parent_index r = Z.of_nat i) records)).

(** Frames and samples taken by a list of sequences: the first adds the
    frame counts as the loop does, the second counts loop iterations (a
    negative frame count gives none). *)
Definition frames_before (l : list Sampler.PsaBuildSequence) : Z :=
  fold_right (fun s n => Sampler.frame_count s + n) 0 l.

Definition samples_before (l : list Sampler.PsaBuildSequence) : nat :=
  fold_right (fun s n => (Z.to_nat (Sampler.frame_count s) + n)%nat) 0%nat l.

(** The keys of a sequence within the flat key array: [bone_count] keys
    per sample, after the samples of the sequences before it. *)
Definition keys_of_sequence (psa : Psa.t) (bone_count : nat)
                            (before : list Sampler.PsaBuildSequence)
                            (s : Sampler.PsaBuildSequence)
  : list Psa.Key.t :=
  take (bone_count * Z.to_nat (Sampler.frame_count s))
       (drop (bone_count * samples_before before) (Psa.keys psa)).

(** A 64-byte name field holding the encoding of a name up to its first
    NUL, padded with NUL. *)
Definition stored_name (nm : pystr) (field : pybytes) : Prop :=
  exists raw, cp1252_encode nm = Some raw
              /\ (length (c_string raw) <= 64)%nat
              /\ field = c_string raw
                         ++ replicate (64 - length (c_string raw)) x00%byte.

(** A name that encodes into at most 64 bytes. *)
Definition fits_name_field (nm : pystr) : Prop :=
  exists raw, cp1252_encode nm = Some raw /\ (length raw <= 64)%nat.

(** An error whose message contains the given name. *)
Definition mentions (e : exn) (nm : pystr) : Prop :=
  exists before after, e = RuntimeError (before ++ nm ++ after).

(** A name with a character outside the code page. *)
Definition unencodable (nm : pystr) : Prop :=
  Exists (fun c => cp1252_encode_char c = None) nm.

(** [options.sequences] after the renaming loop. *)
Definition renamed (options : PsaBuildOptions)
  : list Sampler.PsaBuildSequence :=
  List.map (rename options) (sequences options).

Section WithHost.

(** The bind-pose rotation and location of a bone (lines 367-379), read
    from the host's matrices. *)
Variable bind_pose : Blender.Bone -> Psa.Quaternion * Psa.Vector3.

(** [_get_pose_bone_location_and_rotation] after
    [frame_set(frame, subframe)] with the given action linked:
    arguments are [options.root_motion], the action, the integer frame,
    the subframe and the pose bone (one per exported bone, in the order
    of the exported bones). *)
Variable pose_at :
  bool -> nat -> Z -> Q -> Blender.Bone -> Psa.Vector3 * Psa.Quaternion.

(** [check_bone_names], which is not part of the exporter file. *)
Variable check_bone_names : list pystr -> result unit.

(** One iteration of the loop that builds the PSA bones. *)
Definition add_bone (bones : list Blender.Bone)
                    (psa_bones : list Psa.Bone.t) (bone : Blender.Bone)
  : result (list Psa.Bone.t) :=
  let* name_field := encode_name bone_name_error (Blender.name bone) in
  let* linked :=
    match bones_index bones (Blender.parent bone) with
    | Some parent_index =>
        match psa_bones !! parent_index with
        | Some _ =>
            ok (c_int32 (Z.of_nat parent_index),
                alter incr_children parent_index psa_bones)
        | None => raise IndexError
        end
    | None => ok (0, psa_bones)
    end in
  ok (linked.2 ++
      [ {| Psa.Bone.name := name_field;
           Psa.Bone.flags := 0;
           Psa.Bone.children_count := 0;
           Psa.Bone.parent_index := linked.1;
           Psa.Bone.rotation := (bind_pose bone).1;
           Psa.Bone.location := (bind_pose bone).2;
           Psa.Bone.padding := replicate 16 x00%byte |} ]).

Fixpoint build_bones (bones : list Blender.Bone)
                     (psa_bones : list Psa.Bone.t)
                     (todo : list Blender.Bone)
  : result (list Psa.Bone.t) :=
  match todo with
  | [] => ok psa_bones
  | bone :: rest =>
      let* psa_bones' := add_bone bones psa_bones bone in
      build_bones bones psa_bones' rest
  end.

(** The body of the innermost loop: one key for one pose bone. *)
Definition make_key (root : bool) (act : nat) (frame : Q)
                    (sequence_fps : Q) (pose_bone : Blender.Bone)
  : result Psa.Key.t :=
  let sample := pose_at root act (py_int frame) (py_mod1 frame) pose_bone in
  let* time := py_truediv 1 sequence_fps in
  ok {| Psa.Key.location := sample.1;
        Psa.Key.rotation := sample.2;
        Psa.Key.time := time |}.

Fixpoint sample_bones (root : bool) (act : nat) (frame : Q)
                      (sequence_fps : Q) (pose_bones : list Blender.Bone)
                      (keys : list Psa.Key.t)
  : result (list Psa.Key.t) :=
  match pose_bones with
  | [] => ok keys
  | pose_bone :: rest =>
      let* key := make_key root act frame sequence_fps pose_bone in
      sample_bones root act frame sequence_fps rest (keys ++ [key])
  end.

(** [for _ in range(frame_count)], with [frame += frame_step]. *)
Fixpoint sample_frames (root : bool) (act : nat) (frame_step : Q)
                       (sequence_fps : Q)
                       (pose_bones : list Blender.Bone)
                       (n : nat) (frame : Q) (keys : list Psa.Key.t)
  : result (list Psa.Key.t) :=
  match n with
  | O => ok keys
  | S n' =>
      let* keys' :=
        sample_bones root act frame sequence_fps pose_bones keys in
      sample_frames root act frame_step sequence_fps pose_bones
                    n' (frame + frame_step)%Q keys'
  end.

(** The record built by one iteration of the sequence loop. *)
Definition make_sequence (pose_bones : list Blender.Bone)
                         (frame_start_index : Z)
                         (s : Sampler.PsaBuildSequence)
  : result Psa.Sequence.t :=
  let frame_count := Sampler.frame_count s in
  let* sequence_duration := Sampler.sequence_duration s in
  let* name_field := encode_name sequence_name_error (Sampler.name s) in
  let* sequence_fps :=
    py_truediv (inject_Z frame_count) sequence_duration in
  ok {| Psa.Sequence.name := name_field;
        Psa.Sequence.group := replicate 64 x00%byte;
        Psa.Sequence.bone_count := c_int32 (Z.of_nat (length pose_bones));
        Psa.Sequence.root_include := 0;
        Psa.Sequence.compression_style := 0;
        Psa.Sequence.key_quotum := 0;
        Psa.Sequence.key_reduction := 1;
        Psa.Sequence.track_time := inject_Z frame_count;
        Psa.Sequence.fps := sequence_fps;
        Psa.Sequence.start_bone := 0;
        Psa.Sequence.frame_start_index := c_int32 frame_start_index;
        Psa.Sequence.frame_count := c_int32 frame_count |}.

(** One iteration of the sequence loop: the state is the [Psa] under
    construction and the running [frame_start_index]. *)
Definition add_sequence (root : bool) (pose_bones : list Blender.Bone)
                        (st : Psa.t * Z) (s : Sampler.PsaBuildSequence)
  : result (Psa.t * Z) :=
  let* psa_sequence := make_sequence pose_bones st.2 s in
  let* keys' :=
    sample_frames root (Sampler.action (Sampler.nla_state s))
                  (Sampler.frame_step s) (Psa.Sequence.fps psa_sequence)
                  pose_bones (Z.to_nat (Sampler.frame_count s))
                  (inject_Z (Sampler.frame_start (Sampler.nla_state s)))
                  (Psa.keys st.1) in
  ok ({| Psa.bones := Psa.bones st.1;
         Psa.sequences :=
           odict_set (Sampler.name s) psa_sequence (Psa.sequences st.1);
         Psa.keys := keys' |},
      st.2 + Sampler.frame_count s).

Fixpoint build_sequences (root : bool) (pose_bones : list Blender.Bone)
                         (st : Psa.t * Z)
                         (todo : list Sampler.PsaBuildSequence)
  : result (Psa.t * Z) :=
  match todo with
  | [] => ok st
  | s :: rest =>
      let* st' := add_sequence root pose_bones st s in
      build_sequences root pose_bones st' rest
  end.

(** [build_psa] from the point where the exported bones are known. *)
Definition build_psa_bones (bones : list Blender.Bone)
                           (options : PsaBuildOptions) : result Psa.t :=
  if (length bones =? 0)%nat then raise no_bones_error
  else
    let* _ := if should_enforce_bone_name_restrictions options
              then check_bone_names (List.map Blender.name bones)
              else ok tt in
    let* psa_bones := build_bones bones [] bones in
    let* saved_action :=
      match animation_data options with
      | Some d => ok (linked_action d)
      | None => raise AttributeError
      end in
    let* st :=
      build_sequences (root_motion options) bones
        ({| Psa.bones := psa_bones; Psa.sequences := []; Psa.keys := [] |},
         0)
        (renamed options) in
    ok st.1.

Definition build_psa (armature_bones : list Blender.Bone)
                     (export_bone_names : list pystr)
                     (options : PsaBuildOptions) : result Psa.t :=
  let* bones := select_bones armature_bones export_bone_names in
  build_psa_bones bones options.

End WithHost.

End Build.

(** ** What the loops of [build_psa] maintain *)

Module Invariants.

Import Build.

(** The [parent_index] field written for a bone of the exported list. *)
Definition parent_field (bones : list Blender.Bone) (b : Blender.Bone) : Z :=
  match bones_index bones (Blender.parent b) with
  | Some p => c_int32 (Z.of_nat p)
  | None => 0
  end.

(** The record appended for a bone. *)
Definition fresh_record
           (bind_pose : Blender.Bone -> Psa.Quaternion * Psa.Vector3)
           (bones : list Blender.Bone) (b : Blender.Bone) (field : pybytes)
  : Psa.Bone.t :=
  {| Psa.Bone.name := field;
     Psa.Bone.flags := 0;
     Psa.Bone.children_count := 0;
     Psa.Bone.parent_index := parent_field bones b;
     Psa.Bone.rotation := (bind_pose b).1;
     Psa.Bone.location := (bind_pose b).2;
     Psa.Bone.padding := replicate 16 x00%byte |}.

(** The invariant of the bone loop: [acc] holds one record per processed
    bone, with its parent index and encoded name; the children counts are
    those of the processed bones; a parent found in the exported list
    lies before the end of the processed bones. *)
Record bones_inv (bones done : list Blender.Bone) (acc : list Psa.Bone.t)
  : Prop := {
  inv_fields :
    Forall2 (fun b r =>
               Psa.Bone.parent_index r = parent_field bones b
               /\ encode_name bone_name_error (Blender.name b)
                  = ok (Psa.Bone.name r)) done acc;
  inv_children :
    forall j r, acc !! j = Some r ->
      Psa.Bone.children_count r
      = c_int32 (Z.of_nat (children_in bones done j));
  inv_parents_before :
    Forall (fun b => forall p,
              bones_index bones (Blender.parent b) = Some p ->
              (p < length done)%nat)
           done
}.

(** What the sequence loop emits: per sequence, its record and its block
    of keys; [start] is the running [frame_start_index]. *)
Inductive emits (pose_bones : list Blender.Bone)
  : Z -> list Sampler.PsaBuildSequence ->
    list (Psa.Sequence.t * list Psa.Key.t) -> Prop :=
| emits_nil start : emits pose_bones start [] []
| emits_cons start s rest record new blocks :
    make_sequence pose_bones start s = ok record ->
    length new
    = (length pose_bones * Z.to_nat (Sampler.frame_count s))%nat ->
    Forall (fun k => Psa.Key.time k
                     = (1 / Psa.Sequence.fps record)%Q) new ->
    emits pose_bones (start + Sampler.frame_count s) rest blocks ->
    emits pose_bones start (s :: rest) ((record, new) :: blocks).

(** The dictionary after the records of [blocks] were stored under the
    names of [todo]. *)
Definition store (d : list (pystr * Psa.Sequence.t))
           (todo : list Sampler.PsaBuildSequence)
           (blocks : list (Psa.Sequence.t * list Psa.Key.t))
  : list (pystr * Psa.Sequence.t) :=
  fold_left (fun d sb => odict_set (Sampler.name sb.1) sb.2.1 d)
            (zip todo blocks) d.

End Invariants.

(** ** Files and the user interface, as a trace of events *)

Module IO.

Inductive event :=
| Open (path : pystr)
| WriteHeader (name : pybytes) (type_flags data_size data_count : Z)
| WriteBone (b : Psa.Bone.t)
| WriteSequence (s : Psa.Sequence.t)
| WriteKey (k : Psa.Key.t)
| Close
| ErrorCallback (msg : pystr)
| BuildModel.


End IO.

(** ** [write_section], [write_psa] and [psa_export] *)

Module PsaExport.

Definition magic : Z := 1999801.

Definition ascii_bytes (s : string) : pybytes := list_byte_of_string s.

(** [write_section]: the header, then every datum. The header's name is a
    [c_char * 20] field; the names used by [write_psa] all fit. *)
Definition write_section {A} (wr : A -> IO.event) (name : pybytes)
                         (data : option (Z * list A)) : list IO.event :=
  match data with
  | Some (size, l) =>
      IO.WriteHeader name magic (c_int32 size)
                     (c_int32 (Z.of_nat (length l)))
      :: List.map wr l
  | None => [IO.WriteHeader name magic 0 0]
  end.

Definition write_psa (psa : Psa.t) (path : pystr) : list IO.event :=
  [IO.Open path]
  ++ write_section IO.WriteBone (ascii_bytes "ANIMHEAD") None
  ++ write_section IO.WriteBone (ascii_bytes "BONENAMES")
       (Some (Psa.Bone.sizeof, Psa.bones psa))
  ++ write_section IO.WriteSequence (ascii_bytes "ANIMINFO")
       (Some (Psa.Sequence.sizeof, List.map snd (Psa.sequences psa)))
  ++ write_section IO.WriteKey (ascii_bytes "ANIMKEYS")
       (Some (Psa.Key.sizeof, Psa.keys psa))
  ++ [IO.Close].

(** An armature object: its bones and its animation data. *)
Record Armature := {
  armature_bones : list Blender.Bone;
  armature_animation_data : option AnimData
}.

(** What [psa_export] reads from [bpy]: the active object of the view
    layer, the armature found in the selection, the scene frame rate and
    [bpy.data.actions]. *)
Record Context := {
  active_object : Armature;
  selected_armature : option Armature;
  render_fps : Q;
  data_actions : list Blender.Action
}.

(** [s[len(prefix):]] when [s] starts with [prefix]. *)
Fixpoint after_prefix (prefix s : pystr) : option pystr :=
  match prefix, s with
  | [], _ => Some s
  | c :: p, d :: r => if (c =? d)%N then after_prefix p r else None
  | _ :: _, [] => None
  end.

(** The anchor [$] of a pattern without flags: it holds at the end of the
    string and before a newline that ends the string. *)
Definition at_end (rest : pystr) : bool :=
  match rest with
  | [] => true
  | [c] => (c =? 10)%N
  | _ => false
  end.

Fixpoint until_quote (s : pystr) : pystr :=
  match s with
  | [] => []
  | c :: r => if (c =? 34)%N then [] else c :: until_quote r
  end.

(** [re.match(pattern, data_path)] for the pattern of
    [is_action_for_armature], as its group 1, [re] being the standard
    module of regular expressions.  Writing Q for the escaped
    double quote, the pattern is [pose\.bones$$Q([^Q]+)Q]($$Q([^Q]+)Q])?]:
    the literal [pose.bones], the anchor [$] twice, a quote, one or more
    characters other than a quote, a quote and a closing bracket; the
    optional group that follows takes part neither in the success of the
    match nor in group 1. *)
Definition match_pose_bone (data_path : pystr) : option pystr :=
  match after_prefix (codes "pose.bones") data_path with
  | None => None
  | Some rest =>
      if at_end rest && at_end rest then
        match rest with
        | 34%N :: quoted =>
            match until_quote quoted,
                  drop (length (until_quote quoted)) quoted with
            | c :: bone_name, 34%N :: 93%N :: _ => Some (c :: bone_name)
            | _, _ => None
            end
        | _ => None
        end
      else None
  end.

(** The loop of [is_action_for_armature] over the curves. *)
Fixpoint fcurve_loop (bone_names : list pystr) (fcurves : list pystr)
  : bool :=
  match fcurves with
  | [] => false
  | data_path :: rest =>
      match match_pose_bone data_path with
      | None => fcurve_loop bone_names rest
      | Some bone_name =>
          if bool_decide (elem_of bone_name bone_names) then true
          else fcurve_loop bone_names rest
      end
  end.

Definition is_action_for_armature (armature : Armature)
                                  (action : Blender.Action) : bool :=
  if (length (Blender.fcurves action) =? 0)%nat then false
  else fcurve_loop (List.map Blender.name (armature_bones armature))
                   (Blender.fcurves action).

(** [util_gen_name_part]: the pattern [.*[/\$$([^/\$$+?)(\..{2,5})?$] has
    a character set, opened by its first bracket, that is never closed,
    so that [re.match] raises [re.error] when it compiles the pattern,
    whatever the path. *)
Definition util_gen_name_part (filepath : pystr) : result pystr :=
  raise ReError.

Section WithHost.

Variable bind_pose : Blender.Bone -> Psa.Quaternion * Psa.Vector3.
Variable pose_at :
  bool -> nat -> Z -> Q -> Blender.Bone -> Psa.Vector3 * Psa.Quaternion.
Variable check_bone_names : list pystr -> result unit.

(** [get_export_bone_names], which is not part of the exporter file. *)
Variable get_export_bone_names : Armature -> list pystr.

Definition export_sequence_of (ctx : Context) (a : Blender.Action)
  : Sampler.PsaBuildSequence :=
  Sampler.mk_sequence (Blender.action_name a) (Blender.action_id a)
    (py_int (Blender.frame_range a).1) (py_int (Blender.frame_range a).2)
    1 0 (render_fps ctx).

Definition psa_export (filepath : pystr) (ctx : Context)
                      (oArmature : option Armature)
                      (bFilenameAsPrefix bRotationOnly : bool)
  : list IO.event * result bool :=
  match (match oArmature with
         | Some a => Some a
         | None => selected_armature ctx
         end) with
  | None => ([IO.ErrorCallback (codes "No armature selected.")], ok false)
  | Some arm =>
      let export_sequences :=
        List.map (export_sequence_of ctx)
                 (List.filter (is_action_for_armature arm)
                              (data_actions ctx)) in
      let built :=
        let* prefix :=
          if bFilenameAsPrefix
          then let* part := util_gen_name_part filepath in
               ok (part ++ codes "_")
          else ok [] in
        Build.build_psa bind_pose pose_at check_bone_names
          (armature_bones (active_object ctx))
          (get_export_bone_names (active_object ctx))
          {| animation_data := armature_animation_data arm;
             sequences := export_sequences;
             should_enforce_bone_name_restrictions := false;
             sequence_name_prefix := prefix;
             sequence_name_suffix := [];
             root_motion := negb bRotationOnly |} in
      match built with
      | inl e => ([], inl e)
      | inr psa => (write_psa psa filepath, ok true)
      end
  end.

End WithHost.

End PsaExport.

(** ** [pskimport]: the header check *)

Module PskImport.

(** Little-endian bytes of a 32-bit field, and back. *)
Definition byte_of_Z (v : Z) : Byte.byte :=
  match Byte.of_N (Z.to_N (v mod 256)) with
  | Some b => b
  | None => x00%byte
  end.

Definition Z_of_byte (b : Byte.byte) : Z := Z.of_N (Byte.to_N b).

Definition le32 (v : Z) : pybytes :=
  [byte_of_Z v; byte_of_Z (v / 256); byte_of_Z (v / 65536);
   byte_of_Z (v / 16777216)].

Fixpoint le_value (bs : pybytes) : Z :=
  match bs with
  | [] => 0
  | b :: r => Z_of_byte b + 256 * le_value r
  end.

(** A [c_int32] field at a byte offset of a structure's buffer. *)
Definition int32_at (off : nat) (buf : pybytes) : Z :=
  c_int32 (le_value (take 4 (drop off buf))).

(** The buffer of [Section()]: zeroed, then [__init__] stores the magic
    number into [type_flags] (name: 20 bytes, then three [c_int32]).  The
    importer takes [Section] from [utils.data]; the structure of that
    name defined in [psa_exporter.py] is the one embedded here. *)
Definition Section_new : pybytes :=
  replicate 20 x00%byte ++ le32 PsaExport.magic ++ replicate 8 x00%byte.

Definition type_flags (header : pybytes) : Z := int32_at 20 header.
Definition data_size (header : pybytes) : Z := int32_at 24 header.
Definition data_count (header : pybytes) : Z := int32_at 28 header.

(** [file.readinto(header)]: at most [sizeof(header)] bytes are copied
    over the buffer; a short read leaves the tail as it was. Returns the
    buffer and the rest of the file. *)
Definition readinto (header file : pybytes) : pybytes * pybytes :=
  let got := take (length header) file in
  (got ++ drop (length got) header, drop (length header) file).

Definition not_psk_message (filepath : pystr) : pystr :=
  codes "File " ++ filepath ++ codes " is not a valid PSK file.".

Definition open_error_message (filepath : pystr) : pystr :=
  codes "Error while opening file for reading: " ++ filepath.

Section WithBody.

(** The parsed sections. *)
Variable PskData : Type.

(** [read_psk_data] on the rest of the file with the header's
    [data_count]; it may raise, [IOError] included. *)
Variable read_psk_data : pybytes -> Z -> result PskData.

(** Everything after the [try]: the mesh and armature are created,
    linked and weighted. *)
Variable build_model : PskData -> list IO.event * result bool.

(** [disk] maps a path to the file's content, [None] when [open]
    raises [IOError]. *)
Definition pskimport (disk : pystr -> option pybytes) (filepath : pystr)
  : list IO.event * result bool :=
  match disk filepath with
  | None => ([IO.ErrorCallback (open_error_message filepath)], ok false)
  | Some file =>
      let '(header, rest) := readinto Section_new file in
      if negb (type_flags header =? PsaExport.magic)
      then ([IO.ErrorCallback (not_psk_message filepath)], ok false)
      else
        match read_psk_data rest (data_count header) with
        | inl IOError =>
            ([IO.ErrorCallback (open_error_message filepath)], ok false)
        | inl e => ([], inl e)
        | inr data =>
            let '(evs, r) := build_model data in
            (IO.BuildModel :: evs, r)
        end
  end.

End WithBody.

End PskImport.

(** ** The sampling loop, frame by frame *)

Module Frames.

(** The value of [frame] when iteration [i] of the sampling loop begins:
    [float(frame_start)] after [i] additions of the frame step. *)
Definition frame_after (frame_step start : Q) (i : nat) : Q :=
  Nat.iter i (fun f => (f + frame_step)%Q) start.

(** The frame rate stored for a sequence:
    [frame_count / (frame_count_raw / fps)]. *)
Definition sequence_fps (s : Sampler.PsaBuildSequence) : Q :=
  (inject_Z (Sampler.frame_count s)
   / (inject_Z (Sampler.frame_count_raw s) / Sampler.fps s))%Q.

Section WithHost.

Variable pose_at :
  bool -> nat -> Z -> Q -> Blender.Bone -> Psa.Vector3 * Psa.Quaternion.

(** The key of one pose bone with the scene at [frame]. *)
Definition key_at (root : bool) (act : nat) (rate frame : Q)
                  (pose_bone : Blender.Bone) : Psa.Key.t :=
  {| Psa.Key.location :=
       (pose_at root act (py_int frame) (py_mod1 frame) pose_bone).1;
     Psa.Key.rotation :=
       (pose_at root act (py_int frame) (py_mod1 frame) pose_bone).2;
     Psa.Key.time := (1 / rate)%Q |}.

(** The keys of [n] samples, frames outermost and bones innermost. *)
Definition sampled_keys (root : bool) (act : nat) (frame_step rate : Q)
                        (pose_bones : list Blender.Bone)
                        (n : nat) (start : Q) : list Psa.Key.t :=
  flat_map (fun i => List.map (key_at root act rate
                                      (frame_after frame_step start i))
                              pose_bones)
           (seq 0 n).

(** The keys of one sequence. *)
Definition sequence_keys (root : bool) (pose_bones : list Blender.Bone)
                         (s : Sampler.PsaBuildSequence)
  : list Psa.Key.t :=
  sampled_keys root (Sampler.action (Sampler.nla_state s))
               (Sampler.frame_step s) (sequence_fps s) pose_bones
               (Z.to_nat (Sampler.frame_count s))
               (inject_Z (Sampler.frame_start (Sampler.nla_state s))).

End WithHost.

End Frames.

(** ** Reading the sequence dictionary *)

Module Dict.

(** [d[k]] on an [OrderedDict]; [None] is [KeyError]. *)
Fixpoint odict_get {V} (k : pystr) (d : list (pystr * V)) : option V :=
  match d with
  | [] => None
  | (k', v) :: r => if decide (k' = k) then Some v else odict_get k r
  end.

End Dict.

(** ** Bytes of a section header and of a name field *)

Module Codec.

(** What [fp.write(section)] sends: the 20-byte name field, then the
    three [c_int32] fields, little-endian. *)
Definition Section_bytes (name : pybytes)
                         (type_flags data_size data_count : Z) : pybytes :=
  name ++ replicate (20 - length name) x00%byte
  ++ PskImport.le32 type_flags ++ PskImport.le32 data_size
  ++ PskImport.le32 data_count.

Fixpoint rassoc (b : N) (t : list (N * N)) : option N :=
  match t with
  | [] => None
  | (k, v) :: r => if (v =? b)%N then Some k else rassoc b r
  end.

(** One byte decoded by the [cp1252] codec with [errors='replace']: the
    five undefined bytes become U+FFFD. *)
Definition cp1252_decode_byte (b : Byte.byte) : N :=
  let n := Byte.to_N b in
  if (n <? 0x80)%N || (0xa0 <=? n)%N then n
  else match rassoc n cp1252_high with
       | Some c => c
       | None => 0xfffd%N
       end.

Fixpoint lstrip_nul (bs : pybytes) : pybytes :=
  match bs with
  | b :: r => if Byte.eqb b x00%byte then lstrip_nul r else bs
  | [] => []
  end.

(** [in_bytes.rstrip(b'\x00')] *)
Definition rstrip_nul (bs : pybytes) : pybytes := rev (lstrip_nul (rev bs)).

(** [util_bytes_to_str] *)
Definition util_bytes_to_str (in_bytes : pybytes) : pystr :=
  List.map cp1252_decode_byte (rstrip_nul in_bytes).

End Codec.

(** ** [read_vertices] *)

Module Vertices.

Definition vertex : Type := Q * Q * Q.

(** [(vec_x * 0.01, vec_y * 0.01, vec_z * 0.01)] *)
Definition scale_down (v : vertex) : vertex :=
  (v.1.1 * (1 # 100), v.1.2 * (1 # 100), v.2 * (1 # 100))%Q.

Section WithUnpack.

(** [Struct('3f').unpack_from] on a buffer of at least 12 bytes: the
    three floats held by its first 12 bytes. *)
Variable unpack_3f : pybytes -> vertex.

(** The loop over [range(chunk_datacount)]: each iteration reads
    [chunk] bytes and unpacks the first 12 of them; [None] is the
    [struct.error] raised on a buffer shorter than 12 bytes. *)
Fixpoint read_loop (iterations chunk : nat) (bScaleDown : bool)
                   (file : pybytes) (vertices : list vertex)
  : option (list vertex * pybytes) :=
  match iterations with
  | O => Some (vertices, file)
  | S k =>
      let data := take chunk file in
      if (length data <? 12)%nat then None
      else
        let v := unpack_3f (take 12 data) in
        read_loop k chunk bScaleDown (drop chunk file)
                  (vertices ++ [if bScaleDown then scale_down v else v])
  end.

(** The vertex unpacked from the bytes that begin [i] chunks into the
    file. *)
Definition decoded (bScaleDown : bool) (chunk : nat) (file : pybytes)
                   (i : nat) : vertex :=
  let v := unpack_3f (take 12 (drop (i * chunk) file)) in
  if bScaleDown then scale_down v else v.

(** [read_vertices(file, chunk_datacount, bScaleDown)]: the vertices
    and the rest of the file. *)
Definition read_vertices (file : pybytes) (chunk_datacount : Z)
                         (bScaleDown : bool)
  : option (list vertex * pybytes) :=
  read_loop (Z.to_nat chunk_datacount) (Z.to_nat (chunk_datacount * 12))
            bScaleDown file [].

End WithUnpack.

End Vertices.

(** ** [blen_get_armature_from_selection] *)

Module Selection.

Inductive object_type := ARMATURE | MESH | OTHER.

(** A modifier: whether its type is ['ARMATURE'], and its object. *)
Record Modifier := {
  is_armature_modifier : bool;
  modifier_object : option nat
}.

(** An object of [bpy.data.objects]. *)
Record Object := {
  object_ref : nat;
  object_type_of : object_type;
  select_get : bool;
  modifiers : list Modifier
}.

Definition selected_armature (obj : Object) : bool :=
  match object_type_of obj with
  | ARMATURE => select_get obj
  | _ => false
  end.

Definition selected_mesh (obj : Object) : bool :=
  match object_type_of obj with
  | MESH => select_get obj
  | _ => false
  end.

(** The second loop: every selected mesh with an armature modifier
    replaces what was found so far by the object of its first such
    modifier. *)
Fixpoint mesh_loop (objects : list Object) (armature_obj : option nat)
  : option nat :=
  match objects with
  | [] => armature_obj
  | obj :: rest =>
      if selected_mesh obj
      then match List.find is_armature_modifier (modifiers obj) with
           | Some modifier => mesh_loop rest (modifier_object modifier)
           | None => mesh_loop rest armature_obj
           end
      else mesh_loop rest armature_obj
  end.

(** An object that the second loop passes over: not a selected mesh, or
    one without an armature modifier. *)
Definition passes (obj : Object) : Prop :=
  selected_mesh obj = false
  \/ Forall (fun m => is_armature_modifier m = false) (modifiers obj).

Definition blen_get_armature_from_selection (objects : list Object)
  : option nat :=
  match List.find selected_armature objects with
  | Some obj => Some (object_ref obj)
  | None => mesh_loop objects None
  end.

End Selection.

(** ** The message dialog of [Ui.py] *)

Module Message.

(** [message.split("\n")] *)
Fixpoint split_lines (message : pystr) : list pystr :=
  match message with
  | [] => [[]]
  | c :: rest =>
      if (c =? 10)%N then [] :: split_lines rest
      else match split_lines rest with
           | line :: others => (c :: line) :: others
           | [] => [[c]]
           end
  end.

(** The loop that finds the longest line. *)
Definition longest (lines : list pystr) : nat :=
  fold_left (fun maxlen line =>
               if (maxlen <? length line)%nat then length line else maxlen)
            lines 0%nat.

(** What [invoke] leaves in the operator and asks of the window manager:
    the first line, the remaining lines, the width of the dialog. *)
Record Dialog := {
  line0 : pystr;
  lines : list pystr;
  width : Z
}.

(** [invoke]; [None] is the [IndexError] of [pop(0)] on an empty list. *)
Definition invoke (message : pystr) : option Dialog :=
  let all := split_lines message in
  let maxlen := longest all in
  match all with
  | [] => None
  | first_line :: others =>
      Some {| line0 := first_line; lines := others;
              width := 100 + 6 * Z.of_nat maxlen |}
  end.

(** ["\n".join(lines)] *)
Fixpoint join_lines (lines : list pystr) : pystr :=
  match lines with
  | [] => []
  | [line] => line
  | line :: others => line ++ 10%N :: join_lines others
  end.

End Message.

(** ** Concrete inputs used by the examples below *)

Module Examples.

Import Sampler.

(** Frames 1..5 at a compression ratio of 3/4. *)
Definition three_quarters : PsaBuildSequence :=
  mk_sequence (codes "walk") 0 1 5 (3 # 4) 0 30.

(** A single frame at a compression ratio of 1/2. *)
Definition single_frame_half : PsaBuildSequence :=
  mk_sequence (codes "idle") 0 1 1 (1 # 2) 0 30.

(** Frames 0..5 with nothing kept: ratio 0, quota 0. *)
Definition zero_frames : PsaBuildSequence :=
  mk_sequence (codes "pose") 0 0 5 0 0 30.

(** A reversed range 5..0 reduced to the quota of one frame. *)
Definition reversed_single : PsaBuildSequence :=
  mk_sequence (codes "back") 0 5 0 0 1 30.

(** A reversed range 10..0 sampled fully. *)
Definition reversed_full : PsaBuildSequence :=
  mk_sequence (codes "back") 0 10 0 1 0 30.

(** A host that reports the identity transform everywhere. *)
Definition zero3 : Psa.Vector3 := {| Psa.x := 0; Psa.y := 0; Psa.z := 0 |}.
Definition unit_quat : Psa.Quaternion :=
  {| Psa.qx := 0; Psa.qy := 0; Psa.qz := 0; Psa.qw := 1 |}.
Definition rest_pose (b : Blender.Bone) : Psa.Quaternion * Psa.Vector3 :=
  (unit_quat, zero3).
Definition still_pose (root : bool) (act : nat) (frame : Z) (sub : Q)
                      (b : Blender.Bone) : Psa.Vector3 * Psa.Quaternion :=
  (zero3, unit_quat).
Definition any_bone_names (names : list pystr) : result unit := ok tt.

(** The chain root - mid - tip. *)
Definition root_bone : Blender.Bone :=
  {| Blender.ptr := 0; Blender.name := codes "root"; Blender.parent := None |}.
Definition mid_bone : Blender.Bone :=
  {| Blender.ptr := 1; Blender.name := codes "mid";
     Blender.parent := Some 0%nat |}.
Definition tip_bone : Blender.Bone :=
  {| Blender.ptr := 2; Blender.name := codes "tip";
     Blender.parent := Some 1%nat |}.
Definition chain : list Blender.Bone := [root_bone; mid_bone; tip_bone].

(** The chain exported without its root. *)
Definition rootless : list Blender.Bone := [mid_bone; tip_bone].

Definition records_of (bones : list Blender.Bone) : list Psa.Bone.t :=
  match Build.build_bones rest_pose bones [] bones with
  | inr records => records
  | inl _ => []
  end.

(** Ten frames halved, followed by a second sequence. *)
Definition walk_half : PsaBuildSequence :=
  mk_sequence (codes "walk") 0 1 10 (1 # 2) 0 30.
Definition run_full : PsaBuildSequence :=
  mk_sequence (codes "run") 1 1 4 1 0 30.

Definition options_of (l : list PsaBuildSequence) : PsaBuildOptions :=
  {| animation_data := Some {| linked_action := None |};
     sequences := l;
     should_enforce_bone_name_restrictions := false;
     sequence_name_prefix := [];
     sequence_name_suffix := [];
     root_motion := true |}.

Definition empty_psa : Psa.t :=
  {| Psa.bones := []; Psa.sequences := []; Psa.keys := [] |}.

Definition exported (bones : list Blender.Bone) (l : list PsaBuildSequence)
  : Psa.t :=
  match Build.build_psa_bones rest_pose still_pose any_bone_names
                              bones (options_of l) with
  | inr psa => psa
  | inl _ => empty_psa
  end.

(** A 32-byte header whose fields are all zero, on a one-file disk. *)
Definition zero_header : pybytes := replicate 32 x00%byte.
Definition one_file_disk (content : pybytes) (path : pystr)
  : option pybytes := Some content.
Definition no_sections (rest : pybytes) (count : Z) : result unit := ok tt.
Definition no_model (data : unit) : list IO.event * result bool :=
  ([], ok true).

(** A host for [psa_export]: every bone is exported. *)
Definition all_bone_names (arm : PsaExport.Armature) : list pystr :=
  List.map Blender.name (PsaExport.armature_bones arm).

Definition armature_of (bones : list Blender.Bone) : PsaExport.Armature :=
  {| PsaExport.armature_bones := bones;
     PsaExport.armature_animation_data :=
       Some {| linked_action := None |} |}.

(** A scene whose active and selected object is the given armature, with
    the given actions. *)
Definition scene_of (bones : list Blender.Bone)
                    (actions : list Blender.Action) : PsaExport.Context :=
  {| PsaExport.active_object := armature_of bones;
     PsaExport.selected_armature := Some (armature_of bones);
     PsaExport.render_fps := 30;
     PsaExport.data_actions := actions |}.

Definition export_of (bones : list Blender.Bone)
                     (actions : list Blender.Action)
  : list IO.event * result bool :=
  PsaExport.psa_export rest_pose still_pose any_bone_names all_bone_names
    (codes "a.psa") (scene_of bones actions) None false false.

(** A bone and a sequence named with a character outside the code page
    (U+9AA8 and U+8D70). *)
Definition cjk_bone : Blender.Bone :=
  {| Blender.ptr := 1; Blender.name := [0x9aa8%N];
     Blender.parent := Some 0%nat |}.
Definition cjk_sequence : PsaBuildSequence :=
  mk_sequence [0x8d70%N] 2 1 4 1 0 30.

End Examples.

(** ** Further concrete inputs *)

Module MoreExamples.

Import Sampler Examples.

(** A pose that records where and when it was sampled: the frame as x,
    the subframe as y, the bone as z. *)
Definition tracing_pose (root : bool) (act : nat) (frame : Z) (sub : Q)
                        (b : Blender.Bone) : Psa.Vector3 * Psa.Quaternion :=
  ({| Psa.x := inject_Z frame; Psa.y := sub;
      Psa.z := inject_Z (Z.of_nat (Blender.ptr b)) |}, unit_quat).

(** The data path of the location curve of a pose bone. *)
Definition location_path (bone_name : pystr) : pystr :=
  codes "pose.bones[" ++ Build.quote ++ bone_name ++ Build.quote
  ++ codes "].location".

(** An action over the frames 1 to 10.5 that moves the root bone. *)
Definition jog_action : Blender.Action :=
  {| Blender.action_id := 3; Blender.action_name := codes "jog";
     Blender.frame_range := (1, 21 # 2)%Q;
     Blender.fcurves := [location_path (codes "root")] |}.

(** The chain exported child before parent. *)
Definition child_first : list Blender.Bone := [mid_bone; root_bone].

(** A bone whose name encodes into 65 bytes. *)
Definition long_bone : Blender.Bone :=
  {| Blender.ptr := 1; Blender.name := replicate 65 97%N;
     Blender.parent := Some 0%nat |}.

(** A sequence with a clip rate of zero and a name outside the code
    page. *)
Definition still_sequence : PsaBuildSequence :=
  mk_sequence [0x8d70%N] 2 1 4 1 0 0.

Definition options_without_data (l : list PsaBuildSequence)
  : PsaBuildOptions :=
  {| animation_data := None;
     sequences := l;
     should_enforce_bone_name_restrictions := false;
     sequence_name_prefix := [];
     sequence_name_suffix := [];
     root_motion := true |}.

(** A second sequence whose name is that of [walk_half] once stripped. *)
Definition walk_padded : PsaBuildSequence :=
  mk_sequence (codes " walk") 1 1 4 1 0 30.

(** Two vertices of twelve zero bytes each, and a decoder that ignores
    the bytes. *)
Definition two_vertices : pybytes := replicate 24 x00%byte.
Definition origin_3f (buffer : pybytes) : Vertices.vertex := (0, 0, 0)%Q.

(** A selected mesh deformed by armature 7, a selected armature 9, and a
    second selected mesh deformed by armature 8. *)
Definition mesh_a : Selection.Object :=
  {| Selection.object_ref := 1; Selection.object_type_of := Selection.MESH;
     Selection.select_get := true;
     Selection.modifiers :=
       [ {| Selection.is_armature_modifier := true;
            Selection.modifier_object := Some 7%nat |} ] |}.
Definition armature_b : Selection.Object :=
  {| Selection.object_ref := 9;
     Selection.object_type_of := Selection.ARMATURE;
     Selection.select_get := true; Selection.modifiers := [] |}.
Definition mesh_c : Selection.Object :=
  {| Selection.object_ref := 3; Selection.object_type_of := Selection.MESH;
     Selection.select_get := true;
     Selection.modifiers :=
       [ {| Selection.is_armature_modifier := false;
            Selection.modifier_object := None |};
         {| Selection.is_armature_modifier := true;
            Selection.modifier_object := Some 8%nat |} ] |}.

End MoreExamples.

(** * Properties *)

(** ** Arithmetic of the Python primitives *)

Module PyFacts.

Lemma py_int_nonneg_floor (q : Q) : (0 <= q)%Q -> py_int q = Qfloor q.
Proof.
  destruct q as [n d]; unfold py_int, Qle; simpl; intros H.
  apply Z.quot_div_nonneg; lia.
Qed.

Lemma py_int_inject_Z (n : Z) : py_int (inject_Z n) = n.
Proof. unfold py_int; simpl. apply Z.quot_1_r. Qed.

Lemma py_int_Qeq (p q : Q) : (p == q)%Q -> py_int p = py_int q.
Proof.
  destruct p as [a b], q as [c d]; unfold py_int, Qeq; simpl; intros H.
  rewrite <- (Z.quot_mul_cancel_r a (Z.pos b) (Z.pos d)) by lia.
  rewrite H, (Z.mul_comm (Z.pos b)).
  apply Z.quot_mul_cancel_r; lia.
Qed.

Lemma py_int_ge_1 (q : Q) : 1 <= py_int q <-> (1 <= q)%Q.
Proof.
  destruct q as [n d]; unfold py_int, Qle; simpl.
  rewrite Z.mul_1_r, Z.mul_1_l.
  destruct (Z_le_gt_dec (Z.pos d) n) as [Hge | Hlt].
  - split; [tauto | intros _].
    pose proof (Z.quot_str_pos n (Z.pos d)); lia.
  - split; [| lia]. intros H1.
    destruct (Z_le_gt_dec 0 n).
    + rewrite Z.quot_small in H1; lia.
    + pose proof (Z.quot_pos (- n) (Z.pos d)).
      rewrite Z.quot_opp_l in H; lia.
Qed.

Lemma py_int_nonneg (q : Q) : (0 <= q)%Q -> 0 <= py_int q.
Proof.
  destruct q as [n d]; unfold py_int, Qle; simpl; intros H.
  apply Z.quot_pos; lia.
Qed.

Lemma py_truediv_ok (a b : Q) :
  ~ (b == 0)%Q -> py_truediv a b = ok (a / b)%Q.
Proof.
  intros H; unfold py_truediv.
  destruct (Qeq_bool b 0) eqn:E; [| reflexivity].
  apply Qeq_bool_iff in E; contradiction.
Qed.

Lemma py_truediv_zero (a b : Q) :
  (b == 0)%Q -> py_truediv a b = raise ZeroDivisionError.
Proof.
  intros H; unfold py_truediv.
  apply Qeq_bool_iff in H; now rewrite H.
Qed.

Lemma c_int32_small (v : Z) : - 2 ^ 31 <= v < 2 ^ 31 -> c_int32 v = v.
Proof. intros H; unfold c_int32. rewrite Z.mod_small; lia. Qed.

Lemma c_int32_succ (v : Z) : c_int32 (c_int32 v + 1) = c_int32 (v + 1).
Proof.
  unfold c_int32.
  replace ((v + 2 ^ 31) mod 2 ^ 32 - 2 ^ 31 + 1 + 2 ^ 31)
    with ((v + 2 ^ 31) mod 2 ^ 32 + 1) by lia.
  replace (v + 1 + 2 ^ 31) with (v + 2 ^ 31 + 1) by lia.
  now rewrite Zplus_mod_idemp_l.
Qed.

Lemma c_string_length (b : pybytes) :
  (length (c_string b) <= length b)%nat.
Proof.
  induction b as [| c r IH]; simpl; [lia |].
  destruct (Byte.eqb c x00); simpl; lia.
Qed.

(** A value without NUL is its own C string. *)
Lemma c_string_no_nul (b : pybytes) :
  Forall (fun c => c <> x00%byte) b -> c_string b = b.
Proof.
  induction 1 as [| c r Hc _ IH]; simpl; [reflexivity |].
  destruct (Byte.eqb c x00) eqn:E.
  - apply Byte.byte_dec_bl in E. contradiction.
  - now rewrite IH.
Qed.

(** A C string is cut at the first NUL of the value. *)
Lemma c_string_cut (before after : pybytes) :
  Forall (fun c => c <> x00%byte) before ->
  c_string (before ++ x00%byte :: after) = before.
Proof.
  induction 1 as [| c r Hc _ IH]; simpl; [reflexivity |].
  destruct (Byte.eqb c x00) eqn:E.
  - apply Byte.byte_dec_bl in E. contradiction.
  - now rewrite IH.
Qed.

End PyFacts.

(** ** The sampler *)

Module SamplerFacts.

Import Sampler PyFacts Examples.

Lemma frame_count_raw_pos (s : PsaBuildSequence) : 1 <= frame_count_raw s.
Proof. unfold frame_count_raw, frame_extents; lia. Qed.

(** C1, as amended. The frame count is the larger of the quota and the
    product of the raw frame count with the compression ratio truncated by
    [int] (its floor, the ratio being non-negative), where the raw frame
    count is [|frame_end - frame_start| + 1]; with a ratio of one and a
    quota of zero it is the raw frame count. *)
Theorem frame_count_truncates (s : PsaBuildSequence) :
  (0 <= compression_ratio s)%Q ->
  frame_count s =
    Z.max (key_quota s)
      (Qfloor (inject_Z
                 (Z.abs (frame_end (nla_state s) - frame_start (nla_state s))
                  + 1) * compression_ratio s))
  /\ ((compression_ratio s == 1)%Q -> key_quota s = 0 ->
      frame_count s =
        Z.abs (frame_end (nla_state s) - frame_start (nla_state s)) + 1).
Proof.
  intros Hr. pose proof (frame_count_raw_pos s) as Hraw.
  unfold frame_count, frame_count_raw, frame_extents in *. split.
  - f_equal. apply py_int_nonneg_floor.
    apply Qmult_le_0_compat; [| assumption].
    change 0%Q with (inject_Z 0); rewrite <- Zle_Qle; lia.
  - intros H1 Hq.
    rewrite (py_int_Qeq _ (inject_Z
      (Z.abs (frame_end (nla_state s) - frame_start (nla_state s)) + 1))).
    + rewrite py_int_inject_Z, Hq; lia.
    + rewrite H1. apply Qmult_1_r.
Qed.

Lemma frame_count_truncates_witness :
  frame_count three_quarters = 3
  /\ frame_count (mk_sequence (codes "walk") 0 1 5 1 0 30) = 5.
Proof.
  split.
  - rewrite (proj1 (frame_count_truncates three_quarters ltac:(vm_compute; discriminate))).
    reflexivity.
  - apply (proj2 (frame_count_truncates
                    (mk_sequence (codes "walk") 0 1 5 1 0 30)
                    ltac:(vm_compute; discriminate)));
      reflexivity.
Defined.

(** C1 as stated fails: five raw frames at a ratio of 3/4 give 3.75, which
    [int] turns into 3 and [round] into 4. *)
Lemma frame_count_is_not_rounded :
  frame_count three_quarters = 3
  /\ spec_frame_count three_quarters = 4
  /\ frame_count three_quarters <> spec_frame_count three_quarters.
Proof. vm_compute. repeat split; discriminate. Qed.

(** C3, as amended. For a non-negative ratio and quota the frame count is
    at least the quota and never negative, and it is at least one exactly
    when the quota is, or when the raw frame count times the ratio is. *)
Theorem frame_count_bounds (s : PsaBuildSequence) :
  (0 <= compression_ratio s)%Q -> 0 <= key_quota s ->
  key_quota s <= frame_count s
  /\ 0 <= frame_count s
  /\ (1 <= frame_count s <->
      1 <= key_quota s
      \/ (1 <= inject_Z (frame_count_raw s) * compression_ratio s)%Q).
Proof.
  intros Hr Hq. unfold frame_count.
  rewrite <- py_int_ge_1.
  generalize (py_int (inject_Z (frame_count_raw s) * compression_ratio s)).
  intros n. lia.
Qed.

Lemma frame_count_bounds_witness :
  key_quota single_frame_half <= frame_count single_frame_half
  /\ 0 <= frame_count single_frame_half.
Proof.
  pose proof (frame_count_bounds single_frame_half
                ltac:(vm_compute; discriminate) ltac:(vm_compute; discriminate))
    as [H1 [H2 _]].
  split; assumption.
Defined.

(** C3 as stated fails: a one-frame range at a ratio of 1/2 and a quota of
    zero, all within the stated bounds, is given no frame at all. *)
Lemma frame_count_can_be_zero :
  (0 <= compression_ratio single_frame_half <= 1)%Q
  /\ 0 <= key_quota single_frame_half
  /\ frame_count single_frame_half = 0
  /\ ~ (frame_count single_frame_half >= 1
        /\ frame_count single_frame_half >= key_quota single_frame_half).
Proof.
  repeat split; try (vm_compute; discriminate).
  vm_compute. intros [H _]. now apply H.
Qed.

End SamplerFacts.

Module StepFacts.

Import Sampler PyFacts Examples.

Lemma inject_Z_nonzero (n : Z) : n <> 0 -> ~ (inject_Z n == 0)%Q.
Proof.
  intros Hn H. apply Hn.
  now apply (proj1 (inject_Z_injective n 0)).
Qed.

(** The step before the reversal test. *)
Lemma forward_step (s : PsaBuildSequence) :
  frame_count s <> 1 ->
  py_truediv (inject_Z (frame_extents s)) (inject_Z (frame_count s - 1))
  = ok (inject_Z (frame_extents s) / inject_Z (frame_count s - 1))%Q.
Proof. intros H. apply py_truediv_ok, inject_Z_nonzero. lia. Qed.

Lemma single_step (s : PsaBuildSequence) :
  frame_count s = 1 ->
  py_truediv (inject_Z (frame_extents s)) (inject_Z (frame_count s - 1))
  = raise ZeroDivisionError.
Proof. intros H. apply py_truediv_zero. now rewrite H. Qed.

(** C4, as amended. The frame step is
    [(frame_end - frame_start) / (frame_count - 1)] whenever the frame
    count is not one, and zero when it is one; for more than one frame it
    is negative on a reversed range and positive on a forward one. *)
Theorem frame_step_formula (s : PsaBuildSequence) :
  (frame_count s <> 1 ->
   (frame_step s ==
    inject_Z (frame_end (nla_state s) - frame_start (nla_state s))
    / inject_Z (frame_count s - 1))%Q)
  /\ (frame_count s = 1 -> (frame_step s == 0)%Q)
  /\ (1 < frame_count s ->
      frame_start (nla_state s) > frame_end (nla_state s) ->
      (frame_step s < 0)%Q)
  /\ (1 < frame_count s ->
      frame_start (nla_state s) < frame_end (nla_state s) ->
      (0 < frame_step s)%Q).
Proof.
  assert (Hne : frame_count s <> 1 ->
    (frame_step s ==
     inject_Z (frame_end (nla_state s) - frame_start (nla_state s))
     / inject_Z (frame_count s - 1))%Q).
  { intros H. unfold frame_step. rewrite (forward_step s H).
    unfold ok; cbv beta iota zeta.
    pose proof (inject_Z_nonzero (frame_count s - 1) ltac:(lia)) as Hk.
    unfold frame_extents.
    destruct (Z.gtb_spec (frame_start (nla_state s))
                         (frame_end (nla_state s))) as [Hrev | Hfwd].
    - rewrite Z.abs_neq by lia. rewrite inject_Z_opp. unfold Qdiv. ring.
    - rewrite Z.abs_eq by lia. reflexivity. }
  assert (Hpos : forall k, 1 < k -> (0 < inject_Z (k - 1))%Q).
  { intros k Hk. change 0%Q with (inject_Z 0). rewrite <- Zlt_Qlt. lia. }
  split; [exact Hne |]. split; [| split].
  - intros H. unfold frame_step. rewrite (single_step s H). simpl.
    destruct (_ >? _); reflexivity.
  - intros Hc Hrev. rewrite Hne by lia.
    apply Qlt_shift_div_r; [now apply Hpos |].
    rewrite Qmult_0_l. change 0%Q with (inject_Z 0).
    rewrite <- Zlt_Qlt. lia.
  - intros Hc Hfwd. rewrite Hne by lia.
    apply Qlt_shift_div_l; [now apply Hpos |].
    rewrite Qmult_0_l. change 0%Q with (inject_Z 0).
    rewrite <- Zlt_Qlt. lia.
Qed.

Lemma frame_step_formula_witness :
  (frame_step reversed_full == - (1))%Q /\ (frame_step reversed_full < 0)%Q.
Proof.
  destruct (frame_step_formula reversed_full) as [H1 [_ [H3 _]]].
  split.
  - rewrite H1 by (vm_compute; discriminate). reflexivity.
  - apply H3; reflexivity.
Defined.

(** C4 as stated fails twice: with no frame kept the step of the range
    0..5 is -5 and not zero, and the reversed range 5..0 reduced to one
    frame has a step of zero, which is not negative. *)
Lemma frame_step_not_as_stated :
  (frame_count zero_frames <= 1 /\ ~ (frame_step zero_frames == 0)%Q)
  /\ (frame_start (nla_state reversed_single)
        > frame_end (nla_state reversed_single)
      /\ ~ (frame_step reversed_single < 0)%Q).
Proof.
  repeat split; vm_compute; congruence.
Qed.

End StepFacts.

(** ** The bone records *)

Module BoneFacts.

Import Build Invariants PyFacts.

Lemma encode_name_inv (err : pystr -> exn) (nm : pystr) (field : pybytes) :
  encode_name err nm = ok field ->
  exists raw, cp1252_encode nm = Some raw
              /\ (length (c_string raw) <= 64)%nat
              /\ field = c_string raw
                         ++ replicate (64 - length (c_string raw)) x00%byte.
Proof.
  unfold encode_name, c_char_array.
  destruct (cp1252_encode nm) as [raw |]; simpl; [| discriminate].
  destruct (Nat.ltb_spec 64 (length (c_string raw))); [discriminate |].
  intros [= <-]. exists raw. auto.
Qed.

Lemma encode_name_unencodable (err : pystr -> exn) (nm : pystr) :
  cp1252_encode nm = None -> encode_name err nm = raise (err nm).
Proof. unfold encode_name. now intros ->. Qed.

Section WithHost.

Variable bind_pose : Blender.Bone -> Psa.Quaternion * Psa.Vector3.
Variable bones : list Blender.Bone.

Local Notation "'plook' b" := (bones_index bones (Blender.parent b))
  (at level 10, b at level 9, only parsing).

(** What a successful iteration of the bone loop has done. *)
Lemma add_bone_inv (acc acc' : list Psa.Bone.t) (b : Blender.Bone) :
  add_bone bind_pose bones acc b = ok acc' ->
  exists field,
    encode_name bone_name_error (Blender.name b) = ok field
    /\ ((exists p, plook b = Some p /\ (p < length acc)%nat
                   /\ acc' = alter incr_children p acc
                             ++ [fresh_record bind_pose bones b field])
        \/ (plook b = None /\ acc' = acc ++ [fresh_record bind_pose bones b field])).
Proof.
  unfold add_bone, fresh_record, parent_field.
  destruct (encode_name bone_name_error (Blender.name b)) as [e | field];
    simpl; [discriminate |].
  destruct (plook b) as [p |] eqn:Hp; simpl.
  - destruct (acc !! p) as [r |] eqn:Hr; simpl; [| discriminate].
    intros [= <-]. exists field. split; [reflexivity |]. left.
    exists p. repeat split. now apply lookup_lt_Some in Hr.
  - intros [= <-]. exists field. split; [reflexivity |]. now right.
Qed.

Lemma children_in_snoc (done : list Blender.Bone) (b : Blender.Bone)
                       (j : nat) :
  children_in bones (done ++ [b]) j
  = (children_in bones done j
     + if decide (plook b = Some j) then 1 else 0)%nat.
Proof.
  unfold children_in. rewrite filter_app, length_app. f_equal.
  rewrite filter_cons, filter_nil. now destruct (decide _).
Qed.

Lemma children_in_beyond (done : list Blender.Bone) (j : nat) :
  Forall (fun b => forall p, plook b = Some p -> (p < j)%nat) done ->
  children_in bones done j = 0%nat.
Proof.
  unfold children_in. induction 1 as [| b l Hb Hl IH]; [reflexivity |].
  rewrite filter_cons. destruct (decide _) as [E | _]; [| exact IH].
  apply Hb in E. lia.
Qed.

Lemma bones_inv_nil : bones_inv bones [] [].
Proof. split; [constructor | intros j r; discriminate | constructor]. Qed.

Lemma bones_inv_step (done : list Blender.Bone)
                     (acc acc' : list Psa.Bone.t) (b : Blender.Bone) :
  bones_inv bones done acc ->
  add_bone bind_pose bones acc b = ok acc' ->
  bones_inv bones (done ++ [b]) acc'.
Proof.
  intros [Hf Hc Hp] Hadd.
  pose proof (Forall2_length _ _ _ Hf) as Hlen.
  destruct (add_bone_inv _ _ _ Hadd) as [field [Henc Hcase]].
  assert (Hbefore : Forall (fun b0 => forall p, plook b0 = Some p ->
                              (p < length (done ++ [b]))%nat)
                           (done ++ [b])).
  { rewrite length_app; simpl. apply Forall_app; split.
    - eapply Forall_impl; [exact Hp |]. simpl. intros b0 H0 p Hp0.
      apply H0 in Hp0. lia.
    - constructor; [| constructor]. intros p Hp0.
      destruct Hcase as [[p' [Hp' [Hlt _]]] | [Hnone _]].
      + rewrite Hp' in Hp0. injection Hp0 as <-. lia.
      + rewrite Hnone in Hp0. discriminate. }
  assert (Hnew : children_in bones (done ++ [b]) (length acc) = 0%nat).
  { apply children_in_beyond. rewrite <- Hlen.
    apply Forall_app; split; [exact Hp |].
    constructor; [| constructor]. intros p Hp0.
    destruct Hcase as [[p' [Hp' [Hlt _]]] | [Hnone _]].
    + rewrite Hp' in Hp0. injection Hp0 as <-. lia.
    + rewrite Hnone in Hp0. discriminate. }
  destruct Hcase as [[p [Hpl [Hlt ->]]] | [Hnone ->]].
  - split; [| | exact Hbefore].
    + apply Forall2_app.
      * apply Forall2_alter_r; [exact Hf |]. now intros x y _ _ H.
      * constructor; [| constructor]. simpl. now split.
    + intros j r Hj. rewrite children_in_snoc, Hpl.
      destruct (Nat.lt_ge_cases j (length acc)) as [Hjl | Hjg].
      * rewrite lookup_app_l in Hj by now rewrite length_alter.
        destruct (decide (p = j)) as [<- | Hne].
        -- rewrite list_lookup_alter_eq in Hj.
           destruct (acc !! p) as [r0 |] eqn:Hr0; [| discriminate].
           injection Hj as <-. simpl.
           rewrite (Hc _ _ Hr0), c_int32_succ.
           rewrite decide_True by reflexivity. f_equal. lia.
        -- rewrite list_lookup_alter_ne in Hj by exact Hne.
           rewrite (Hc _ _ Hj).
           rewrite decide_False by congruence. f_equal. lia.
      * rewrite lookup_app_r in Hj by now rewrite length_alter.
        rewrite length_alter in Hj.
        destruct (j - length acc)%nat as [| k] eqn:Hk; [| discriminate].
        injection Hj as <-. simpl.
        assert (j = length acc) as -> by lia.
        rewrite <- Hpl, <- children_in_snoc, Hnew. reflexivity.
  - split; [| | exact Hbefore].
    + apply Forall2_app; [exact Hf |].
      constructor; [| constructor]. simpl. now split.
    + intros j r Hj. rewrite children_in_snoc, Hnone.
      rewrite decide_False by discriminate. rewrite Nat.add_0_r.
      destruct (Nat.lt_ge_cases j (length acc)) as [Hjl | Hjg].
      * rewrite lookup_app_l in Hj by exact Hjl. now apply Hc.
      * rewrite lookup_app_r in Hj by exact Hjg.
        destruct (j - length acc)%nat as [| k] eqn:Hk; [| discriminate].
        injection Hj as <-. simpl.
        assert (j = length acc) as -> by lia.
        rewrite children_in_snoc, Hnone in Hnew.
        rewrite decide_False in Hnew by discriminate.
        rewrite Nat.add_0_r in Hnew. now rewrite Hnew.
Qed.

Lemma build_bones_inv (todo done : list Blender.Bone)
                      (acc final : list Psa.Bone.t) :
  bones_inv bones done acc ->
  build_bones bind_pose bones acc todo = ok final ->
  bones_inv bones (done ++ todo) final.
Proof.
  revert done acc. induction todo as [| b rest IH]; intros done acc Hinv.
  - simpl. intros [= <-]. now rewrite app_nil_r.
  - simpl. destruct (add_bone bind_pose bones acc b) as [e | acc'] eqn:Hadd;
      simpl; [discriminate |].
    intros Hrest.
    replace (done ++ b :: rest) with ((done ++ [b]) ++ rest)
      by now rewrite <- app_assoc.
    eapply IH; [| exact Hrest].
    eapply bones_inv_step; eassumption.
Qed.

(** The records of a successful bone loop over the exported bones. *)
Lemma build_bones_records (records : list Psa.Bone.t) :
  build_bones bind_pose bones [] bones = ok records ->
  bones_inv bones bones records.
Proof. intros H. exact (build_bones_inv bones [] [] records bones_inv_nil H). Qed.

End WithHost.

End BoneFacts.

(** ** Children counts and parent indices of the exported bones *)

Module ChildrenFacts.

Import Build Invariants PyFacts BoneFacts Examples.

Lemma filter_length_Forall2 {A B} (R : A -> B -> Prop)
      (P : A -> Prop) (Q : B -> Prop)
      `{forall a, Decision (P a)} `{forall b, Decision (Q b)}
      (l : list A) (k : list B) :
  Forall2 R l k ->
  (forall a b, R a b -> (P a <-> Q b)) ->
  length (filter P l) = length (filter Q k).
Proof.
  intros HF HR. induction HF as [| a b l k Hab _ IH]; [reflexivity |].
  rewrite !filter_cons. specialize (HR a b Hab).
  destruct (decide (P a)), (decide (Q b)); simpl; tauto || congruence.
Qed.

Section WithBones.

Variable bones : list Blender.Bone.

Lemma children_in_le (l : list Blender.Bone) (j : nat) :
  (children_in bones l j <= length l)%nat.
Proof. apply length_filter. Qed.

Lemma children_in_delete (l : list Blender.Bone) (i j : nat)
                         (b : Blender.Bone) :
  l !! i = Some b ->
  bones_index bones (Blender.parent b) <> Some j ->
  children_in bones (delete i l) j = children_in bones l j.
Proof.
  intros Hl Hb. unfold children_in.
  rewrite <- (take_drop_middle l i b Hl) at 2.
  rewrite delete_take_drop, !filter_app, filter_cons.
  now rewrite decide_False by exact Hb.
Qed.

(** Counting by the written [parent_index] field: position 0 also
    collects every bone without an exported parent. *)
Lemma count_parent_field (l : list Blender.Bone) (n i : nat) :
  Z.of_nat n < 2 ^ 31 ->
  Forall (fun b => forall p, bones_index bones (Blender.parent b) = Some p
                             -> (p < n)%nat) l ->
  length (filter (fun b => parent_field bones b = Z.of_nat i) l)
  = (children_in bones l i
     + if decide (i = 0%nat)
       then length (filter (fun b => bones_index bones (Blender.parent b)
                                     = None) l)
       else 0)%nat.
Proof.
  intros Hn. unfold children_in.
  induction 1 as [| b l Hb _ IH]; [now destruct (decide _) |].
  rewrite !filter_cons.
  assert (Hcase : (exists p, bones_index bones (Blender.parent b) = Some p)
                  \/ bones_index bones (Blender.parent b) = None)
    by (destruct (bones_index bones (Blender.parent b)); eauto).
  destruct Hcase as [[p Hp] | Hp].
  - assert (Hpf : parent_field bones b = Z.of_nat p).
    { unfold parent_field. rewrite Hp. apply c_int32_small.
      specialize (Hb p Hp). lia. }
    repeat case_decide; rewrite ?Hpf, ?Hp in *; simplify_eq; simpl;
      try lia; exfalso; lia || congruence.
  - assert (Hpf : parent_field bones b = 0).
    { unfold parent_field. now rewrite Hp. }
    repeat case_decide; rewrite ?Hpf, ?Hp in *; simplify_eq; simpl;
      try lia; exfalso; lia || congruence.
Qed.

End WithBones.

(** C5, as amended. After a successful bone loop over fewer than 2^31
    bones, the children count of the record at index [i] is the number of
    exported bones whose parent is found in the exported list at index
    [i]. For [i] other than zero that is the number of records whose
    parent index equals [i]; for index zero the records whose parent index
    is zero are these children together with every bone that has no
    exported parent, the root among them. *)
Theorem children_count_exported
        (bind_pose : Blender.Bone -> Psa.Quaternion * Psa.Vector3)
        (bones : list Blender.Bone) (records : list Psa.Bone.t)
        (i : nat) (r : Psa.Bone.t) :
  build_bones bind_pose bones [] bones = ok records ->
  Z.of_nat (length bones) < 2 ^ 31 ->
  records !! i = Some r ->
  Psa.Bone.children_count r = Z.of_nat (children_in bones bones i)
  /\ (i <> 0%nat ->
      Psa.Bone.children_count r = spec_children_count records i)
  /\ (i = 0%nat ->
      Psa.Bone.children_count r
      + Z.of_nat (length (filter (fun b => bones_index bones (Blender.parent b)
                                           = None) bones))
      = spec_children_count records 0).
Proof.
  intros Hbuild Hlen Hr.
  destruct (build_bones_records bind_pose bones records Hbuild)
    as [Hf Hc Hp].
  assert (Hcount : Psa.Bone.children_count r
                   = Z.of_nat (children_in bones bones i)).
  { rewrite (Hc i r Hr). apply c_int32_small.
    pose proof (children_in_le bones bones i). lia. }
  assert (Hspec : spec_children_count records i
                  = Z.of_nat (length (filter (fun b => parent_field bones b
                                                       = Z.of_nat i) bones))).
  { unfold spec_children_count. f_equal. symmetry.
    apply (filter_length_Forall2 _ _ _ _ _ Hf).
    intros b r' [Hpi _]. now rewrite Hpi. }
  rewrite (count_parent_field bones bones (length bones) i Hlen Hp)
    in Hspec.
  split; [exact Hcount |]. split; intros Hi.
  - rewrite decide_False in Hspec by exact Hi. lia.
  - subst i. rewrite decide_True in Hspec by reflexivity. lia.
Qed.

Lemma children_count_exported_witness :
  exists r, records_of chain !! 1%nat = Some r
            /\ Psa.Bone.children_count r
               = spec_children_count (records_of chain) 1.
Proof.
  eexists. split; [vm_compute; reflexivity |].
  refine (proj1 (proj2 (children_count_exported rest_pose chain
                          (records_of chain) 1 _ _ _ _)) _).
  - vm_compute. reflexivity.
  - vm_compute. reflexivity.
  - vm_compute. reflexivity.
  - discriminate.
Defined.

(** C5 as stated fails at the root: in the chain root - mid - tip the root
    record has one child, while two records (the root's own and that of
    mid) carry a parent index of zero. *)
Lemma root_children_count_differs :
  build_bones rest_pose chain [] chain = ok (records_of chain)
  /\ exists r, records_of chain !! 0%nat = Some r
               /\ Psa.Bone.parent_index r = 0
               /\ Psa.Bone.children_count r = 1
               /\ spec_children_count (records_of chain) 0 = 2
               /\ Psa.Bone.children_count r
                  <> spec_children_count (records_of chain) 0.
Proof.
  split; [vm_compute; reflexivity |].
  eexists; split; [vm_compute; reflexivity |].
  vm_compute. repeat split; discriminate.
Qed.

(** C10. A bone whose parent is not found in the exported list, the root
    included, is written with a parent index of zero; every children count
    is what the other bones alone account for; and its parent index is the
    one written for a bone whose parent is the bone at index zero. *)
Theorem unparented_bone_record
        (bind_pose : Blender.Bone -> Psa.Quaternion * Psa.Vector3)
        (bones : list Blender.Bone) (records : list Psa.Bone.t)
        (i : nat) (b : Blender.Bone) (r : Psa.Bone.t) :
  build_bones bind_pose bones [] bones = ok records ->
  bones !! i = Some b ->
  bones_index bones (Blender.parent b) = None ->
  records !! i = Some r ->
  Psa.Bone.parent_index r = 0
  /\ (forall j r', records !! j = Some r' ->
        Psa.Bone.children_count r'
        = c_int32 (Z.of_nat (children_in bones (delete i bones) j)))
  /\ (forall j b' r',
        bones !! j = Some b' -> records !! j = Some r' ->
        bones_index bones (Blender.parent b') = Some 0%nat ->
        Psa.Bone.parent_index r' = Psa.Bone.parent_index r).
Proof.
  intros Hbuild Hb Hnone Hr.
  destruct (build_bones_records bind_pose bones records Hbuild)
    as [Hf Hc _].
  assert (H0 : Psa.Bone.parent_index r = 0).
  { destruct (Forall2_lookup_lr _ _ _ _ _ _ Hf Hb Hr) as [Hpi _].
    rewrite Hpi. unfold parent_field. now rewrite Hnone. }
  split; [exact H0 |]. split.
  - intros j r' Hr'. rewrite (Hc j r' Hr').
    rewrite (children_in_delete bones bones i j b Hb); [reflexivity |].
    rewrite Hnone. discriminate.
  - intros j b' r' Hb' Hr' Hp.
    destruct (Forall2_lookup_lr _ _ _ _ _ _ Hf Hb' Hr') as [Hpi _].
    rewrite Hpi, H0. unfold parent_field. now rewrite Hp.
Qed.

Lemma unparented_bone_record_witness :
  exists r, records_of rootless !! 0%nat = Some r
            /\ Psa.Bone.parent_index r = 0.
Proof.
  eexists. split; [vm_compute; reflexivity |].
  refine (proj1 (unparented_bone_record rest_pose rootless
                   (records_of rootless) 0 mid_bone _ _ _ _ _)).
  - vm_compute. reflexivity.
  - reflexivity.
  - vm_compute. reflexivity.
  - vm_compute. reflexivity.
Defined.

End ChildrenFacts.

(** ** The sequence records and the key array *)

Module SequenceFacts.

Import Build Invariants PyFacts BoneFacts.

Lemma py_truediv_inv (a b q : Q) :
  py_truediv a b = ok q -> ~ (b == 0)%Q /\ q = (a / b)%Q.
Proof.
  unfold py_truediv. destruct (Qeq_bool b 0) eqn:E; [discriminate |].
  intros [= <-]. split; [| reflexivity].
  intros H. apply Qeq_bool_iff in H. congruence.
Qed.

Lemma odict_set_fresh {V} (k : pystr) (v : V) (d : list (pystr * V)) :
  k ∉ d.*1 -> odict_set k v d = d ++ [(k, v)].
Proof.
  induction d as [| [k' v'] d IH]; simpl; [reflexivity |].
  intros Hk. apply not_elem_of_cons in Hk as [Hne Hk].
  rewrite decide_False by congruence. now rewrite IH.
Qed.

Lemma frames_before_app (l k : list Sampler.PsaBuildSequence) :
  frames_before (l ++ k) = frames_before l + frames_before k.
Proof. induction l; simpl; [reflexivity | rewrite IHl; lia]. Qed.

Lemma samples_before_app (l k : list Sampler.PsaBuildSequence) :
  samples_before (l ++ k) = (samples_before l + samples_before k)%nat.
Proof. induction l; simpl; [reflexivity | rewrite IHl; lia]. Qed.

Lemma samples_before_frames (l : list Sampler.PsaBuildSequence) :
  Forall (fun s => 0 <= Sampler.frame_count s) l ->
  Z.of_nat (samples_before l) = frames_before l.
Proof. induction 1; simpl; [reflexivity | lia]. Qed.

Section WithHost.

Variable bind_pose : Blender.Bone -> Psa.Quaternion * Psa.Vector3.
Variable pose_at :
  bool -> nat -> Z -> Q -> Blender.Bone -> Psa.Vector3 * Psa.Quaternion.
Variable check_bone_names : list pystr -> result unit.
Variable root : bool.
Variable pose_bones : list Blender.Bone.

(** The keys of one sampled frame. *)
Lemma sample_bones_inv (act : nat) (frame sequence_fps : Q)
      (todo : list Blender.Bone) (keys keys' : list Psa.Key.t) :
  sample_bones pose_at root act frame sequence_fps todo keys = ok keys' ->
  exists new, keys' = keys ++ new
              /\ length new = length todo
              /\ Forall (fun k => Psa.Key.time k = (1 / sequence_fps)%Q) new.
Proof.
  revert keys. induction todo as [| pb rest IH]; simpl; intros keys.
  - intros [= <-]. exists []. now rewrite app_nil_r.
  - unfold make_key.
    destruct (py_truediv 1 sequence_fps) as [e | t] eqn:Ht; simpl;
      [discriminate |].
    intros H. destruct (IH _ H) as [new [-> [Hlen Hall]]].
    eexists (_ :: new). rewrite <- app_assoc. split; [reflexivity |].
    split; [simpl; now rewrite Hlen |].
    constructor; [| exact Hall]. simpl.
    now destruct (py_truediv_inv _ _ _ Ht).
Qed.

(** The keys of one sequence. *)
Lemma sample_frames_inv (act : nat) (frame_step sequence_fps : Q)
      (n : nat) (frame : Q) (keys keys' : list Psa.Key.t) :
  sample_frames pose_at root act frame_step sequence_fps pose_bones
                n frame keys = ok keys' ->
  exists new, keys' = keys ++ new
              /\ length new = (length pose_bones * n)%nat
              /\ Forall (fun k => Psa.Key.time k = (1 / sequence_fps)%Q) new.
Proof.
  revert frame keys. induction n as [| n IH]; simpl; intros frame keys.
  - intros [= <-]. exists []. rewrite app_nil_r, Nat.mul_0_r.
    repeat split. constructor.
  - destruct (sample_bones pose_at root act frame sequence_fps
                           pose_bones keys) as [e | keys1] eqn:H1; simpl;
      [discriminate |].
    intros H. destruct (sample_bones_inv _ _ _ _ _ _ H1)
      as [new1 [-> [Hl1 Ha1]]].
    destruct (IH _ _ H) as [new2 [-> [Hl2 Ha2]]].
    exists (new1 ++ new2). rewrite app_assoc. split; [reflexivity |].
    split; [rewrite length_app; lia | now apply Forall_app].
Qed.

(** The fields of a sequence record. *)
Lemma make_sequence_inv (start : Z) (s : Sampler.PsaBuildSequence)
                        (record : Psa.Sequence.t) :
  make_sequence pose_bones start s = ok record ->
  ~ (Sampler.fps s == 0)%Q
  /\ encode_name sequence_name_error (Sampler.name s)
     = ok (Psa.Sequence.name record)
  /\ Psa.Sequence.fps record
     = (inject_Z (Sampler.frame_count s)
        / (inject_Z (Sampler.frame_count_raw s) / Sampler.fps s))%Q
  /\ Psa.Sequence.frame_start_index record = c_int32 start
  /\ Psa.Sequence.frame_count record = c_int32 (Sampler.frame_count s)
  /\ Psa.Sequence.bone_count record
     = c_int32 (Z.of_nat (length pose_bones)).
Proof.
  unfold make_sequence, Sampler.sequence_duration.
  destruct (py_truediv (inject_Z (Sampler.frame_count_raw s))
                       (Sampler.fps s)) as [e | d] eqn:Hd; simpl;
    [discriminate |].
  destruct (py_truediv_inv _ _ _ Hd) as [Hfps ->].
  destruct (encode_name sequence_name_error (Sampler.name s))
    as [e | field]; simpl; [discriminate |].
  destruct (py_truediv (inject_Z (Sampler.frame_count s)) _)
    as [e | f] eqn:Hf; simpl; [discriminate |].
  destruct (py_truediv_inv _ _ _ Hf) as [_ ->].
  intros [= <-]. simpl. repeat split. exact Hfps.
Qed.

Lemma build_sequences_emits (todo : list Sampler.PsaBuildSequence)
      (psa psa' : Psa.t) (start start' : Z) :
  build_sequences pose_at root pose_bones (psa, start) todo
  = ok (psa', start') ->
  exists blocks,
    emits pose_bones start todo blocks
    /\ Psa.bones psa' = Psa.bones psa
    /\ Psa.keys psa' = Psa.keys psa ++ concat blocks.*2
    /\ Psa.sequences psa' = store (Psa.sequences psa) todo blocks
    /\ start' = start + frames_before todo.
Proof.
  revert psa start. induction todo as [| s rest IH]; simpl; intros psa start.
  - intros [= <- <-]. exists []. simpl. rewrite app_nil_r.
    repeat split; [constructor | lia].
  - unfold add_sequence at 1. simpl.
    destruct (make_sequence pose_bones start s) as [e | record] eqn:Hrec;
      simpl; [discriminate |].
    destruct (sample_frames _ _ _ _ _ _ _ _ _) as [e | keys1] eqn:Hk;
      simpl; [discriminate |].
    intros H. destruct (IH _ _ H) as [blocks [He [Hb [Hkeys [Hs ->]]]]].
    destruct (sample_frames_inv _ _ _ _ _ _ _ Hk) as [new [-> [Hl Ha]]].
    exists ((record, new) :: blocks). simpl in *.
    split; [now constructor |].
    split; [exact Hb |].
    split; [now rewrite Hkeys, <- app_assoc |].
    split; [exact Hs | lia].
Qed.

Lemma emits_length (start : Z) (todo : list Sampler.PsaBuildSequence)
      (blocks : list (Psa.Sequence.t * list Psa.Key.t)) :
  emits pose_bones start todo blocks -> length blocks = length todo.
Proof. induction 1; simpl; congruence. Qed.

Lemma emits_keys_length (start : Z) (todo : list Sampler.PsaBuildSequence)
      (blocks : list (Psa.Sequence.t * list Psa.Key.t)) :
  emits pose_bones start todo blocks ->
  length (concat blocks.*2)
  = (length pose_bones * samples_before todo)%nat.
Proof.
  induction 1 as [| start s rest record new blocks _ Hl _ _ IH];
    [simpl; lia |].
  rewrite fmap_cons. cbn [snd concat samples_before fold_right].
  fold (samples_before rest).
  rewrite length_app, Hl, IH. lia.
Qed.

(** The block and the record of the sequence at position [i]. *)
Lemma emits_lookup (start : Z) (todo : list Sampler.PsaBuildSequence)
      (blocks : list (Psa.Sequence.t * list Psa.Key.t))
      (i : nat) (s : Sampler.PsaBuildSequence) :
  emits pose_bones start todo blocks ->
  todo !! i = Some s ->
  exists record new,
    blocks !! i = Some (record, new)
    /\ make_sequence pose_bones (start + frames_before (take i todo)) s
       = ok record
    /\ length new
       = (length pose_bones * Z.to_nat (Sampler.frame_count s))%nat
    /\ Forall (fun k => Psa.Key.time k
                        = (1 / Psa.Sequence.fps record)%Q) new
    /\ take (length new)
            (drop (length pose_bones * samples_before (take i todo))
                  (concat blocks.*2)) = new.
Proof.
  intros He. revert i.
  induction He as [| start s0 rest record new blocks Hrec Hl Ha He IH];
    intros i Hi; [discriminate |].
  destruct i as [| i].
  - injection Hi as <-. exists record, new.
    split; [reflexivity |].
    split; [simpl; now rewrite Z.add_0_r |].
    split; [exact Hl |]. split; [exact Ha |].
    rewrite fmap_cons. cbn [snd concat take samples_before fold_right].
    now rewrite Nat.mul_0_r, drop_0, take_app_length.
  - destruct (IH i Hi) as [record' [new' [Hb [Hm [Hl' [Ha' Ht]]]]]].
    exists record', new'. split; [exact Hb |].
    split.
    { cbn [take frames_before fold_right]. fold (frames_before (take i rest)).
      now rewrite Z.add_assoc. }
    split; [exact Hl' |]. split; [exact Ha' |].
    rewrite fmap_cons. cbn [snd concat take samples_before fold_right].
    fold (samples_before (take i rest)).
    rewrite Nat.mul_add_distr_l, <- Hl.
    now rewrite drop_app_add.
Qed.

(** With distinct names every record is appended to the dictionary. *)
Lemma store_fresh (start : Z) (todo : list Sampler.PsaBuildSequence)
      (blocks : list (Psa.Sequence.t * list Psa.Key.t))
      (d : list (pystr * Psa.Sequence.t)) :
  emits pose_bones start todo blocks ->
  NoDup (d.*1 ++ List.map Sampler.name todo) ->
  store d todo blocks
  = d ++ zip (List.map Sampler.name todo) blocks.*1.
Proof.
  intros He. revert d.
  induction He as [| start s rest record new blocks _ _ _ He IH];
    intros d Hnd; unfold store in *; simpl.
  - now rewrite app_nil_r.
  - apply NoDup_app in Hnd as Hparts. destruct Hparts as [Hd [Hsep Ht]].
    rewrite odict_set_fresh.
    + rewrite IH.
      * now rewrite <- app_assoc.
      * rewrite fmap_app. simpl. rewrite <- app_assoc. exact Hnd.
    + intros Hin. apply (Hsep _ Hin). left.
Qed.

Lemma build_psa_bones_inv (bones : list Blender.Bone)
      (options : PsaBuildOptions) (psa : Psa.t) :
  build_psa_bones bind_pose pose_at check_bone_names bones options
  = ok psa ->
  bones <> []
  /\ exists psa_bones start,
       build_bones bind_pose bones [] bones = ok psa_bones
       /\ build_sequences pose_at (root_motion options) bones
            ({| Psa.bones := psa_bones; Psa.sequences := [];
                Psa.keys := [] |}, 0) (renamed options)
          = ok (psa, start).
Proof.
  unfold build_psa_bones.
  destruct (Nat.eqb_spec (length bones) 0) as [Hz | Hnz]; [discriminate |].
  destruct (if should_enforce_bone_name_restrictions options then _ else _)
    as [e | u]; cbn [bind]; [discriminate |].
  destruct (build_bones bind_pose bones [] bones)
    as [e | psa_bones]; cbn [bind]; [discriminate |].
  destruct (animation_data options) as [d |]; cbn [bind]; [| discriminate].
  destruct (build_sequences _ _ _ _ _) as [e | [psa' start]] eqn:Hs;
    cbn [bind]; [discriminate |].
  intros [= <-]. split; [now intros -> |]. eauto.
Qed.

End WithHost.

(** The sequence at position [i] of a successful export with distinct
    sequence names: its record and its keys. *)
Lemma exported_sequence
      (bind_pose : Blender.Bone -> Psa.Quaternion * Psa.Vector3)
      (pose_at : bool -> nat -> Z -> Q -> Blender.Bone
                 -> Psa.Vector3 * Psa.Quaternion)
      (check_bone_names : list pystr -> result unit)
      (bones : list Blender.Bone) (options : PsaBuildOptions)
      (psa : Psa.t) (i : nat) (s : Sampler.PsaBuildSequence) :
  build_psa_bones bind_pose pose_at check_bone_names bones options
  = ok psa ->
  NoDup (Sampler.name <$> renamed options) ->
  renamed options !! i = Some s ->
  exists record,
    Psa.sequences psa !! i = Some (Sampler.name s, record)
    /\ make_sequence bones (frames_before (take i (renamed options))) s
       = ok record
    /\ length (keys_of_sequence psa (length bones)
                                (take i (renamed options)) s)
       = (length bones * Z.to_nat (Sampler.frame_count s))%nat
    /\ Forall (fun k => Psa.Key.time k = (1 / Psa.Sequence.fps record)%Q)
              (keys_of_sequence psa (length bones)
                                (take i (renamed options)) s).
Proof.
  intros Hbuild Hnd Hi.
  destruct (build_psa_bones_inv _ _ _ _ _ _ Hbuild)
    as [_ [psa_bones [start [_ Hseq]]]].
  destruct (build_sequences_emits _ _ _ _ _ _ _ _ Hseq)
    as [blocks [He [_ [Hkeys [Hstore _]]]]].
  simpl in Hkeys, Hstore.
  rewrite (store_fresh _ _ _ _ _ He) in Hstore by exact Hnd.
  destruct (emits_lookup _ _ _ _ _ _ He Hi)
    as [record [new [Hb [Hm [Hl [Ha Ht]]]]]].
  exists record. split.
  - rewrite Hstore. simpl. rewrite lookup_zip_with.
    change (List.map Sampler.name (renamed options))
      with (Sampler.name <$> renamed options).
    rewrite !list_lookup_fmap, Hi, Hb. reflexivity.
  - split; [exact Hm |].
    unfold keys_of_sequence. rewrite Hkeys, <- Hl, Ht. split; [reflexivity |].
    exact Ha.
Qed.

(** The size of the key array of a successful export. *)
Lemma exported_keys_length
      (bind_pose : Blender.Bone -> Psa.Quaternion * Psa.Vector3)
      (pose_at : bool -> nat -> Z -> Q -> Blender.Bone
                 -> Psa.Vector3 * Psa.Quaternion)
      (check_bone_names : list pystr -> result unit)
      (bones : list Blender.Bone) (options : PsaBuildOptions)
      (psa : Psa.t) :
  build_psa_bones bind_pose pose_at check_bone_names bones options
  = ok psa ->
  length (Psa.keys psa)
  = (length bones * samples_before (renamed options))%nat.
Proof.
  intros Hbuild.
  destruct (build_psa_bones_inv _ _ _ _ _ _ Hbuild)
    as [_ [psa_bones [start [_ Hseq]]]].
  destruct (build_sequences_emits _ _ _ _ _ _ _ _ Hseq)
    as [blocks [He [_ [Hkeys _]]]].
  rewrite Hkeys. cbn [Psa.keys app].
  exact (emits_keys_length _ _ _ _ He).
Qed.

End SequenceFacts.

(** ** Sequence records against the key array *)

Module ExportFacts.

Import Build Invariants PyFacts SequenceFacts Examples.

Section WithHost.

Variable bind_pose : Blender.Bone -> Psa.Quaternion * Psa.Vector3.
Variable pose_at :
  bool -> nat -> Z -> Q -> Blender.Bone -> Psa.Vector3 * Psa.Quaternion.
Variable check_bone_names : list pystr -> result unit.

(** C2, as amended. In a successful export with distinct sequence names
    the [frame_start_index] of each sequence record is the sum of the
    frame counts of the sequences before it, a number of frames. The
    keys of the sequence are the [bone_count * frame_count] keys that
    follow the keys of the earlier sequences in the flat array, the next
    sequence starting where they end, and the array holds the bone count
    times the number of samples; where no earlier frame count is
    negative that key offset is the bone count times
    [frame_start_index]. *)
Theorem frame_start_index_counts_frames
        (bones : list Blender.Bone) (options : PsaBuildOptions)
        (psa : Psa.t) :
  build_psa_bones bind_pose pose_at check_bone_names bones options
  = ok psa ->
  NoDup (Sampler.name <$> renamed options) ->
  length (Psa.keys psa)
  = (length bones * samples_before (renamed options))%nat
  /\ forall i s, renamed options !! i = Some s ->
       exists record,
         Psa.sequences psa !! i = Some (Sampler.name s, record)
         /\ Psa.Sequence.frame_start_index record
            = c_int32 (frames_before (take i (renamed options)))
         /\ Psa.Sequence.frame_count record
            = c_int32 (Sampler.frame_count s)
         /\ Psa.Sequence.bone_count record
            = c_int32 (Z.of_nat (length bones))
         /\ length (keys_of_sequence psa (length bones)
                                     (take i (renamed options)) s)
            = (length bones * Z.to_nat (Sampler.frame_count s))%nat
         /\ samples_before (take (S i) (renamed options))
            = (samples_before (take i (renamed options))
               + Z.to_nat (Sampler.frame_count s))%nat
         /\ (Forall (fun s' => 0 <= Sampler.frame_count s')
                    (take i (renamed options)) ->
             Z.of_nat (length bones
                       * samples_before (take i (renamed options)))
             = Z.of_nat (length bones)
               * frames_before (take i (renamed options))).
Proof.
  intros Hbuild Hnd. split.
  - exact (exported_keys_length _ _ _ _ _ _ Hbuild).
  - intros i s Hi.
    destruct (exported_sequence _ _ _ _ _ _ _ _ Hbuild Hnd Hi)
      as [record [Hrec [Hm [Hl _]]]].
    destruct (make_sequence_inv _ _ _ _ Hm) as [_ [_ [_ [Hs [Hc Hb]]]]].
    exists record. repeat split; try assumption.
    + rewrite (take_S_r _ _ _ Hi), samples_before_app. simpl. lia.
    + intros Hpos. rewrite Nat2Z.inj_mul.
      now rewrite (samples_before_frames _ Hpos).
Qed.

(** C6. In a successful export with distinct sequence names the [fps] of
    a sequence record is [frame_count / (raw_frame_count / clip_fps)],
    the clip rate being non-zero, and every key of the sequence carries
    the time [1 / fps], whatever its position. *)
Theorem key_time_is_inverse_fps
        (bones : list Blender.Bone) (options : PsaBuildOptions)
        (psa : Psa.t) (i : nat) (s : Sampler.PsaBuildSequence) :
  build_psa_bones bind_pose pose_at check_bone_names bones options
  = ok psa ->
  NoDup (Sampler.name <$> renamed options) ->
  renamed options !! i = Some s ->
  exists record,
    Psa.sequences psa !! i = Some (Sampler.name s, record)
    /\ ~ (Sampler.fps s == 0)%Q
    /\ Psa.Sequence.fps record
       = (inject_Z (Sampler.frame_count s)
          / (inject_Z
               (Z.abs (Sampler.frame_end (Sampler.nla_state s)
                       - Sampler.frame_start (Sampler.nla_state s)) + 1)
             / Sampler.fps s))%Q
    /\ length (keys_of_sequence psa (length bones)
                                (take i (renamed options)) s)
       = (length bones * Z.to_nat (Sampler.frame_count s))%nat
    /\ Forall (fun k => Psa.Key.time k
                        = (1 / Psa.Sequence.fps record)%Q)
              (keys_of_sequence psa (length bones)
                                (take i (renamed options)) s).
Proof.
  intros Hbuild Hnd Hi.
  destruct (exported_sequence _ _ _ _ _ _ _ _ Hbuild Hnd Hi)
    as [record [Hrec [Hm [Hl Ha]]]].
  destruct (make_sequence_inv _ _ _ _ Hm) as [Hfps [_ [Hf _]]].
  exists record. repeat split; assumption.
Qed.

End WithHost.

Lemma distinct_names_two :
  NoDup (Sampler.name <$> renamed (options_of [walk_half; run_full])).
Proof. apply (bool_decide_unpack _). vm_compute. exact I. Qed.

Lemma frame_start_index_counts_frames_witness :
  exists record,
    Psa.sequences (exported chain [walk_half; run_full]) !! 1%nat
    = Some (codes "run", record)
    /\ Psa.Sequence.frame_start_index record = 5.
Proof.
  destruct (proj2 (frame_start_index_counts_frames
                     rest_pose still_pose any_bone_names chain
                     (options_of [walk_half; run_full])
                     (exported chain [walk_half; run_full])
                     ltac:(vm_compute; reflexivity) distinct_names_two)
                  1%nat run_full eq_refl)
    as [record [Hrec [Hstart _]]].
  exists record. split; [exact Hrec | exact Hstart].
Defined.

(** C2 as stated fails on its own scenario: with the three-bone chain and
    a first sequence of ten raw frames halved to five, the second sequence
    starts at index 5, although 15 keys were emitted before it. *)
Lemma second_sequence_starts_at_frame_five :
  build_psa_bones rest_pose still_pose any_bone_names chain
                  (options_of [walk_half; run_full])
  = ok (exported chain [walk_half; run_full])
  /\ exists first second,
       Psa.sequences (exported chain [walk_half; run_full])
       = [(codes "walk", first); (codes "run", second)]
       /\ Psa.Sequence.bone_count first = 3
       /\ Psa.Sequence.frame_count first = 5
       /\ length (keys_of_sequence (exported chain [walk_half; run_full])
                                   3 [] walk_half) = 15%nat
       /\ Psa.Sequence.frame_start_index second = 5
       /\ Psa.Sequence.frame_start_index second <> 15.
Proof.
  split; [vm_compute; reflexivity |].
  eexists _, _. split; [vm_compute; reflexivity |].
  vm_compute. repeat split; discriminate.
Qed.

Lemma key_time_is_inverse_fps_witness :
  exists record,
    Psa.sequences (exported chain [walk_half; run_full]) !! 0%nat
    = Some (codes "walk", record)
    /\ Forall (fun k => Psa.Key.time k = (1 / Psa.Sequence.fps record)%Q)
              (keys_of_sequence (exported chain [walk_half; run_full])
                                3 [] walk_half).
Proof.
  destruct (key_time_is_inverse_fps
              rest_pose still_pose any_bone_names chain
              (options_of [walk_half; run_full])
              (exported chain [walk_half; run_full]) 0%nat walk_half
              ltac:(vm_compute; reflexivity) distinct_names_two eq_refl)
    as [record [Hrec [_ [_ [_ Hall]]]]].
  exists record. split; [exact Hrec | exact Hall].
Defined.

(** C6 as stated fails for two sequences that share their final name:
    [walk] (ten frames halved, 15 keys of time 1/15 with three bones)
    followed by [ walk], which is stripped to the same name.  The
    dictionary keeps one record under that name, the one of the second
    sequence with fps 30, so that the keys of the first sequence do not
    carry the inverse of the fps of the record exported under its name. *)
Lemma shared_name_keeps_one_rate :
  build_psa_bones rest_pose still_pose any_bone_names chain
                  (options_of [walk_half; MoreExamples.walk_padded])
  = ok (exported chain [walk_half; MoreExamples.walk_padded])
  /\ Sampler.name <$> renamed (options_of [walk_half;
                                            MoreExamples.walk_padded])
     = [codes "walk"; codes "walk"]
  /\ exists record k,
       Psa.sequences (exported chain [walk_half; MoreExamples.walk_padded])
       = [(codes "walk", record)]
       /\ (Psa.Sequence.fps record == 30)%Q
       /\ length (keys_of_sequence
                    (exported chain [walk_half; MoreExamples.walk_padded])
                    3 [] walk_half) = 15%nat
       /\ keys_of_sequence
            (exported chain [walk_half; MoreExamples.walk_padded])
            3 [] walk_half !! 0%nat = Some k
       /\ (Psa.Key.time k == 1 # 15)%Q
       /\ ~ (Psa.Key.time k == 1 / Psa.Sequence.fps record)%Q.
Proof.
  split; [vm_compute; reflexivity |].
  split; [vm_compute; reflexivity |].
  eexists _, _. split; [vm_compute; reflexivity |].
  split; [vm_compute; reflexivity |].
  split; [vm_compute; reflexivity |].
  split; [vm_compute; reflexivity |].
  split; [vm_compute; reflexivity |].
  vm_compute. discriminate.
Qed.

End ExportFacts.

(** ** The header check of [pskimport] *)

Module ImportFacts.

Import PskImport Examples.

(** The [type_flags] of the header after [readinto] is the field carried
    by the file, as soon as the file reaches the end of that field. *)
Lemma readinto_type_flags (file : pybytes) :
  (24 <= length file)%nat ->
  type_flags (readinto Section_new file).1 = int32_at 20 file.
Proof.
  intros Hlen. unfold readinto, type_flags, int32_at. cbn [fst].
  f_equal. f_equal.
  change (length Section_new) with 32%nat.
  assert (Hgot : (24 <= length (take 32 file))%nat)
    by (rewrite length_take; lia).
  rewrite drop_app_le by lia.
  rewrite take_app_le by (rewrite length_drop; lia).
  rewrite !take_drop_commute, take_take. reflexivity.
Qed.

(** C7. A file that carries, in the [type_flags] field of its first
    section header, a value other than 1999801 is refused: the error is
    reported through the callback, [False] is returned, and neither the
    section reader nor the model builder runs. *)
Theorem bad_magic_is_rejected
        (PskData : Type)
        (read_psk_data : pybytes -> Z -> result PskData)
        (build_model : PskData -> list IO.event * result bool)
        (disk : pystr -> option pybytes)
        (filepath : pystr) (file : pybytes) :
  disk filepath = Some file ->
  (24 <= length file)%nat ->
  int32_at 20 file <> 1999801 ->
  pskimport PskData read_psk_data build_model disk filepath
  = ([IO.ErrorCallback (not_psk_message filepath)], ok false).
Proof.
  intros Hdisk Hlen Hflag. unfold pskimport. rewrite Hdisk.
  pose proof (readinto_type_flags file Hlen) as Htf.
  destruct (readinto Section_new file) as [header rest]. cbn [fst] in Htf.
  rewrite Htf. change PsaExport.magic with 1999801.
  destruct (Z.eqb_spec (int32_at 20 file) 1999801) as [E | _];
    [contradiction | reflexivity].
Qed.

Lemma bad_magic_is_rejected_witness :
  pskimport unit no_sections no_model (one_file_disk zero_header)
            (codes "a.psk")
  = ([IO.ErrorCallback (not_psk_message (codes "a.psk"))], ok false).
Proof.
  apply (bad_magic_is_rejected unit no_sections no_model
           (one_file_disk zero_header) (codes "a.psk") zero_header).
  - reflexivity.
  - vm_compute. lia.
  - vm_compute. discriminate.
Defined.

End ImportFacts.

(** ** What [psa_export] checks before it writes *)

Module ActionFacts.

Import PsaExport.

(** After the two anchors the pattern asks for one more character: no
    data path is matched. *)
Lemma match_pose_bone_none (data_path : pystr) :
  match_pose_bone data_path = None.
Proof.
  unfold match_pose_bone.
  destruct (after_prefix (codes "pose.bones") data_path) as [rest |];
    [| reflexivity].
  destruct rest as [| c [| d rest]]; [reflexivity | | reflexivity].
  unfold at_end. destruct (N.eqb_spec c 10) as [-> | _]; reflexivity.
Qed.

Lemma fcurve_loop_false (bone_names fcurves : list pystr) :
  fcurve_loop bone_names fcurves = false.
Proof.
  induction fcurves as [| data_path rest IH]; simpl; [reflexivity |].
  now rewrite match_pose_bone_none.
Qed.

Lemma is_action_for_armature_false (armature : Armature)
                                   (action : Blender.Action) :
  is_action_for_armature armature action = false.
Proof.
  unfold is_action_for_armature. rewrite fcurve_loop_false.
  now destruct (_ =? _)%nat.
Qed.

Lemma no_action_is_kept (armature : Armature)
                        (actions : list Blender.Action) :
  List.filter (is_action_for_armature armature) actions = [].
Proof.
  induction actions as [| a rest IH]; simpl; [reflexivity |].
  now rewrite is_action_for_armature_false.
Qed.

End ActionFacts.

Module ValidationFacts.

Import Build PsaExport Examples ActionFacts.

Section WithHost.

Variable bind_pose : Blender.Bone -> Psa.Quaternion * Psa.Vector3.
Variable pose_at :
  bool -> nat -> Z -> Q -> Blender.Bone -> Psa.Vector3 * Psa.Quaternion.
Variable check_bone_names : list pystr -> result unit.
Variable get_export_bone_names : Armature -> list pystr.

Local Notation "'export'" :=
  (psa_export bind_pose pose_at check_bone_names get_export_bone_names)
  (only parsing).




End WithHost.



End ValidationFacts.

(** ** Names outside the code page *)

Module NameFacts.

Import Build Invariants PyFacts BoneFacts SequenceFacts Examples.

Lemma cp1252_encode_unencodable (nm : pystr) :
  unencodable nm -> cp1252_encode nm = None.
Proof.
  induction 1 as [c l Hc | c l _ IH]; simpl.
  - now rewrite Hc.
  - rewrite IH. now destruct (cp1252_encode_char c).
Qed.

Lemma bone_name_error_mentions (nm : pystr) :
  mentions (bone_name_error nm) nm.
Proof.
  exists (codes "Bone name " ++ quote), (quote ++ codepage_tail).
  unfold bone_name_error. now rewrite <- !app_assoc.
Qed.

Lemma sequence_name_error_mentions (nm : pystr) :
  mentions (sequence_name_error nm) nm.
Proof.
  exists (codes "Sequence name " ++ quote), (quote ++ codepage_tail).
  unfold sequence_name_error. now rewrite <- !app_assoc.
Qed.

Lemma encode_name_stored (err : pystr -> exn) (nm : pystr) (field : pybytes) :
  encode_name err nm = ok field -> stored_name nm field.
Proof. apply encode_name_inv. Qed.

Lemma odict_set_Forall {V} (P : pystr * V -> Prop) (k : pystr) (v : V)
      (d : list (pystr * V)) :
  P (k, v) -> Forall P d -> Forall P (odict_set k v d).
Proof.
  intros Hk. induction 1 as [| [k' v'] d Hx Hd IH]; simpl.
  - repeat constructor. exact Hk.
  - destruct (decide (k' = k)) as [-> | _]; constructor; assumption.
Qed.

Section WithHost.

Variable bind_pose : Blender.Bone -> Psa.Quaternion * Psa.Vector3.
Variable pose_at :
  bool -> nat -> Z -> Q -> Blender.Bone -> Psa.Vector3 * Psa.Quaternion.
Variable check_bone_names : list pystr -> result unit.

Lemma build_bones_app (bones : list Blender.Bone)
      (acc : list Psa.Bone.t) (l k : list Blender.Bone) :
  build_bones bind_pose bones acc (l ++ k)
  = (let* acc' := build_bones bind_pose bones acc l in
     build_bones bind_pose bones acc' k).
Proof.
  revert acc. induction l as [| b l IH]; intros acc; simpl; [reflexivity |].
  destruct (add_bone bind_pose bones acc b); simpl; [reflexivity | apply IH].
Qed.

Lemma build_sequences_app (root : bool) (pose_bones : list Blender.Bone)
      (st : Psa.t * Z) (l k : list Sampler.PsaBuildSequence) :
  build_sequences pose_at root pose_bones st (l ++ k)
  = (let* st' := build_sequences pose_at root pose_bones st l in
     build_sequences pose_at root pose_bones st' k).
Proof.
  revert st. induction l as [| s l IH]; intros st; simpl; [reflexivity |].
  destruct (add_sequence pose_at root pose_bones st s); simpl;
    [reflexivity | apply IH].
Qed.

(** The bone loop stops at a name outside the code page. *)
Lemma add_bone_unencodable (bones : list Blender.Bone)
      (acc : list Psa.Bone.t) (b : Blender.Bone) :
  unencodable (Blender.name b) ->
  add_bone bind_pose bones acc b = raise (bone_name_error (Blender.name b)).
Proof.
  intros H. unfold add_bone.
  rewrite (encode_name_unencodable _ _ (cp1252_encode_unencodable _ H)).
  reflexivity.
Qed.

(** The sequence loop stops at a name outside the code page, once the
    duration has been computed. *)
Lemma add_sequence_unencodable (root : bool)
      (pose_bones : list Blender.Bone) (st : Psa.t * Z)
      (s : Sampler.PsaBuildSequence) :
  ~ (Sampler.fps s == 0)%Q ->
  unencodable (Sampler.name s) ->
  add_sequence pose_at root pose_bones st s
  = raise (sequence_name_error (Sampler.name s)).
Proof.
  intros Hfps H. unfold add_sequence, make_sequence, Sampler.sequence_duration.
  rewrite (py_truediv_ok _ _ Hfps). cbn [bind ok].
  rewrite (encode_name_unencodable _ _ (cp1252_encode_unencodable _ H)).
  reflexivity.
Qed.

Lemma emits_stored (pose_bones : list Blender.Bone) (start : Z)
      (todo : list Sampler.PsaBuildSequence)
      (blocks : list (Psa.Sequence.t * list Psa.Key.t))
      (d : list (pystr * Psa.Sequence.t)) :
  emits pose_bones start todo blocks ->
  Forall (fun kr => stored_name kr.1 (Psa.Sequence.name kr.2)) d ->
  Forall (fun kr => stored_name kr.1 (Psa.Sequence.name kr.2))
         (store d todo blocks).
Proof.
  intros He. revert d.
  induction He as [| start s rest record new blocks Hrec _ _ _ IH];
    intros d Hd; [exact Hd |].
  unfold store in *. cbn [zip_with fold_left fst snd].
  apply IH. apply odict_set_Forall; [| exact Hd].
  destruct (make_sequence_inv _ _ _ _ Hrec) as [_ [Henc _]].
  exact (encode_name_stored _ _ _ Henc).
Qed.

Lemma emits_encodable (pose_bones : list Blender.Bone) (start : Z)
      (todo : list Sampler.PsaBuildSequence)
      (blocks : list (Psa.Sequence.t * list Psa.Key.t)) :
  emits pose_bones start todo blocks ->
  Forall (fun s => ~ unencodable (Sampler.name s)) todo.
Proof.
  induction 1 as [| start s rest record new blocks Hrec _ _ _ IH];
    constructor; [| exact IH].
  intros Hbad.
  destruct (make_sequence_inv _ _ _ _ Hrec) as [_ [Henc _]].
  destruct (encode_name_inv _ _ _ Henc) as [raw [Hraw _]].
  rewrite (cp1252_encode_unencodable _ Hbad) in Hraw. discriminate.
Qed.

(** C8, as amended. The export stops with a [RuntimeError] whose
    message contains the name when it comes to encode the name of an
    exported bone, or of a sequence, that has a character outside
    Windows-1252: for a bone when the name check passed and the bones
    before it were built; for a sequence (named after prefix, suffix and
    stripping) when moreover all bones were built, animation data is
    present, the sequences before it were built and its clip rate is
    not zero.  An export that succeeds has no bone and no sequence with
    such a name, and each name field holds the encoding of the name up
    to its first NUL, padded with NUL. *)
Theorem unencodable_name_is_fatal
        (bones : list Blender.Bone) (options : PsaBuildOptions) :
  let build :=
    build_psa_bones bind_pose pose_at check_bone_names bones options in
  let checked :=
    if should_enforce_bone_name_restrictions options
    then check_bone_names (List.map Blender.name bones) else ok tt in
  (forall done b rest acc,
     bones = done ++ b :: rest ->
     checked = ok tt ->
     build_bones bind_pose bones [] done = ok acc ->
     unencodable (Blender.name b) ->
     build = raise (bone_name_error (Blender.name b))
     /\ mentions (bone_name_error (Blender.name b)) (Blender.name b))
  /\ (forall records data done s rest st,
        bones <> [] ->
        checked = ok tt ->
        build_bones bind_pose bones [] bones = ok records ->
        animation_data options = Some data ->
        renamed options = done ++ s :: rest ->
        build_sequences pose_at (root_motion options) bones
          ({| Psa.bones := records; Psa.sequences := [];
              Psa.keys := [] |}, 0) done = ok st ->
        ~ (Sampler.fps s == 0)%Q ->
        unencodable (Sampler.name s) ->
        build = raise (sequence_name_error (Sampler.name s))
        /\ mentions (sequence_name_error (Sampler.name s))
                    (Sampler.name s))
  /\ (forall psa,
        build = ok psa ->
        Forall2 (fun b r => stored_name (Blender.name b) (Psa.Bone.name r))
                bones (Psa.bones psa)
        /\ Forall (fun b => ~ unencodable (Blender.name b)) bones
        /\ Forall (fun s => ~ unencodable (Sampler.name s))
                  (renamed options)
        /\ Forall (fun kr => stored_name kr.1 (Psa.Sequence.name kr.2))
                  (Psa.sequences psa)).
Proof.
  intros build checked. subst build checked. split; [| split].
  - intros done b rest acc Hbones Hcheck Hdone Hbad.
    split; [| apply bone_name_error_mentions].
    unfold build_psa_bones. rewrite Hcheck. cbn [bind ok].
    destruct (Nat.eqb_spec (length bones) 0) as [Hz | _].
    { rewrite Hbones, length_app in Hz. simpl in Hz. lia. }
    rewrite Hbones at 2. rewrite build_bones_app, Hdone. cbn [bind ok].
    cbn [build_bones]. rewrite (add_bone_unencodable _ _ _ Hbad).
    reflexivity.
  - intros records data done s rest st Hne Hcheck Hbones Hdata Hren
           Hdone Hfps Hbad.
    split; [| apply sequence_name_error_mentions].
    unfold build_psa_bones. rewrite Hcheck, Hbones, Hdata. cbn [bind ok].
    destruct (Nat.eqb_spec (length bones) 0) as [Hz | _].
    { destruct bones; [contradiction | discriminate]. }
    rewrite Hren, build_sequences_app, Hdone. cbn [bind ok].
    cbn [build_sequences].
    rewrite (add_sequence_unencodable _ _ _ _ Hfps Hbad). reflexivity.
  - intros psa Hbuild.
    destruct (build_psa_bones_inv _ _ _ _ _ _ Hbuild)
      as [_ [psa_bones [start [Hb Hseq]]]].
    destruct (build_sequences_emits _ _ _ _ _ _ _ _ Hseq)
      as [blocks [He [Hbs [_ [Hstore _]]]]].
    cbn [Psa.bones Psa.sequences] in Hbs, Hstore.
    destruct (build_bones_records _ _ _ Hb) as [Hf _ _].
    split; [| split; [| split]].
    + rewrite Hbs.
      eapply Forall2_impl; [exact Hf |]. simpl.
      intros b r [_ Henc]. exact (encode_name_stored _ _ _ Henc).
    + apply Forall_lookup. intros i b Hi Hbad.
      destruct (Forall2_lookup_l _ _ _ _ _ Hf Hi) as [r [_ [_ Henc]]].
      destruct (encode_name_inv _ _ _ Henc) as [raw [Hraw _]].
      rewrite (cp1252_encode_unencodable _ Hbad) in Hraw. discriminate.
    + exact (emits_encodable _ _ _ _ He).
    + rewrite Hstore. apply (emits_stored _ _ _ _ _ He). constructor.
Qed.

End WithHost.

Lemma unencodable_name_is_fatal_witness :
  build_psa_bones rest_pose still_pose any_bone_names
                  [root_bone; cjk_bone] (options_of [walk_half])
  = raise (bone_name_error [0x9aa8%N])
  /\ build_psa_bones rest_pose still_pose any_bone_names
                     chain (options_of [walk_half; cjk_sequence])
     = raise (sequence_name_error [0x8d70%N]).
Proof.
  split.
  - refine (proj1 (proj1 (unencodable_name_is_fatal
              rest_pose still_pose any_bone_names
              [root_bone; cjk_bone] (options_of [walk_half]))
              [root_bone] cjk_bone []
              (records_of [root_bone]) eq_refl eq_refl _ _)).
    + vm_compute. reflexivity.
    + constructor. reflexivity.
  - refine (proj1 (proj1 (proj2 (unencodable_name_is_fatal
              rest_pose still_pose any_bone_names
              chain (options_of [walk_half; cjk_sequence])))
              (records_of chain) {| linked_action := None |}
              [walk_half] cjk_sequence []
              (exported chain [walk_half], 5) _ eq_refl _ eq_refl _ _ _ _)).
    + discriminate.
    + vm_compute. reflexivity.
    + reflexivity.
    + vm_compute. reflexivity.
    + vm_compute. discriminate.
    + constructor. reflexivity.
Defined.

(** C8 as stated fails for a sequence: a name outside the code page is
    not reported when the clip rate of the sequence is zero (the duration
    is computed first, and the division raises), nor when the armature
    has no animation data (the linked action is read before the sequence
    loop).  The error raised then carries no message, and does not name
    the sequence. *)
Lemma unencodable_sequence_is_not_always_named :
  unencodable (Sampler.name MoreExamples.still_sequence)
  /\ renamed (options_of [MoreExamples.still_sequence])
     = [MoreExamples.still_sequence]
  /\ build_psa_bones rest_pose still_pose any_bone_names chain
                     (options_of [MoreExamples.still_sequence])
     = raise ZeroDivisionError
  /\ ~ mentions ZeroDivisionError
                (Sampler.name MoreExamples.still_sequence)
  /\ unencodable (Sampler.name cjk_sequence)
  /\ build_psa_bones rest_pose still_pose any_bone_names chain
                     (MoreExamples.options_without_data [cjk_sequence])
     = raise AttributeError
  /\ ~ mentions AttributeError (Sampler.name cjk_sequence).
Proof.
  split; [constructor; reflexivity |].
  split; [reflexivity |].
  split; [vm_compute; reflexivity |].
  split; [intros [before [after H]]; discriminate |].
  split; [constructor; reflexivity |].
  split; [vm_compute; reflexivity |].
  intros [before [after H]]. discriminate.
Qed.

End NameFacts.

(** ** Names that fit the name field *)

Module FieldFacts.

Import Build PyFacts.

Lemma encode_name_fits (err : pystr -> exn) (nm : pystr) :
  fits_name_field nm -> exists field, encode_name err nm = ok field.
Proof.
  intros [raw [Hraw Hlen]]. unfold encode_name, c_char_array.
  rewrite Hraw. cbn [bind ok].
  pose proof (c_string_length raw).
  destruct (Nat.ltb_spec 64 (length (c_string raw))); [lia | eauto].
Qed.

End FieldFacts.

(** * Further properties of the exporter and the importer *)

From Stdlib Require Import Lqa.

(** ** Frames and subframes *)

Module FrameFacts.

Import Frames PyFacts StepFacts MoreExamples Examples.

Lemma Qfloor_nonneg_quot (q : Q) : (0 <= q)%Q -> Qfloor q = py_int q.
Proof. intros H. symmetry. now apply py_int_nonneg_floor. Qed.

Lemma py_mod1_range (q : Q) : (0 <= py_mod1 q)%Q /\ (py_mod1 q < 1)%Q.
Proof.
  unfold py_mod1. pose proof (Qfloor_le q). pose proof (Qlt_floor q).
  rewrite inject_Z_plus in H0. change (inject_Z 1) with 1%Q in H0.
  split; lra.
Qed.

(** X1. [frame_set(frame=int(frame), subframe=frame % 1.0)]: the subframe is
    never negative and never above 1, and for a frame that is not
    negative it is below 1 and the two parts add up to the frame. *)
Theorem frame_and_subframe (frame : Q) :
  (0 <= py_mod1 frame)%Q /\ (py_mod1 frame <= 1)%Q
  /\ ((0 <= frame)%Q ->
      (py_mod1 frame < 1)%Q
      /\ (inject_Z (py_int frame) + py_mod1 frame == frame)%Q).
Proof.
  destruct (py_mod1_range frame) as [H0 H1].
  split; [exact H0 |]. split; [lra |].
  intros Hpos. split; [exact H1 |].
  unfold py_mod1. rewrite <- (Qfloor_nonneg_quot _ Hpos). lra.
Qed.

Lemma frame_and_subframe_witness :
  (py_mod1 (9 # 4) < 1)%Q
  /\ (inject_Z (py_int (9 # 4)) + py_mod1 (9 # 4) == 9 # 4)%Q.
Proof.
  apply (proj2 (proj2 (frame_and_subframe (9 # 4)))).
  vm_compute. discriminate.
Defined.

Lemma py_int_negative_fraction (q : Q) :
  (q < 0)%Q -> ~ (py_mod1 q == 0)%Q -> py_int q = Qfloor q + 1.
Proof.
  destruct q as [n d]. unfold py_int, py_mod1, Qfloor, Qlt. simpl.
  rewrite Z.mul_1_r. intros Hneg Hfrac.
  assert (Hmod : (- n) mod Z.pos d <> 0).
  { intros Hm. apply Hfrac.
    assert (Hn : n = Z.pos d * (n / Z.pos d)).
    { apply Z.mod_opp_l_z in Hm; [| lia]. rewrite Z.opp_involutive in Hm.
      apply Z_div_exact_full_2; lia. }
    unfold Qeq, Qminus, Qplus, Qopp, inject_Z. simpl. nia. }
  rewrite <- (Z.opp_involutive n) at 1.
  rewrite Z.quot_opp_l by lia.
  rewrite Z.quot_div_nonneg by lia.
  rewrite <- (Z.opp_involutive n) at 2.
  rewrite (Z.div_opp_l_nz (- n) (Z.pos d)) by lia. lia.
Qed.

(** X2. A negative frame that is not an integer is split one frame too far:
    [int] truncates toward zero while [% 1.0] measures from the floor, so
    the scene is set at the frame plus one. *)
Theorem negative_fraction_is_shifted (frame : Q) :
  (frame < 0)%Q -> ~ (py_mod1 frame == 0)%Q ->
  (inject_Z (py_int frame) + py_mod1 frame == frame + 1)%Q.
Proof.
  intros Hneg Hfrac. rewrite (py_int_negative_fraction _ Hneg Hfrac).
  unfold py_mod1. rewrite inject_Z_plus. change (inject_Z 1) with 1%Q. lra.
Qed.

Lemma negative_fraction_is_shifted_witness :
  (inject_Z (py_int (- 3 # 2)) + py_mod1 (- 3 # 2) == - 1 # 2)%Q.
Proof.
  rewrite (negative_fraction_is_shifted (- 3 # 2)).
  - reflexivity.
  - reflexivity.
  - vm_compute. discriminate.
Defined.

End FrameFacts.

(** ** Where the samples of a sequence are taken *)

Module SamplingFacts.

Import Sampler Frames PyFacts StepFacts Examples.

Lemma frame_after_succ (step start : Q) (i : nat) :
  frame_after step start (S i) = (frame_after step start i + step)%Q.
Proof. reflexivity. Qed.

Lemma frame_after_shift (step start : Q) (i : nat) :
  frame_after step start (S i) = frame_after step (start + step) i.
Proof.
  unfold frame_after.
  exact (Nat.iter_succ_r i (fun f => (f + step)%Q) start).
Qed.

Lemma frame_after_linear (step start : Q) (i : nat) :
  (frame_after step start i == start + inject_Z (Z.of_nat i) * step)%Q.
Proof.
  induction i as [| i IH].
  - unfold frame_after. simpl. ring.
  - rewrite frame_after_succ, IH, Nat2Z.inj_succ. unfold Z.succ.
    rewrite inject_Z_plus. change (inject_Z 1) with 1%Q. ring.
Qed.

Lemma Qmult_le_nonneg_l (x y z : Q) :
  (0 <= z)%Q -> (x <= y)%Q -> (z * x <= z * y)%Q.
Proof.
  intros Hz Hxy. rewrite !(Qmult_comm z).
  now apply Qmult_le_compat_r.
Qed.

(** The step of a sequence with other than one frame. *)
Lemma frame_step_value (s : PsaBuildSequence) :
  frame_count s <> 1 ->
  (frame_step s ==
   inject_Z (frame_end (nla_state s) - frame_start (nla_state s))
   / inject_Z (frame_count s - 1))%Q.
Proof.
  intros H. unfold frame_step. rewrite (forward_step s H).
  unfold ok; cbv beta iota zeta. unfold frame_extents.
  destruct (Z.gtb_spec (frame_start (nla_state s))
                       (frame_end (nla_state s))) as [Hrev | Hfwd].
  - rewrite Z.abs_neq by lia. rewrite inject_Z_opp. unfold Qdiv. ring.
  - rewrite Z.abs_eq by lia. reflexivity.
Qed.

End SamplingFacts.

(** ** The content and order of the key array *)

Module KeyArrayFacts.

Import Build Frames PyFacts SequenceFacts SamplingFacts MoreExamples Examples.

Lemma flat_map_seq_shift {A} (f : nat -> list A) (a n : nat) :
  flat_map f (seq (S a) n) = flat_map (fun i => f (S i)) (seq a n).
Proof.
  revert a. induction n as [| n IH]; intros a; simpl; [reflexivity |].
  now rewrite IH.
Qed.

Section WithHost.

Variable bind_pose : Blender.Bone -> Psa.Quaternion * Psa.Vector3.
Variable pose_at :
  bool -> nat -> Z -> Q -> Blender.Bone -> Psa.Vector3 * Psa.Quaternion.
Variable check_bone_names : list pystr -> result unit.
Variable root : bool.
Variable pose_bones : list Blender.Bone.

Lemma sampled_keys_succ (act : nat) (step rate : Q) (n : nat) (start : Q) :
  sampled_keys pose_at root act step rate pose_bones (S n) start
  = List.map (key_at pose_at root act rate start) pose_bones
    ++ sampled_keys pose_at root act step rate pose_bones n
                    (start + step)%Q.
Proof.
  unfold sampled_keys. cbn [seq flat_map]. f_equal.
  rewrite flat_map_seq_shift. apply flat_map_ext. intros i.
  now rewrite frame_after_shift.
Qed.

Lemma sample_bones_keys (act : nat) (frame rate : Q)
      (todo : list Blender.Bone) (keys keys' : list Psa.Key.t) :
  sample_bones pose_at root act frame rate todo keys = ok keys' ->
  keys' = keys ++ List.map (key_at pose_at root act rate frame) todo.
Proof.
  revert keys. induction todo as [| pb rest IH]; simpl; intros keys.
  - intros [= <-]. now rewrite app_nil_r.
  - unfold make_key.
    destruct (py_truediv 1 rate) as [e | t] eqn:Ht; simpl; [discriminate |].
    destruct (py_truediv_inv _ _ _ Ht) as [_ ->].
    intros H. rewrite (IH _ H), <- app_assoc. reflexivity.
Qed.

Lemma sample_frames_keys (act : nat) (step rate : Q) (n : nat)
      (frame : Q) (keys keys' : list Psa.Key.t) :
  sample_frames pose_at root act step rate pose_bones n frame keys
  = ok keys' ->
  keys' = keys ++ sampled_keys pose_at root act step rate pose_bones
                               n frame.
Proof.
  revert frame keys. induction n as [| n IH]; intros frame keys.
  - simpl. intros [= <-]. now rewrite app_nil_r.
  - cbn [sample_frames].
    destruct (sample_bones pose_at root act frame rate pose_bones keys)
      as [e | keys1] eqn:H1; cbn [bind]; [discriminate |].
    intros H. rewrite (IH _ _ H), (sample_bones_keys _ _ _ _ _ _ H1).
    rewrite sampled_keys_succ, <- app_assoc. reflexivity.
Qed.

Lemma build_sequences_keys (todo : list Sampler.PsaBuildSequence)
      (psa psa' : Psa.t) (start start' : Z) :
  build_sequences pose_at root pose_bones (psa, start) todo
  = ok (psa', start') ->
  Psa.keys psa'
  = Psa.keys psa
    ++ flat_map (sequence_keys pose_at root pose_bones) todo.
Proof.
  revert psa start. induction todo as [| s rest IH]; intros psa start.
  - simpl. intros [= <- <-]. now rewrite app_nil_r.
  - cbn [build_sequences]. unfold add_sequence at 1. cbn [fst snd].
    destruct (make_sequence pose_bones start s) as [e | record] eqn:Hrec;
      cbn [bind]; [discriminate |].
    destruct (sample_frames _ _ _ _ _ _ _ _ _) as [e | keys1] eqn:Hk;
      cbn [bind]; [discriminate |].
    intros H. rewrite (IH _ _ H). cbn [Psa.keys flat_map].
    rewrite (sample_frames_keys _ _ _ _ _ _ _ Hk).
    destruct (make_sequence_inv _ _ _ _ Hrec) as [_ [_ [-> _]]].
    rewrite <- app_assoc. reflexivity.
Qed.

(** The key of bone [j] at sample [i]: position [i * bone_count + j]. *)
Lemma sampled_keys_lookup (act : nat) (step rate : Q) (n : nat)
      (start : Q) (i j : nat) (pb : Blender.Bone) :
  (i < n)%nat -> pose_bones !! j = Some pb ->
  sampled_keys pose_at root act step rate pose_bones n start
    !! (i * length pose_bones + j)%nat
  = Some (key_at pose_at root act rate (frame_after step start i) pb).
Proof.
  revert start i. induction n as [| n IH]; intros start i Hi Hj; [lia |].
  rewrite sampled_keys_succ.
  pose proof (lookup_lt_Some _ _ _ Hj) as Hlt.
  destruct i as [| i].
  - rewrite lookup_app_l by (rewrite length_map; simpl; lia).
    simpl. change (List.map ?f ?l) with (f <$> l).
    now rewrite list_lookup_fmap, Hj.
  - rewrite lookup_app_r by (rewrite length_map; simpl; lia).
    rewrite length_map.
    replace (S i * length pose_bones + j - length pose_bones)%nat
      with (i * length pose_bones + j)%nat by (simpl; lia).
    rewrite frame_after_shift. apply IH; [lia | exact Hj].
Qed.

End WithHost.

(** X4. The key array of a successful export is, sequence after sequence in
    the order of the list, sample after sample, bone after bone, the pose
    of each exported bone at [frame_start + i * frame_step]; within a
    sequence of [frame_count] samples the key of bone [j] at sample [i] is
    at position [i * bone_count + j]. *)
Theorem key_array_order
        (bind_pose : Blender.Bone -> Psa.Quaternion * Psa.Vector3)
        (pose_at : bool -> nat -> Z -> Q -> Blender.Bone
                   -> Psa.Vector3 * Psa.Quaternion)
        (check_bone_names : list pystr -> result unit)
        (bones : list Blender.Bone) (options : PsaBuildOptions)
        (psa : Psa.t) :
  build_psa_bones bind_pose pose_at check_bone_names bones options
  = ok psa ->
  Psa.keys psa
  = flat_map (sequence_keys pose_at (root_motion options) bones)
             (renamed options)
  /\ forall s i j pb,
       Z.of_nat i < Sampler.frame_count s ->
       bones !! j = Some pb ->
       sequence_keys pose_at (root_motion options) bones s
         !! (i * length bones + j)%nat
       = Some (key_at pose_at (root_motion options)
                      (Sampler.action (Sampler.nla_state s))
                      (sequence_fps s)
                      (frame_after
                         (Sampler.frame_step s)
                         (inject_Z (Sampler.frame_start
                                      (Sampler.nla_state s))) i)
                      pb).
Proof.
  intros Hbuild.
  destruct (build_psa_bones_inv _ _ _ _ _ _ Hbuild)
    as [_ [psa_bones [start [_ Hseq]]]].
  split.
  - exact (build_sequences_keys _ _ _ _ _ _ _ _ Hseq).
  - intros s i j pb Hi Hj. unfold sequence_keys.
    apply sampled_keys_lookup; [lia | exact Hj].
Qed.

Lemma key_array_order_witness :
  Psa.keys (exported chain [walk_half; run_full])
  = flat_map (sequence_keys still_pose true chain) [walk_half; run_full].
Proof.
  exact (proj1 (key_array_order rest_pose still_pose any_bone_names chain
                  (options_of [walk_half; run_full])
                  (exported chain [walk_half; run_full])
                  ltac:(vm_compute; reflexivity))).
Defined.

End KeyArrayFacts.

(** ** Frame counts and rates *)

Module RateFacts.

Import Sampler Build Frames PyFacts StepFacts SequenceFacts SamplingFacts.
Import Examples.

Lemma frame_count_uncompressed (s : PsaBuildSequence) :
  (compression_ratio s == 1)%Q -> key_quota s = 0 ->
  frame_count s = frame_count_raw s.
Proof.
  intros Hr Hq. unfold frame_count.
  rewrite (py_int_Qeq _ (inject_Z (frame_count_raw s)))
    by (rewrite Hr; apply Qmult_1_r).
  rewrite py_int_inject_Z, Hq.
  pose proof (SamplerFacts.frame_count_raw_pos s). lia.
Qed.

Lemma raw_nonzero (s : PsaBuildSequence) :
  ~ (inject_Z (frame_count_raw s) == 0)%Q.
Proof.
  apply inject_Z_nonzero.
  pose proof (SamplerFacts.frame_count_raw_pos s). lia.
Qed.



(** X6. A ratio between zero and one never yields more frames than the larger
    of the quota and the raw frame count. *)
Theorem frame_count_at_most_raw (s : PsaBuildSequence) :
  (0 <= compression_ratio s)%Q -> (compression_ratio s <= 1)%Q ->
  frame_count s <= Z.max (key_quota s) (frame_count_raw s).
Proof.
  intros H0 H1. unfold frame_count.
  pose proof (SamplerFacts.frame_count_raw_pos s) as Hraw.
  assert (Hr : (0 <= inject_Z (frame_count_raw s))%Q).
  { change 0%Q with (inject_Z 0). rewrite <- Zle_Qle. lia. }
  rewrite py_int_nonneg_floor by (apply Qmult_le_0_compat; assumption).
  assert (Hle : (inject_Z (frame_count_raw s) * compression_ratio s
                 <= inject_Z (frame_count_raw s))%Q).
  { apply Qle_trans with (inject_Z (frame_count_raw s) * 1)%Q.
    - now apply Qmult_le_nonneg_l.
    - rewrite Qmult_1_r. apply Qle_refl. }
  apply Qfloor_resp_le in Hle. rewrite Qfloor_Z in Hle. lia.
Qed.

Lemma frame_count_at_most_raw_witness :
  frame_count walk_half <= 10.
Proof.
  apply (frame_count_at_most_raw walk_half); vm_compute; discriminate.
Defined.

Lemma Qdiv_abs_sgn (d : Z) :
  d <> 0 -> (inject_Z d / inject_Z (Z.abs d) == inject_Z (Z.sgn d))%Q.
Proof.
  intros Hd. destruct (Z.lt_trichotomy d 0) as [H | [H | H]]; [| lia |].
  - rewrite Z.abs_neq, Z.sgn_neg by lia. rewrite inject_Z_opp.
    change (inject_Z (-1)) with (- (1))%Q. field.
    now apply inject_Z_nonzero.
  - rewrite Z.abs_eq, Z.sgn_pos by lia. change (inject_Z 1) with 1%Q.
    field. now apply inject_Z_nonzero.
Qed.

(** X7. The sequences that [psa_export] builds from the actions are sampled
    at whole frames only: one sample per frame from [int(frame_range[0])]
    to [int(frame_range[1])], in steps of one in the direction of the
    range, each with a zero subframe; the rate stored is the scene
    rate. *)
Theorem exported_actions_sample_whole_frames
        (ctx : PsaExport.Context) (a : Blender.Action)
        (options : PsaBuildOptions) (i : nat) :
  let s := rename options (PsaExport.export_sequence_of ctx a) in
  let f0 := py_int (Blender.frame_range a).1 in
  let f1 := py_int (Blender.frame_range a).2 in
  let frame := frame_after (frame_step s) (inject_Z f0) i in
  frame_count s = Z.abs (f1 - f0) + 1
  /\ (frame_step s == inject_Z (Z.sgn (f1 - f0)))%Q
  /\ py_int frame = f0 + Z.of_nat i * Z.sgn (f1 - f0)
  /\ (py_mod1 frame == 0)%Q
  /\ (~ (PsaExport.render_fps ctx == 0)%Q ->
      (sequence_fps s == PsaExport.render_fps ctx)%Q).
Proof.
  intros s f0 f1 frame.
  assert (Hfc : frame_count s = Z.abs (f1 - f0) + 1).
  { apply (frame_count_uncompressed s); reflexivity. }
  assert (Hstep : (frame_step s == inject_Z (Z.sgn (f1 - f0)))%Q).
  { destruct (Z.eq_dec (f1 - f0) 0) as [Hz | Hnz].
    - rewrite Hz. unfold frame_step.
      rewrite (single_step s) by (rewrite Hfc, Hz; reflexivity).
      cbv beta iota zeta. destruct (_ >? _); reflexivity.
    - rewrite (frame_step_value s) by (rewrite Hfc; lia).
      rewrite Hfc.
      replace (Z.abs (f1 - f0) + 1 - 1) with (Z.abs (f1 - f0))
        by lia.
      now apply Qdiv_abs_sgn. }
  assert (Hframe : (frame == inject_Z (f0 + Z.of_nat i
                                               * Z.sgn (f1 - f0)))%Q).
  { subst frame. rewrite frame_after_linear, Hstep.
    rewrite inject_Z_plus, inject_Z_mult. reflexivity. }
  split; [exact Hfc |]. split; [exact Hstep |]. split; [| split].
  - rewrite (py_int_Qeq _ _ Hframe). apply py_int_inject_Z.
  - unfold py_mod1. rewrite (Qfloor_comp _ _ Hframe), Qfloor_Z. lra.
  - intros Hfps. unfold sequence_fps.
    rewrite (frame_count_uncompressed s) by reflexivity.
    change (fps s) with (PsaExport.render_fps ctx).
    field. split; [exact Hfps | apply raw_nonzero].
Qed.

Lemma exported_actions_sample_whole_frames_witness :
  (sequence_fps (rename (options_of [])
                        (PsaExport.export_sequence_of
                           (scene_of chain [MoreExamples.jog_action])
                           MoreExamples.jog_action)) == 30)%Q.
Proof.
  apply (proj2 (proj2 (proj2 (proj2
           (exported_actions_sample_whole_frames
              (scene_of chain [MoreExamples.jog_action])
              MoreExamples.jog_action (options_of []) 0))))).
  vm_compute. discriminate.
Defined.

End RateFacts.

(** ** Errors other than a name outside the code page *)

Module ErrorFacts.

Import Build Invariants PyFacts BoneFacts SequenceFacts NameFacts.
Import MoreExamples Examples.

Lemma encode_name_too_long (err : pystr -> exn) (nm : pystr)
                           (raw : pybytes) :
  cp1252_encode nm = Some raw -> (64 < length (c_string raw))%nat ->
  encode_name err nm = raise ValueError.
Proof.
  intros Hraw Hlen. unfold encode_name, c_char_array. rewrite Hraw.
  cbn [bind ok].
  destruct (Nat.ltb_spec 64 (length (c_string raw))); [reflexivity | lia].
Qed.

Lemma checked_nonempty (bones : list Blender.Bone) :
  bones <> [] -> (length bones =? 0)%nat = false.
Proof. destruct bones; [contradiction | reflexivity]. Qed.

Section WithHost.

Variable bind_pose : Blender.Bone -> Psa.Quaternion * Psa.Vector3.
Variable pose_at :
  bool -> nat -> Z -> Q -> Blender.Bone -> Psa.Vector3 * Psa.Quaternion.
Variable check_bone_names : list pystr -> result unit.

(** The export up to a bone at which the bone loop fails. *)
Lemma bone_loop_failure (bones done rest : list Blender.Bone)
      (b : Blender.Bone) (acc : list Psa.Bone.t)
      (options : PsaBuildOptions) (e : exn) :
  bones = done ++ b :: rest ->
  (if should_enforce_bone_name_restrictions options
   then check_bone_names (List.map Blender.name bones) else ok tt)
  = ok tt ->
  build_bones bind_pose bones [] done = ok acc ->
  add_bone bind_pose bones acc b = raise e ->
  build_psa_bones bind_pose pose_at check_bone_names bones options
  = raise e.
Proof.
  intros Hbones Hcheck Hdone Hadd. unfold build_psa_bones.
  rewrite Hcheck, checked_nonempty by (rewrite Hbones; now destruct done).
  cbn [bind ok]. rewrite Hbones at 2.
  rewrite build_bones_app, Hdone. cbn [bind ok build_bones].
  rewrite Hadd. reflexivity.
Qed.

(** The export up to a sequence at which the sequence loop fails. *)
Lemma sequence_loop_failure (bones : list Blender.Bone)
      (records : list Psa.Bone.t) (data : AnimData)
      (done rest : list Sampler.PsaBuildSequence)
      (s : Sampler.PsaBuildSequence) (st : Psa.t * Z)
      (options : PsaBuildOptions) (e : exn) :
  bones <> [] ->
  (if should_enforce_bone_name_restrictions options
   then check_bone_names (List.map Blender.name bones) else ok tt)
  = ok tt ->
  build_bones bind_pose bones [] bones = ok records ->
  animation_data options = Some data ->
  renamed options = done ++ s :: rest ->
  build_sequences pose_at (root_motion options) bones
    ({| Psa.bones := records; Psa.sequences := []; Psa.keys := [] |}, 0)
    done = ok st ->
  add_sequence pose_at (root_motion options) bones st s = raise e ->
  build_psa_bones bind_pose pose_at check_bone_names bones options
  = raise e.
Proof.
  intros Hne Hcheck Hbones Hdata Hren Hdone Hadd. unfold build_psa_bones.
  rewrite Hcheck, (checked_nonempty _ Hne), Hbones, Hdata. cbn [bind ok].
  rewrite Hren, build_sequences_app, Hdone. cbn [bind ok build_sequences].
  rewrite Hadd. reflexivity.
Qed.

(** X8. A bone name whose encoding has more than 64 bytes before its first
    NUL (the length that the assignment to the name field measures) is
    not truncated: the assignment raises [ValueError] and the export
    stops there. The same holds for a sequence name (after prefix,
    suffix and stripping). *)
Theorem long_name_is_value_error
        (bones : list Blender.Bone) (options : PsaBuildOptions) :
  let build :=
    build_psa_bones bind_pose pose_at check_bone_names bones options in
  let checked :=
    if should_enforce_bone_name_restrictions options
    then check_bone_names (List.map Blender.name bones) else ok tt in
  (forall done b rest acc raw,
     bones = done ++ b :: rest ->
     checked = ok tt ->
     build_bones bind_pose bones [] done = ok acc ->
     cp1252_encode (Blender.name b) = Some raw ->
     (64 < length (c_string raw))%nat ->
     build = raise ValueError)
  /\ (forall records data done s rest st raw,
        bones <> [] ->
        checked = ok tt ->
        build_bones bind_pose bones [] bones = ok records ->
        animation_data options = Some data ->
        renamed options = done ++ s :: rest ->
        build_sequences pose_at (root_motion options) bones
          ({| Psa.bones := records; Psa.sequences := [];
              Psa.keys := [] |}, 0) done = ok st ->
        ~ (Sampler.fps s == 0)%Q ->
        cp1252_encode (Sampler.name s) = Some raw ->
        (64 < length (c_string raw))%nat ->
        build = raise ValueError).
Proof.
  intros build checked. subst build checked. split.
  - intros done b rest acc raw Hbones Hcheck Hdone Hraw Hlen.
    apply (bone_loop_failure bones done rest b acc); try assumption.
    unfold add_bone. now rewrite (encode_name_too_long _ _ _ Hraw Hlen).
  - intros records data done s rest st raw Hne Hcheck Hbones Hdata Hren
           Hdone Hfps Hraw Hlen.
    apply (sequence_loop_failure bones records data done rest s st);
      try assumption.
    unfold add_sequence, make_sequence, Sampler.sequence_duration.
    rewrite (py_truediv_ok _ _ Hfps). cbn [bind ok].
    now rewrite (encode_name_too_long _ _ _ Hraw Hlen).
Qed.

(** X9. A bone that comes before its parent in the exported list stops the
    export with [IndexError]: the parent's record does not exist yet
    when its children count is to be incremented. *)
Theorem child_before_parent_is_index_error
        (bones done rest : list Blender.Bone) (b : Blender.Bone)
        (acc : list Psa.Bone.t) (options : PsaBuildOptions) (p : nat) :
  bones = done ++ b :: rest ->
  (if should_enforce_bone_name_restrictions options
   then check_bone_names (List.map Blender.name bones) else ok tt)
  = ok tt ->
  build_bones bind_pose bones [] done = ok acc ->
  fits_name_field (Blender.name b) ->
  bones_index bones (Blender.parent b) = Some p ->
  (length done <= p)%nat ->
  build_psa_bones bind_pose pose_at check_bone_names bones options
  = raise IndexError.
Proof.
  intros Hbones Hcheck Hdone Hname Hp Hlate.
  apply (bone_loop_failure bones done rest b acc); try assumption.
  pose proof (build_bones_inv bind_pose bones done [] [] acc
                (bones_inv_nil bones) Hdone) as [Hf _ _].
  apply Forall2_length in Hf. simpl in Hf.
  unfold add_bone.
  destruct (FieldFacts.encode_name_fits bone_name_error _ Hname)
    as [field ->].
  cbn [bind ok]. rewrite Hp.
  rewrite (proj2 (lookup_ge_None acc p)) by lia. reflexivity.
Qed.

(** X10. A sequence whose clip rate is zero stops the export with
    [ZeroDivisionError]; the duration is computed before the name is
    encoded, so this is the error even when the name is outside the
    code page. *)
Theorem zero_rate_is_zero_division
        (bones : list Blender.Bone) (records : list Psa.Bone.t)
        (data : AnimData) (done rest : list Sampler.PsaBuildSequence)
        (s : Sampler.PsaBuildSequence) (st : Psa.t * Z)
        (options : PsaBuildOptions) :
  bones <> [] ->
  (if should_enforce_bone_name_restrictions options
   then check_bone_names (List.map Blender.name bones) else ok tt)
  = ok tt ->
  build_bones bind_pose bones [] bones = ok records ->
  animation_data options = Some data ->
  renamed options = done ++ s :: rest ->
  build_sequences pose_at (root_motion options) bones
    ({| Psa.bones := records; Psa.sequences := []; Psa.keys := [] |}, 0)
    done = ok st ->
  (Sampler.fps s == 0)%Q ->
  build_psa_bones bind_pose pose_at check_bone_names bones options
  = raise ZeroDivisionError.
Proof.
  intros Hne Hcheck Hbones Hdata Hren Hdone Hfps.
  apply (sequence_loop_failure bones records data done rest s st);
    try assumption.
  unfold add_sequence, make_sequence, Sampler.sequence_duration.
  now rewrite (py_truediv_zero _ _ Hfps).
Qed.

End WithHost.

Lemma long_name_is_value_error_witness :
  build_psa_bones rest_pose still_pose any_bone_names
                  [root_bone; long_bone] (options_of [walk_half])
  = raise ValueError.
Proof.
  refine (proj1 (long_name_is_value_error
            rest_pose still_pose any_bone_names
            [root_bone; long_bone] (options_of [walk_half]))
            [root_bone] long_bone [] (records_of [root_bone])
            (replicate 65 "a"%byte) eq_refl eq_refl _ _ _).
  - vm_compute. reflexivity.
  - vm_compute. reflexivity.
  - vm_compute. lia.
Defined.

Lemma child_before_parent_is_index_error_witness :
  build_psa_bones rest_pose still_pose any_bone_names
                  child_first (options_of [walk_half])
  = raise IndexError.
Proof.
  refine (child_before_parent_is_index_error
            rest_pose still_pose any_bone_names
            child_first [] [root_bone] mid_bone [] (options_of [walk_half])
            1 eq_refl eq_refl eq_refl _ _ _).
  - exists (list_byte_of_string "mid"). split; [reflexivity | simpl; lia].
  - vm_compute. reflexivity.
  - simpl. lia.
Defined.

Lemma zero_rate_is_zero_division_witness :
  build_psa_bones rest_pose still_pose any_bone_names
                  chain (options_of [walk_half; still_sequence])
  = raise ZeroDivisionError.
Proof.
  refine (zero_rate_is_zero_division
            rest_pose still_pose any_bone_names
            chain (records_of chain) {| linked_action := None |}
            [walk_half] [] still_sequence (exported chain [walk_half], 5)
            (options_of [walk_half; still_sequence])
            _ eq_refl _ eq_refl _ _ _).
  - discriminate.
  - vm_compute. reflexivity.
  - reflexivity.
  - vm_compute. reflexivity.
  - reflexivity.
Defined.

End ErrorFacts.

(** ** The exported bones *)

Module SkeletonFacts.

Import Build Invariants PyFacts BoneFacts NameFacts MoreExamples Examples.

Lemma py_index_Some {A} (P : A -> Prop) `{forall a, Decision (P a)}
      (l : list A) (i : nat) :
  py_index P l = Some i -> exists x, l !! i = Some x /\ P x.
Proof.
  unfold py_index. destruct (list_find P l) as [[j x] |] eqn:Hf;
    [| discriminate].
  intros [= <-]. apply list_find_Some in Hf as [Hl [HP _]]. eauto.
Qed.

Lemma py_index_None {A} (P : A -> Prop) `{forall a, Decision (P a)}
      (l : list A) :
  py_index P l = None <-> Forall (fun x => ~ P x) l.
Proof.
  unfold py_index. rewrite fmap_None. apply list_find_None.
Qed.

(** X12. The bones handed to the bone loop are those of the armature that
    carry the requested names, in the requested order; a name that no
    armature bone carries raises [ValueError]. *)
Theorem select_bones_by_name
        (armature_bones : list Blender.Bone) (names : list pystr) :
  (forall bones,
     select_bones armature_bones names = ok bones ->
     Blender.name <$> bones = names
     /\ Forall (fun b => b ∈ armature_bones) bones)
  /\ (Forall (fun nm => nm ∈ Blender.name <$> armature_bones) names ->
      exists bones, select_bones armature_bones names = ok bones)
  /\ (~ Forall (fun nm => nm ∈ Blender.name <$> armature_bones) names ->
      select_bones armature_bones names = raise ValueError).
Proof.
  induction names as [| nm rest [IH1 [IH2 IH3]]].
  - split; [| split].
    + intros bones [= <-]. split; [reflexivity | constructor].
    + intros _. now exists [].
    + intros H. contradiction H. constructor.
  - assert (Hcase :
      (exists i b, py_index (fun b => Blender.name b = nm) armature_bones
                   = Some i
                   /\ armature_bones !! i = Some b /\ Blender.name b = nm)
      \/ (py_index (fun b => Blender.name b = nm) armature_bones = None
          /\ nm ∉ Blender.name <$> armature_bones)).
    { destruct (py_index (fun b => Blender.name b = nm) armature_bones)
        as [i |] eqn:Hi.
      - left. destruct (py_index_Some _ _ _ Hi) as [b [Hb Hn]]. eauto.
      - right. split; [reflexivity |].
        apply py_index_None in Hi. rewrite Forall_forall in Hi.
        intros Hin. apply list_elem_of_fmap in Hin as [b [-> Hb]].
        now apply (Hi b). }
    cbn [select_bones].
    destruct Hcase as [[i [b [Hi [Hb Hn]]]] | [-> Hnot]];
      [rewrite Hi, Hb |].
    + split; [| split].
      * intros bones.
        destruct (select_bones armature_bones rest) as [e | bs];
          cbn [bind ok]; [discriminate |].
        intros [= <-]. destruct (IH1 bs eq_refl) as [Hnames Hall].
        split; [now rewrite fmap_cons, Hn, Hnames |].
        constructor; [| exact Hall].
        apply list_elem_of_lookup. eauto.
      * intros Hall. apply Forall_cons in Hall as [_ Hall].
        destruct (IH2 Hall) as [bs ->]. cbn [bind ok]. eauto.
      * intros Hnall.
        rewrite IH3; [reflexivity |].
        intros Hall. apply Hnall. constructor; [| exact Hall].
        rewrite <- Hn. apply list_elem_of_fmap. exists b. split; [reflexivity |].
        apply list_elem_of_lookup. eauto.
    + split; [| split].
      * discriminate.
      * intros Hall. apply Forall_cons in Hall as [Hin _]. contradiction.
      * reflexivity.
Qed.

Lemma select_bones_by_name_witness :
  Blender.name <$> chain = [codes "root"; codes "mid"; codes "tip"].
Proof.
  refine (proj1 (proj1 (select_bones_by_name chain
                         [codes "root"; codes "mid"; codes "tip"])
                       chain _)).
  vm_compute. reflexivity.
Defined.

Section WithHost.

Variable bind_pose : Blender.Bone -> Psa.Quaternion * Psa.Vector3.

(** When the bone loop succeeds, the bone at position [i] found its
    parent, if any, among the bones before it. *)
Lemma parent_found_earlier (bones : list Blender.Bone)
      (records : list Psa.Bone.t) (i p : nat) (b : Blender.Bone) :
  build_bones bind_pose bones [] bones = ok records ->
  bones !! i = Some b ->
  bones_index bones (Blender.parent b) = Some p ->
  (p < i)%nat.
Proof.
  intros Hbuild Hb Hp.
  rewrite <- (take_drop_middle bones i b Hb) in Hbuild at 2.
  rewrite build_bones_app in Hbuild.
  destruct (build_bones bind_pose bones [] (take i bones))
    as [e | acc] eqn:Hacc; cbn [bind] in Hbuild; [discriminate |].
  cbn [build_bones] in Hbuild.
  destruct (add_bone bind_pose bones acc b) as [e | acc'] eqn:Hadd;
    cbn [bind] in Hbuild; [discriminate |].
  pose proof (build_bones_inv bind_pose bones (take i bones) [] [] acc
                (bones_inv_nil bones) Hacc) as [Hf _ _].
  apply Forall2_length in Hf. simpl in Hf. rewrite length_take in Hf.
  apply lookup_lt_Some in Hb.
  destruct (add_bone_inv _ _ _ _ _ Hadd)
    as [field [_ [[p' [Hp' [Hlt _]]] | [Hnone _]]]].
  - rewrite Hp' in Hp. injection Hp as <-. lia.
  - rewrite Hnone in Hp. discriminate.
Qed.

(** X13. In a successful export of fewer than 2^31 bones there is one record
    per bone, in order; the name field has 64 bytes; and the parent
    index of the record at position [i] is never negative and points
    before [i], except that the first record points at itself. *)
Theorem parents_precede_children
        (bones : list Blender.Bone) (records : list Psa.Bone.t)
        (i : nat) (r : Psa.Bone.t) :
  build_bones bind_pose bones [] bones = ok records ->
  Z.of_nat (length bones) < 2 ^ 31 ->
  records !! i = Some r ->
  length records = length bones
  /\ length (Psa.Bone.name r) = 64%nat
  /\ 0 <= Psa.Bone.parent_index r
  /\ (Psa.Bone.parent_index r < Z.of_nat i
      \/ (i = 0%nat /\ Psa.Bone.parent_index r = 0)).
Proof.
  intros Hbuild Hlen Hr.
  destruct (build_bones_records bind_pose bones records Hbuild)
    as [Hf _ _].
  pose proof (Forall2_length _ _ _ Hf) as Hlength.
  destruct (Forall2_lookup_r _ _ _ _ _ Hf Hr) as [b [Hb [Hpi Henc]]].
  split; [now symmetry |]. split.
  { destruct (encode_name_inv _ _ _ Henc) as [raw [_ [Hraw ->]]].
    rewrite length_app, length_replicate. lia. }
  rewrite Hpi. unfold parent_field.
  destruct (bones_index bones (Blender.parent b)) as [p |] eqn:Hp.
  - pose proof (parent_found_earlier bones records i p b Hbuild Hb Hp).
    apply lookup_lt_Some in Hb.
    rewrite c_int32_small by lia. lia.
  - split; [lia |]. destruct i; [now right | left; lia].
Qed.

End WithHost.

Lemma parents_precede_children_witness :
  exists r, records_of chain !! 2%nat = Some r
            /\ Psa.Bone.parent_index r < 2.
Proof.
  eexists. split; [vm_compute; reflexivity |].
  destruct (parents_precede_children rest_pose chain (records_of chain) 2 _
              ltac:(vm_compute; reflexivity) ltac:(vm_compute; reflexivity)
              ltac:(vm_compute; reflexivity))
    as [_ [_ [_ [H | [H _]]]]]; [exact H | discriminate].
Defined.

Lemma lstrip_head (s : pystr) (c : N) :
  head (lstrip s) = Some c -> is_space c = false.
Proof.
  induction s as [| a s IH]; [discriminate |]. simpl.
  destruct (is_space a) eqn:Ha; [exact IH |]. now intros [= <-].
Qed.

Lemma lstrip_last (s : pystr) :
  lstrip s = [] \/ last (lstrip s) = last s.
Proof.
  induction s as [| a s IH]; [now left |]. simpl.
  destruct (is_space a); [| now right].
  destruct IH as [IH | IH]; [now left |].
  destruct s as [| b s]; [now left | right].
  rewrite IH. reflexivity.
Qed.

Lemma lstrip_clean (s : pystr) :
  (forall c, head s = Some c -> is_space c = false) -> lstrip s = s.
Proof.
  destruct s as [| a s]; [reflexivity |]. intros H. simpl.
  now rewrite (H a eq_refl).
Qed.

Lemma last_rev {A} (l : list A) : last (rev l) = head l.
Proof. destruct l as [| a l]; [reflexivity |]. simpl. apply last_snoc. Qed.

Lemma head_rev {A} (l : list A) : head (rev l) = last l.
Proof. rewrite <- (rev_involutive l) at 2. now rewrite last_rev. Qed.

(** X15. The name under which a sequence is exported neither begins nor ends
    with white space; without prefix and suffix a name that is free of
    surrounding white space is exported unchanged. *)
Theorem renamed_names_are_stripped
        (options : PsaBuildOptions) (s : Sampler.PsaBuildSequence) :
  (forall c, head (Sampler.name (rename options s)) = Some c ->
             is_space c = false)
  /\ (forall c, last (Sampler.name (rename options s)) = Some c ->
                is_space c = false)
  /\ (sequence_name_prefix options = [] ->
      sequence_name_suffix options = [] ->
      (forall c, head (Sampler.name s) = Some c -> is_space c = false) ->
      (forall c, last (Sampler.name s) = Some c -> is_space c = false) ->
      Sampler.name (rename options s) = Sampler.name s).
Proof.
  cbn [rename Sampler.name]. unfold strip.
  set (full := sequence_name_prefix options ++ Sampler.name s
               ++ sequence_name_suffix options).
  split; [| split].
  - intros c Hc. rewrite head_rev in Hc.
    destruct (lstrip_last (rev (lstrip full))) as [E | E].
    + rewrite E in Hc. discriminate.
    + rewrite E, last_rev in Hc. exact (lstrip_head _ _ Hc).
  - intros c Hc. rewrite last_rev in Hc. exact (lstrip_head _ _ Hc).
  - intros Hp Hs Hhead Hlast. subst full. rewrite Hp, Hs, app_nil_r.
    cbn [app]. rewrite (lstrip_clean _ Hhead).
    rewrite lstrip_clean; [apply rev_involutive |].
    intros c Hc. rewrite head_rev in Hc. now apply Hlast.
Qed.

Lemma renamed_names_are_stripped_witness :
  Sampler.name (rename (options_of []) walk_half) = codes "walk".
Proof.
  apply (proj2 (proj2 (renamed_names_are_stripped (options_of [])
                         walk_half)));
    try reflexivity;
    intros c; vm_compute; intros [= <-]; reflexivity.
Defined.

End SkeletonFacts.

(** ** The dictionary of sequence records *)

Module DictFacts.

Import Build Invariants Dict PyFacts SequenceFacts MoreExamples Examples.

Lemma odict_get_set_eq {V} (k : pystr) (v : V) (d : list (pystr * V)) :
  odict_get k (odict_set k v d) = Some v.
Proof.
  induction d as [| [k' v'] d IH]; simpl.
  - now rewrite decide_True.
  - destruct (decide (k' = k)) as [E | E]; simpl.
    + now rewrite decide_True.
    + now rewrite decide_False.
Qed.

Lemma odict_get_set_ne {V} (k k' : pystr) (v : V) (d : list (pystr * V)) :
  k <> k' -> odict_get k (odict_set k' v d) = odict_get k d.
Proof.
  intros Hne. induction d as [| [k0 v0] d IH]; simpl.
  - now rewrite decide_False by congruence.
  - destruct (decide (k0 = k')) as [E | E]; simpl.
    + subst k0. now rewrite !decide_False by congruence.
    + now rewrite IH.
Qed.

Lemma odict_set_keys {V} (k k' : pystr) (v : V) (d : list (pystr * V)) :
  k' ∈ (odict_set k v d).*1 <-> k' = k \/ k' ∈ d.*1.
Proof.
  induction d as [| [k0 v0] d IH]; simpl.
  - rewrite list_elem_of_singleton, elem_of_nil. tauto.
  - destruct (decide (k0 = k)) as [E | E]; simpl.
    + subst k0. rewrite !elem_of_cons. tauto.
    + rewrite !elem_of_cons, IH. tauto.
Qed.

Lemma odict_set_NoDup {V} (k : pystr) (v : V) (d : list (pystr * V)) :
  NoDup d.*1 -> NoDup (odict_set k v d).*1.
Proof.
  induction d as [| [k0 v0] d IH]; simpl; intros Hnd.
  - repeat constructor. apply not_elem_of_nil.
  - apply NoDup_cons in Hnd as [Hk0 Hnd].
    destruct (decide (k0 = k)) as [E | E]; simpl.
    + apply NoDup_cons. split; assumption.
    + apply NoDup_cons. split; [| now apply IH].
      rewrite odict_set_keys. intros [H | H]; [congruence | contradiction].
Qed.

Section WithBones.

Variable pose_bones : list Blender.Bone.

Lemma store_cons (d : list (pystr * Psa.Sequence.t))
      (s : Sampler.PsaBuildSequence)
      (rest : list Sampler.PsaBuildSequence)
      (record : Psa.Sequence.t) (new : list Psa.Key.t)
      (blocks : list (Psa.Sequence.t * list Psa.Key.t)) :
  store d (s :: rest) ((record, new) :: blocks)
  = store (odict_set (Sampler.name s) record d) rest blocks.
Proof. reflexivity. Qed.

Lemma store_NoDup (start : Z) (todo : list Sampler.PsaBuildSequence)
      (blocks : list (Psa.Sequence.t * list Psa.Key.t))
      (d : list (pystr * Psa.Sequence.t)) :
  emits pose_bones start todo blocks ->
  NoDup d.*1 -> NoDup (store d todo blocks).*1.
Proof.
  intros He. revert d.
  induction He as [| start s rest record new blocks _ _ _ _ IH];
    intros d Hd; [exact Hd |].
  rewrite store_cons. apply IH. now apply odict_set_NoDup.
Qed.

Lemma store_keys (start : Z) (todo : list Sampler.PsaBuildSequence)
      (blocks : list (Psa.Sequence.t * list Psa.Key.t))
      (d : list (pystr * Psa.Sequence.t)) (k : pystr) :
  emits pose_bones start todo blocks ->
  k ∈ (store d todo blocks).*1
  <-> k ∈ d.*1 \/ k ∈ Sampler.name <$> todo.
Proof.
  intros He. revert d.
  induction He as [| start s rest record new blocks _ _ _ _ IH];
    intros d.
  - unfold store. simpl. rewrite elem_of_nil. tauto.
  - rewrite store_cons, IH, odict_set_keys, fmap_cons, elem_of_cons.
    tauto.
Qed.

Lemma store_get_other (start : Z) (todo : list Sampler.PsaBuildSequence)
      (blocks : list (Psa.Sequence.t * list Psa.Key.t))
      (d : list (pystr * Psa.Sequence.t)) (k : pystr) :
  emits pose_bones start todo blocks ->
  k ∉ Sampler.name <$> todo ->
  odict_get k (store d todo blocks) = odict_get k d.
Proof.
  intros He. revert d.
  induction He as [| start s rest record new blocks _ _ _ _ IH];
    intros d Hk; [reflexivity |].
  rewrite fmap_cons in Hk. apply not_elem_of_cons in Hk as [Hne Hk].
  rewrite store_cons, IH by exact Hk.
  now apply odict_get_set_ne.
Qed.

Lemma store_get_last (pre post : list Sampler.PsaBuildSequence)
      (s : Sampler.PsaBuildSequence) (start : Z)
      (blocks : list (Psa.Sequence.t * list Psa.Key.t))
      (d : list (pystr * Psa.Sequence.t)) :
  emits pose_bones start (pre ++ s :: post) blocks ->
  Sampler.name s ∉ Sampler.name <$> post ->
  exists record,
    odict_get (Sampler.name s) (store d (pre ++ s :: post) blocks)
    = Some record
    /\ make_sequence pose_bones (start + frames_before pre) s = ok record.
Proof.
  revert start blocks d.
  induction pre as [| s0 pre IH]; intros start blocks d He Hlast.
  - simpl in He. inversion He as [| ? ? ? record new blocks' Hrec _ _ He'];
      subst.
    exists record. rewrite app_nil_l, store_cons.
    rewrite (store_get_other _ _ _ _ _ He' Hlast), odict_get_set_eq.
    simpl. now rewrite Z.add_0_r.
  - simpl in He. inversion He as [| ? ? ? record new blocks' _ _ _ He'];
      subst.
    destruct (IH _ _ (odict_set (Sampler.name s0) record d) He' Hlast)
      as [record' [Hget Hmake]].
    exists record'. split; [exact Hget |].
    cbn [frames_before fold_right]. fold (frames_before pre).
    now rewrite Z.add_assoc.
Qed.

End WithBones.

(** X16. The sequence records form a dictionary: no name occurs twice among
    them, the names are exactly those of the exported sequences, and the
    record found under a name is the one built for the last sequence of
    that name, an earlier one being replaced. *)
Theorem sequence_dictionary
        (bind_pose : Blender.Bone -> Psa.Quaternion * Psa.Vector3)
        (pose_at : bool -> nat -> Z -> Q -> Blender.Bone
                   -> Psa.Vector3 * Psa.Quaternion)
        (check_bone_names : list pystr -> result unit)
        (bones : list Blender.Bone) (options : PsaBuildOptions)
        (psa : Psa.t) :
  build_psa_bones bind_pose pose_at check_bone_names bones options
  = ok psa ->
  NoDup (Psa.sequences psa).*1
  /\ (forall k, k ∈ (Psa.sequences psa).*1
                <-> k ∈ Sampler.name <$> renamed options)
  /\ (forall pre s post,
        renamed options = pre ++ s :: post ->
        Sampler.name s ∉ Sampler.name <$> post ->
        exists record,
          odict_get (Sampler.name s) (Psa.sequences psa) = Some record
          /\ make_sequence bones (frames_before pre) s = ok record).
Proof.
  intros Hbuild.
  destruct (build_psa_bones_inv _ _ _ _ _ _ Hbuild)
    as [_ [psa_bones [start [_ Hseq]]]].
  destruct (build_sequences_emits _ _ _ _ _ _ _ _ Hseq)
    as [blocks [He [_ [_ [Hstore _]]]]].
  cbn [Psa.sequences] in Hstore. rewrite Hstore. split; [| split].
  - apply (store_NoDup _ _ _ _ _ He). constructor.
  - intros k. rewrite (store_keys _ _ _ _ _ _ He). simpl.
    rewrite elem_of_nil. tauto.
  - intros pre s post Hren Hlast. rewrite Hren in He |- *.
    exact (store_get_last _ _ _ _ _ _ _ He Hlast).
Qed.

Lemma sequence_dictionary_witness :
  exists record,
    odict_get (codes "walk")
              (Psa.sequences (exported chain [walk_half; walk_padded]))
    = Some record
    /\ make_sequence chain 5 (rename (options_of []) walk_padded)
       = ok record.
Proof.
  refine (proj2 (proj2 (sequence_dictionary
            rest_pose still_pose any_bone_names chain
            (options_of [walk_half; walk_padded])
            (exported chain [walk_half; walk_padded]) _))
            [rename (options_of []) walk_half]
            (rename (options_of []) walk_padded) [] _ _).
  - vm_compute. reflexivity.
  - reflexivity.
  - apply not_elem_of_nil.
Defined.

End DictFacts.

(** ** Children counts over the whole skeleton *)

Module CountFacts.

Import Build Invariants PyFacts BoneFacts ChildrenFacts Examples.

Lemma sum_list_with_ext {A} (f g : A -> nat) (l : list A) :
  (forall x, f x = g x) -> sum_list_with f l = sum_list_with g l.
Proof. intros H. induction l; simpl; [reflexivity | now rewrite H, IHl]. Qed.

Lemma sum_list_with_add {A} (f g : A -> nat) (l : list A) :
  sum_list_with (fun x => (f x + g x)%nat) l
  = (sum_list_with f l + sum_list_with g l)%nat.
Proof. induction l; simpl; [reflexivity | rewrite IHl; lia]. Qed.

Lemma sum_list_with_zero {A} (l : list A) :
  sum_list_with (fun _ => 0%nat) l = 0%nat.
Proof. induction l; simpl; [reflexivity | exact IHl]. Qed.

Lemma sum_indicator (p a n : nat) :
  sum_list_with (fun j => if decide (p = j) then 1%nat else 0%nat) (seq a n)
  = if decide (a <= p < a + n)%nat then 1%nat else 0%nat.
Proof.
  revert a. induction n as [| n IH]; intros a; simpl.
  - rewrite decide_False by lia. reflexivity.
  - rewrite IH. repeat case_decide; lia.
Qed.

Lemma foldr_of_nat {A} (f : A -> nat) (l : list A) :
  foldr Z.add 0 ((fun x => Z.of_nat (f x)) <$> l)
  = Z.of_nat (sum_list_with f l).
Proof.
  induction l as [| a l IH]; [reflexivity |].
  rewrite fmap_cons. cbn [foldr sum_list_with]. rewrite IH. lia.
Qed.

Section WithBones.

Variable bones : list Blender.Bone.

Lemma children_in_cons (b : Blender.Bone) (l : list Blender.Bone)
                       (j : nat) :
  children_in bones (b :: l) j
  = ((if decide (bones_index bones (Blender.parent b) = Some j)
      then 1 else 0) + children_in bones l j)%nat.
Proof.
  unfold children_in. rewrite filter_cons. now destruct (decide _).
Qed.

(** Summed over the positions, the children are the bones with an
    exported parent. *)
Lemma children_in_total (l : list Blender.Bone) (n : nat) :
  Forall (fun b => forall p, bones_index bones (Blender.parent b) = Some p
                             -> (p < n)%nat) l ->
  sum_list_with (children_in bones l) (seq 0 n)
  = length (filter (fun b => is_Some (bones_index bones
                                        (Blender.parent b))) l).
Proof.
  induction 1 as [| b l Hb _ IH].
  - unfold children_in. simpl. apply sum_list_with_zero.
  - rewrite (sum_list_with_ext _ _ _ (children_in_cons b l)).
    rewrite sum_list_with_add, IH, filter_cons.
    assert (Hcase : (exists p, bones_index bones (Blender.parent b)
                               = Some p)
                    \/ bones_index bones (Blender.parent b) = None)
      by (destruct (bones_index bones (Blender.parent b)); eauto).
    destruct Hcase as [[p Hp] | Hp].
    + rewrite decide_True by (rewrite Hp; eauto). simpl. f_equal.
      rewrite (sum_list_with_ext _
                 (fun j => if decide (p = j) then 1%nat else 0%nat)).
      * rewrite sum_indicator. specialize (Hb p Hp).
        rewrite decide_True by lia. reflexivity.
      * intros j. rewrite Hp.
        destruct (decide (p = j)) as [-> | Hne].
        -- now rewrite decide_True.
        -- rewrite decide_False by congruence. reflexivity.
    + rewrite decide_False by (rewrite Hp; intros [? ?]; discriminate).
      rewrite (sum_list_with_ext _ (fun _ => 0%nat)).
      * now rewrite sum_list_with_zero.
      * intros j. rewrite Hp. now rewrite decide_False.
Qed.

End WithBones.

(** X14. In a successful export of fewer than 2^31 bones the children counts
    add up to the number of bones whose parent is exported: every bone is
    counted once by its parent or not at all. *)
Theorem children_counts_add_up
        (bind_pose : Blender.Bone -> Psa.Quaternion * Psa.Vector3)
        (bones : list Blender.Bone) (records : list Psa.Bone.t) :
  build_bones bind_pose bones [] bones = ok records ->
  Z.of_nat (length bones) < 2 ^ 31 ->
  foldr Z.add 0 (Psa.Bone.children_count <$> records)
  = Z.of_nat (length (filter (fun b => is_Some (bones_index bones
                                                  (Blender.parent b)))
                             bones)).
Proof.
  intros Hbuild Hlen.
  destruct (build_bones_records bind_pose bones records Hbuild)
    as [Hf Hc Hp].
  pose proof (Forall2_length _ _ _ Hf) as Hlength.
  assert (Hlist : Psa.Bone.children_count <$> records
                  = (fun j => Z.of_nat (children_in bones bones j))
                      <$> seq 0 (length bones)).
  { apply list_eq. intros j. rewrite !list_lookup_fmap.
    destruct (records !! j) as [r |] eqn:Hr; simpl.
    - pose proof (lookup_lt_Some _ _ _ Hr) as Hj.
      rewrite lookup_seq_lt by lia. simpl.
      rewrite (Hc j r Hr). f_equal. apply c_int32_small.
      pose proof (children_in_le bones bones j). lia.
    - apply lookup_ge_None in Hr.
      rewrite (proj2 (lookup_ge_None _ _)); [reflexivity |].
      rewrite length_seq. lia. }
  rewrite Hlist, foldr_of_nat. f_equal.
  now apply children_in_total.
Qed.

Lemma children_counts_add_up_witness :
  foldr Z.add 0 (Psa.Bone.children_count <$> records_of chain) = 2.
Proof.
  rewrite (children_counts_add_up rest_pose chain (records_of chain)).
  - vm_compute. reflexivity.
  - vm_compute. reflexivity.
  - vm_compute. reflexivity.
Defined.

End CountFacts.

(** ** Section headers and name fields, written and read back *)

Module CodecFacts.

Import Build Invariants Codec PskImport PyFacts BoneFacts SkeletonFacts.
Import MoreExamples Examples.

Lemma Z_of_byte_of_Z (v : Z) : Z_of_byte (byte_of_Z v) = v mod 256.
Proof.
  unfold Z_of_byte, byte_of_Z.
  pose proof (Z.mod_pos_bound v 256 ltac:(lia)) as Hb.
  destruct (Byte.of_N (Z.to_N (v mod 256))) as [b |] eqn:Hof.
  - apply Byte.to_of_N in Hof. rewrite Hof. lia.
  - apply Byte.of_N_None_iff in Hof. lia.
Qed.

Lemma le_value_le32 (v : Z) : le_value (le32 v) = v mod 2 ^ 32.
Proof.
  unfold le32. cbn [le_value]. rewrite !Z_of_byte_of_Z.
  change 65536 with (256 * 256). change 16777216 with (256 * 256 * 256).
  change (2 ^ 32) with (256 * (256 * (256 * 256))).
  rewrite <- !Z.div_div by lia.
  rewrite (Z.rem_mul_r v 256 (256 * (256 * 256))) by lia.
  rewrite (Z.rem_mul_r (v / 256) 256 (256 * 256)) by lia.
  rewrite (Z.rem_mul_r (v / 256 / 256) 256 256) by lia.
  lia.
Qed.

Lemma c_int32_mod (v : Z) : c_int32 (v mod 2 ^ 32) = c_int32 v.
Proof.
  unfold c_int32. f_equal. rewrite Zplus_mod_idemp_l. reflexivity.
Qed.

Lemma int32_at_le32 (off : nat) (before after : pybytes) (v : Z) :
  length before = off ->
  int32_at off (before ++ le32 v ++ after) = c_int32 v.
Proof.
  intros <-. unfold int32_at. rewrite drop_app_length.
  change (take 4 (le32 v ++ after)) with (le32 v).
  now rewrite le_value_le32, c_int32_mod.
Qed.

Lemma Section_bytes_length (name : pybytes) (f s c : Z) :
  (length name <= 20)%nat -> length (Section_bytes name f s c) = 32%nat.
Proof.
  intros H. unfold Section_bytes.
  rewrite !length_app, length_replicate. simpl. lia.
Qed.

Lemma readinto_whole_header (written rest : pybytes) :
  length written = 32%nat ->
  readinto Section_new (written ++ rest) = (written, rest).
Proof.
  intros Hlen. unfold readinto. change (length Section_new) with 32%nat.
  rewrite <- Hlen, take_app_length, drop_app_length.
  rewrite Hlen. change (drop 32 Section_new) with (@nil Byte.byte).
  now rewrite app_nil_r.
Qed.

Lemma Section_bytes_fields (name : pybytes) (f s c : Z) :
  (length name <= 20)%nat ->
  PskImport.type_flags (Section_bytes name f s c) = c_int32 f
  /\ PskImport.data_size (Section_bytes name f s c) = c_int32 s
  /\ PskImport.data_count (Section_bytes name f s c) = c_int32 c.
Proof.
  intros Hname. split; [| split].
  - unfold PskImport.type_flags, Section_bytes.
    rewrite (app_assoc name). apply int32_at_le32.
    rewrite length_app, length_replicate. lia.
  - unfold PskImport.data_size, Section_bytes.
    rewrite (app_assoc name), (app_assoc _ (le32 f)).
    apply int32_at_le32.
    rewrite !length_app, length_replicate. simpl. lia.
  - unfold PskImport.data_count, Section_bytes.
    rewrite (app_assoc name), (app_assoc _ (le32 f)),
      (app_assoc _ (le32 s)).
    rewrite <- (app_nil_r (le32 c)).
    apply int32_at_le32.
    rewrite !length_app, length_replicate. simpl. lia.
Qed.

(** X17. A header written by [write_section] reads back through
    [readinto]: the 32 bytes are consumed and the three fields hold what
    was stored. *)
Theorem section_header_round_trip
        (name rest : pybytes) (type_flags data_size data_count : Z) :
  (length name <= 20)%nat ->
  let written := Section_bytes name type_flags data_size data_count in
  readinto Section_new (written ++ rest) = (written, rest)
  /\ PskImport.type_flags written = c_int32 type_flags
  /\ PskImport.data_size written = c_int32 data_size
  /\ PskImport.data_count written = c_int32 data_count.
Proof.
  intros Hname written. split.
  - apply readinto_whole_header. subst written.
    now apply Section_bytes_length.
  - subst written. now apply Section_bytes_fields.
Qed.

Lemma section_header_round_trip_witness :
  PskImport.data_count
    (Section_bytes (PsaExport.ascii_bytes "BONENAMES") 1999801 120 3) = 3.
Proof.
  apply (proj2 (proj2 (proj2 (section_header_round_trip
           (PsaExport.ascii_bytes "BONENAMES") [] 1999801 120 3
           ltac:(simpl; lia))))).
Defined.

(** X18. Every header written by [write_section] carries the magic number,
    so a file that begins with one (an animation file written by
    [write_psa] as well as a mesh file) passes the check of [pskimport]
    and is handed to the section reader with the header's count. *)
Theorem written_header_passes_check
        (PskData : Type)
        (read_psk_data : pybytes -> Z -> result PskData)
        (build_model : PskData -> list IO.event * result bool)
        (disk : pystr -> option pybytes) (filepath : pystr)
        (name rest : pybytes) (size count : Z) :
  (length name <= 20)%nat ->
  disk filepath
  = Some (Section_bytes name PsaExport.magic size count ++ rest) ->
  pskimport PskData read_psk_data build_model disk filepath
  = match read_psk_data rest (c_int32 count) with
    | inl IOError =>
        ([IO.ErrorCallback (open_error_message filepath)], ok false)
    | inl e => ([], inl e)
    | inr data => let '(evs, r) := build_model data in
                  (IO.BuildModel :: evs, r)
    end.
Proof.
  intros Hname Hdisk. unfold pskimport. rewrite Hdisk.
  rewrite readinto_whole_header by now apply Section_bytes_length.
  destruct (Section_bytes_fields name PsaExport.magic size count Hname)
    as [Hflags [_ Hcount]].
  rewrite Hflags, Hcount. reflexivity.
Qed.

Lemma written_header_passes_check_witness :
  pskimport unit no_sections no_model
    (one_file_disk (Section_bytes (PsaExport.ascii_bytes "ANIMHEAD")
                                  PsaExport.magic 0 0))
    (codes "a.psa")
  = ([IO.BuildModel], ok true).
Proof.
  rewrite (written_header_passes_check unit no_sections no_model
             (one_file_disk (Section_bytes (PsaExport.ascii_bytes "ANIMHEAD")
                                           PsaExport.magic 0 0))
             (codes "a.psa") (PsaExport.ascii_bytes "ANIMHEAD") [] 0 0).
  - reflexivity.
  - simpl. lia.
  - now rewrite app_nil_r.
Defined.

End CodecFacts.

(** ** Name fields read back with [util_bytes_to_str] *)

Module NameCodecFacts.

Import Build Invariants Codec PyFacts BoneFacts SkeletonFacts.
Import MoreExamples Examples.

Lemma assoc_rassoc (t : list (N * N)) (c v : N) :
  NoDup t.*2 -> assoc c t = Some v -> rassoc v t = Some c.
Proof.
  induction t as [| [k w] t IH]; simpl; [discriminate |].
  intros Hnd Ha. apply NoDup_cons in Hnd as [Hw Hnd].
  destruct (N.eqb_spec k c) as [-> | Hk].
  - injection Ha as ->. now rewrite N.eqb_refl.
  - destruct (N.eqb_spec w v) as [-> | Hv]; [| now apply IH].
    exfalso. apply Hw. clear -Ha.
    induction t as [| [k' w'] t IH]; simpl in *; [discriminate |].
    destruct (N.eqb_spec k' c); [injection Ha as ->; left | right; auto].
Qed.

Lemma assoc_range (t : list (N * N)) (c v : N) (P : N -> Prop) :
  Forall (fun kv => P kv.2) t -> assoc c t = Some v -> P v.
Proof.
  induction 1 as [| [k w] t Hw _ IH]; simpl; [discriminate |].
  destruct (N.eqb_spec k c); [now intros [= <-] | exact IH].
Qed.

Lemma cp1252_high_bytes :
  Forall (fun kv => (0x80 <= kv.2 < 0xa0)%N) cp1252_high.
Proof. repeat constructor; vm_compute; congruence. Qed.

Lemma cp1252_high_distinct : NoDup cp1252_high.*2.
Proof. apply (bool_decide_unpack _). vm_compute. exact I. Qed.

(** A character and the byte it is encoded to. *)
Lemma cp1252_char_round_trip (c : N) (b : Byte.byte) :
  cp1252_encode_char c = Some b ->
  cp1252_decode_byte b = c /\ (b = x00%byte -> c = 0%N).
Proof.
  unfold cp1252_encode_char, cp1252_decode_byte.
  destruct ((c <? 0x80)%N || (0xa0 <=? c)%N && (c <=? 0xff)%N) eqn:Hplain.
  - intros Hb. apply Byte.to_of_N in Hb. rewrite Hb. split.
    + assert (Hc : ((c <? 0x80) || (0xa0 <=? c))%N = true).
      { apply orb_true_iff in Hplain as [H | H];
          [now rewrite H | apply andb_true_iff in H as [H _]].
        rewrite H. apply orb_true_r. }
      now rewrite Hc.
    + intros ->. now rewrite <- Hb.
  - destruct (assoc c cp1252_high) as [v |] eqn:Hv; [| discriminate].
    intros Hb. apply Byte.to_of_N in Hb. rewrite Hb.
    pose proof (assoc_range cp1252_high c v
                  (fun n => (0x80 <= n < 0xa0)%N) cp1252_high_bytes Hv)
      as Hr.
    simpl in Hr. split.
    + replace ((v <? 0x80) || (0xa0 <=? v))%N with false.
      * now rewrite (assoc_rassoc _ _ _ cp1252_high_distinct Hv).
      * symmetry. apply orb_false_iff.
        split; [apply N.ltb_ge | apply N.leb_gt]; lia.
    + intros ->. simpl in Hb. lia.
Qed.

Lemma cp1252_round_trip (nm : pystr) (raw : pybytes) :
  cp1252_encode nm = Some raw ->
  List.map cp1252_decode_byte raw = nm
  /\ (last raw = Some x00%byte -> last nm = Some 0%N).
Proof.
  revert raw. induction nm as [| c nm IH]; simpl; intros raw.
  - intros [= <-]. split; [reflexivity | discriminate].
  - destruct (cp1252_encode_char c) as [b |] eqn:Hb; [| discriminate].
    destruct (cp1252_encode nm) as [bs |]; [| discriminate].
    intros [= <-]. destruct (IH bs eq_refl) as [Hmap Hlast].
    destruct (cp1252_char_round_trip c b Hb) as [Hc Hz].
    split; [simpl; now rewrite Hc, Hmap |].
    destruct bs as [| b' bs].
    + simpl in Hmap. subst nm. simpl. intros [= ->]. now rewrite Hz.
    + rewrite last_cons_cons. intros H. apply Hlast in H.
      destruct nm as [| c' nm]; [discriminate |].
      now rewrite last_cons_cons.
Qed.

Lemma lstrip_nul_zeros (n : nat) (bs : pybytes) :
  lstrip_nul (replicate n x00%byte ++ bs) = lstrip_nul bs.
Proof. induction n as [| n IH]; simpl; [reflexivity | exact IH]. Qed.

Lemma rev_replicate {A} (n : nat) (x : A) :
  rev (replicate n x) = replicate n x.
Proof.
  induction n as [| n IH]; simpl; [reflexivity |].
  rewrite IH. clear IH. induction n as [| n IH]; simpl; [reflexivity |].
  now rewrite IH.
Qed.

Lemma rstrip_nul_padding (raw : pybytes) (n : nat) :
  last raw <> Some x00%byte ->
  rstrip_nul (raw ++ replicate n x00%byte) = raw.
Proof.
  intros Hlast. unfold rstrip_nul.
  rewrite rev_app_distr, rev_replicate, lstrip_nul_zeros.
  rewrite <- head_rev in Hlast.
  destruct (rev raw) as [| b r] eqn:Hr.
  - simpl. apply (f_equal (@rev _)) in Hr. rewrite rev_involutive in Hr.
    now rewrite Hr.
  - simpl in *. destruct (Byte.eqb b x00%byte) eqn:Hb.
    + apply Byte.byte_dec_bl in Hb. congruence.
    + rewrite <- Hr. apply rev_involutive.
Qed.

Lemma cp1252_encode_app (l k : pystr) (raw : pybytes) :
  cp1252_encode (l ++ k) = Some raw ->
  exists rl rk, raw = rl ++ rk /\ cp1252_encode l = Some rl
                /\ cp1252_encode k = Some rk.
Proof.
  revert raw. induction l as [| c l IH]; simpl; intros raw.
  - intros H. exists [], raw. auto.
  - destruct (cp1252_encode_char c) as [b |]; [| discriminate].
    destruct (cp1252_encode (l ++ k)) as [bs |]; [| discriminate].
    intros [= <-]. destruct (IH bs eq_refl) as [rl [rk [-> [-> Hk]]]].
    exists (b :: rl), rk. auto.
Qed.

(** The encoding of a name without U+0000 has no NUL byte. *)
Lemma cp1252_encode_no_nul (nm : pystr) (raw : pybytes) :
  cp1252_encode nm = Some raw ->
  Forall (fun c => c <> 0%N) nm ->
  Forall (fun c => c <> x00%byte) raw.
Proof.
  revert raw. induction nm as [| c nm IH]; simpl; intros raw.
  - intros [= <-] _. constructor.
  - destruct (cp1252_encode_char c) as [b |] eqn:Hb; [| discriminate].
    destruct (cp1252_encode nm) as [bs |]; [| discriminate].
    intros [= <-] Hall. apply Forall_cons in Hall as [Hc Hnm].
    constructor; [| now apply IH].
    intros ->. now apply Hc, (cp1252_char_round_trip c x00%byte Hb).
Qed.

Lemma last_no_nul (raw : pybytes) :
  Forall (fun c => c <> x00%byte) raw -> last raw <> Some x00%byte.
Proof.
  intros Hall Hlast. apply last_Some in Hlast as [l' ->].
  apply Forall_app in Hall as [_ Hall].
  apply Forall_cons in Hall as [Hc _]. now apply Hc.
Qed.

(** X20. [util_bytes_to_str] reads a stored name field back to the name when
    the name holds no character U+0000; a name that holds one is read
    back as its part before the first U+0000, the rest being lost when
    the encoded name is assigned to the field. *)
Theorem name_field_reads_back
        (bind_pose : Blender.Bone -> Psa.Quaternion * Psa.Vector3)
        (bones : list Blender.Bone) (records : list Psa.Bone.t)
        (i : nat) (b : Blender.Bone) (r : Psa.Bone.t)
        (before after : pystr) :
  build_bones bind_pose bones [] bones = ok records ->
  bones !! i = Some b ->
  records !! i = Some r ->
  Forall (fun c => c <> 0%N) before ->
  (Blender.name b = before ->
   util_bytes_to_str (Psa.Bone.name r) = Blender.name b)
  /\ (Blender.name b = before ++ 0%N :: after ->
      util_bytes_to_str (Psa.Bone.name r) = before).
Proof.
  intros Hbuild Hb Hr Hclean.
  destruct (build_bones_records bind_pose bones records Hbuild)
    as [Hf _ _].
  destruct (Forall2_lookup_lr _ _ _ _ _ _ Hf Hb Hr) as [_ Henc].
  destruct (encode_name_inv _ _ _ Henc) as [raw [Hraw [_ ->]]].
  unfold util_bytes_to_str. split; intros Hname; rewrite Hname in Hraw.
  - pose proof (cp1252_encode_no_nul _ _ Hraw Hclean) as Hnn.
    rewrite (c_string_no_nul _ Hnn).
    rewrite (rstrip_nul_padding _ _ (last_no_nul _ Hnn)).
    rewrite Hname. exact (proj1 (cp1252_round_trip _ _ Hraw)).
  - destruct (cp1252_encode_app _ _ _ Hraw) as [rb [ra [-> [Hrb Hra]]]].
    pose proof (cp1252_encode_no_nul _ _ Hrb Hclean) as Hnn.
    simpl in Hra.
    destruct (cp1252_encode after) as [ra' |]; [| discriminate].
    injection Hra as <-.
    rewrite (c_string_cut _ _ Hnn).
    rewrite (rstrip_nul_padding _ _ (last_no_nul _ Hnn)).
    exact (proj1 (cp1252_round_trip _ _ Hrb)).
Qed.

Lemma name_field_reads_back_witness :
  exists r, records_of chain !! 1%nat = Some r
            /\ util_bytes_to_str (Psa.Bone.name r) = codes "mid".
Proof.
  eexists. split; [vm_compute; reflexivity |].
  refine (proj1 (name_field_reads_back rest_pose chain (records_of chain) 1
            mid_bone _ (codes "mid") [] _ _ _ _) eq_refl).
  - vm_compute. reflexivity.
  - reflexivity.
  - vm_compute. reflexivity.
  - repeat constructor; discriminate.
Defined.

End NameCodecFacts.

(** ** How many bytes [read_vertices] takes *)

Module VertexFacts.

Import Vertices MoreExamples.

Section WithUnpack.

Variable unpack_3f : pybytes -> vertex.

Lemma read_loop_enough (k chunk : nat) (scale : bool) (file : pybytes)
                       (acc : list vertex) :
  (12 <= chunk)%nat ->
  (k = 0 \/ chunk * (k - 1) + 12 <= length file)%nat ->
  read_loop unpack_3f k chunk scale file acc
  = Some (acc ++ List.map (decoded unpack_3f scale chunk file) (seq 0 k),
          drop (k * chunk) file).
Proof.
  intros Hchunk. revert file acc.
  induction k as [| k IH]; intros file acc Hlen.
  - simpl. now rewrite app_nil_r.
  - cbn [read_loop]. rewrite length_take.
    destruct (Nat.ltb_spec (chunk `min` length file) 12) as [Hs | _];
      [lia |].
    rewrite IH.
    + rewrite take_take, drop_drop.
      replace (12 `min` chunk)%nat with 12%nat by lia.
      replace (chunk + k * chunk)%nat with (S k * chunk)%nat by lia.
      rewrite <- app_assoc. cbn [app seq List.map].
      rewrite <- seq_shift, List.map_map.
      assert (Hmap : List.map (decoded unpack_3f scale chunk
                                       (drop chunk file)) (seq 0 k)
                     = List.map (fun i => decoded unpack_3f scale chunk
                                                  file (S i)) (seq 0 k)).
      { apply List.map_ext. intros i. unfold decoded.
        rewrite drop_drop.
        replace (chunk + i * chunk)%nat with (S i * chunk)%nat by lia.
        reflexivity. }
      rewrite Hmap. unfold decoded at 2. rewrite drop_0. reflexivity.
    + rewrite length_drop. destruct k as [| k]; [now left | right].
      simpl in *. nia.
Qed.

Lemma read_loop_short (k chunk : nat) (scale : bool) (file : pybytes)
                      (acc : list vertex) :
  (12 <= chunk)%nat -> (0 < k)%nat ->
  (length file < chunk * (k - 1) + 12)%nat ->
  read_loop unpack_3f k chunk scale file acc = None.
Proof.
  intros Hchunk. revert file acc.
  induction k as [| k IH]; intros file acc Hk Hlen; [lia |].
  cbn [read_loop]. rewrite length_take.
  destruct (Nat.ltb_spec (chunk `min` length file) 12) as [_ | Hs];
    [reflexivity |].
  apply IH.
  - destruct k; [simpl in Hlen; lia | lia].
  - rewrite length_drop. destruct k as [| k]; simpl in *; nia.
Qed.

End WithUnpack.

(** X21. [read_vertices] reads [chunk_datacount * 12] bytes for every vertex,
    not 12: vertex [i] is unpacked from the bytes at offset
    [12 * chunk_datacount * i], so that [n] vertices need
    [12 * n * (n - 1) + 12] bytes of file and take [12 * n * n] of them; on
    a shorter file, such as one that holds exactly two or more declared
    vertices and nothing else, unpacking fails. *)
Theorem read_vertices_reads_whole_sections
        (unpack_3f : pybytes -> vertex) (file : pybytes) (n : Z)
        (bScaleDown : bool) :
  0 < n ->
  (12 * n * (n - 1) + 12 <= Z.of_nat (length file) ->
   read_vertices unpack_3f file n bScaleDown
   = Some (List.map (decoded unpack_3f bScaleDown (Z.to_nat (n * 12)) file)
                    (seq 0 (Z.to_nat n)),
           drop (Z.to_nat (12 * n * n)) file))
  /\ (Z.of_nat (length file) < 12 * n * (n - 1) + 12 ->
      read_vertices unpack_3f file n bScaleDown = None).
Proof.
  intros Hn. unfold read_vertices. split; intros Hlen.
  - rewrite read_loop_enough.
    + cbn [app]. do 3 f_equal. nia.
    + nia.
    + right. nia.
  - apply read_loop_short; nia.
Qed.

Lemma read_vertices_reads_whole_sections_witness :
  read_vertices origin_3f two_vertices 2 true = None.
Proof.
  apply (proj2 (read_vertices_reads_whole_sections origin_3f two_vertices
                  2 true ltac:(lia))).
  vm_compute. reflexivity.
Defined.

End VertexFacts.

(** ** Which armature the export picks *)

Module SelectionFacts.

Import Selection MoreExamples.

Lemma find_after_prefix {A} (f : A -> bool) (pre post : list A) (a : A) :
  Forall (fun x => f x = false) pre -> f a = true ->
  List.find f (pre ++ a :: post) = Some a.
Proof.
  induction 1 as [| x pre Hx _ IH]; intros Ha; simpl.
  - now rewrite Ha.
  - rewrite Hx. now apply IH.
Qed.

Lemma find_none_all {A} (f : A -> bool) (l : list A) :
  Forall (fun x => f x = false) l -> List.find f l = None.
Proof. induction 1 as [| x l Hx _ IH]; simpl; [| rewrite Hx]; auto. Qed.

Lemma mesh_loop_passes (objects : list Object) (found : option nat) :
  Forall passes objects -> mesh_loop objects found = found.
Proof.
  induction 1 as [| obj rest Hobj _ IH]; simpl; [reflexivity |].
  destruct Hobj as [Hs | Hm].
  - now rewrite Hs.
  - rewrite (find_none_all _ _ Hm). now destruct (selected_mesh obj).
Qed.

Lemma mesh_loop_last (pre post : list Object) (obj : Object)
      (before after : list Modifier) (modifier : Modifier)
      (found : option nat) :
  selected_mesh obj = true ->
  modifiers obj = before ++ modifier :: after ->
  Forall (fun m => is_armature_modifier m = false) before ->
  is_armature_modifier modifier = true ->
  Forall passes post ->
  mesh_loop (pre ++ obj :: post) found = modifier_object modifier.
Proof.
  intros Hs Hm Hb Ha Hpost. revert found.
  induction pre as [| o pre IH]; intros found; simpl.
  - rewrite Hs, Hm, (find_after_prefix _ _ _ _ Hb Ha).
    now apply mesh_loop_passes.
  - destruct (selected_mesh o); [| apply IH].
    destruct (List.find is_armature_modifier (modifiers o)); apply IH.
Qed.

(** X22. A selected armature is returned before any mesh is looked at, the
    first one in the order of the objects. Without a selected armature
    the result is the object of the first armature modifier of the last
    selected mesh that has such a modifier, whatever the earlier meshes
    gave and even when that modifier has no object. *)
Theorem armature_from_selection (objects : list Object) :
  (forall pre obj post,
     objects = pre ++ obj :: post ->
     Forall (fun o => selected_armature o = false) pre ->
     selected_armature obj = true ->
     blen_get_armature_from_selection objects = Some (object_ref obj))
  /\ (forall pre obj post before modifier after,
        objects = pre ++ obj :: post ->
        Forall (fun o => selected_armature o = false) objects ->
        selected_mesh obj = true ->
        modifiers obj = before ++ modifier :: after ->
        Forall (fun m => is_armature_modifier m = false) before ->
        is_armature_modifier modifier = true ->
        Forall passes post ->
        blen_get_armature_from_selection objects
        = modifier_object modifier)
  /\ (Forall (fun o => selected_armature o = false) objects ->
      Forall passes objects ->
      blen_get_armature_from_selection objects = None).
Proof.
  unfold blen_get_armature_from_selection. split; [| split].
  - intros pre obj post -> Hpre Hobj.
    now rewrite (find_after_prefix _ _ _ _ Hpre Hobj).
  - intros pre obj post before modifier after Hobjects Hnone Hs Hm Hb Ha
           Hpost.
    rewrite (find_none_all _ _ Hnone), Hobjects.
    now apply (mesh_loop_last pre post obj before after modifier).
  - intros Hnone Hpass. rewrite (find_none_all _ _ Hnone).
    now apply mesh_loop_passes.
Qed.

Lemma armature_from_selection_witness :
  blen_get_armature_from_selection [mesh_a; armature_b; mesh_c] = Some 9%nat
  /\ blen_get_armature_from_selection [mesh_a; mesh_c] = Some 8%nat.
Proof.
  split.
  - apply (proj1 (armature_from_selection [mesh_a; armature_b; mesh_c])
             [mesh_a] armature_b [mesh_c] eq_refl);
      [repeat constructor | reflexivity].
  - refine (proj1 (proj2 (armature_from_selection [mesh_a; mesh_c]))
              [mesh_a] mesh_c []
              [ {| is_armature_modifier := false;
                   modifier_object := None |} ]
              {| is_armature_modifier := true;
                 modifier_object := Some 8%nat |} []
              eq_refl _ eq_refl eq_refl _ eq_refl _);
      repeat constructor.
Defined.

End SelectionFacts.

(** ** The lines of the message dialog *)

Module MessageFacts.

Import Message.

Lemma split_lines_nonempty (message : pystr) : split_lines message <> [].
Proof.
  induction message as [| c rest IH]; simpl; [discriminate |].
  destruct (c =? 10)%N; [discriminate |].
  destruct (split_lines rest); discriminate.
Qed.

Lemma join_split (message : pystr) :
  join_lines (split_lines message) = message.
Proof.
  induction message as [| c rest IH]; [reflexivity |]. simpl.
  destruct (N.eqb_spec c 10) as [-> | Hc].
  - pose proof (split_lines_nonempty rest).
    destruct (split_lines rest) as [| l ls] eqn:E; [contradiction |].
    cbn [join_lines app]. cbn [join_lines] in IH. now rewrite IH.
  - pose proof (split_lines_nonempty rest).
    destruct (split_lines rest) as [| l ls] eqn:E; [contradiction |].
    destruct ls as [| l' ls]; simpl in *; now rewrite IH.
Qed.

Lemma split_lines_no_newline (message : pystr) :
  Forall (fun line => 10%N ∉ line) (split_lines message).
Proof.
  induction message as [| c rest IH]; simpl.
  - repeat constructor. apply not_elem_of_nil.
  - destruct (N.eqb_spec c 10) as [-> | Hc].
    + constructor; [apply not_elem_of_nil | exact IH].
    + destruct (split_lines rest) as [| l ls].
      * repeat constructor. rewrite list_elem_of_singleton. congruence.
      * apply Forall_cons in IH as [Hl Hls]. constructor; [| exact Hls].
        rewrite elem_of_cons. intros [E | E]; [congruence | contradiction].
Qed.

Lemma longest_from (lines : list pystr) (start : nat) :
  (start <= fold_left (fun maxlen line =>
                         if (maxlen <? length line)%nat
                         then length line else maxlen) lines start)%nat
  /\ Forall (fun line =>
               (length line
                <= fold_left (fun maxlen line =>
                                if (maxlen <? length line)%nat
                                then length line else maxlen)
                             lines start)%nat) lines.
Proof.
  revert start. induction lines as [| l ls IH]; intros start; simpl.
  - split; [lia | constructor].
  - destruct (IH (if (start <? length l)%nat then length l else start))
      as [Hge Hall].
    destruct (Nat.ltb_spec start (length l)); split; try lia;
      constructor; try assumption; lia.
Qed.

(** X23. [invoke] always finds a first line to pop. The first line followed by
    the others, joined by newlines, is the message; no line holds a
    newline; and the dialog is 100 wider than six times the length of any
    line. *)
Theorem dialog_lines (message : pystr) :
  exists dialog,
    invoke message = Some dialog
    /\ join_lines (line0 dialog :: lines dialog) = message
    /\ Forall (fun line => 10%N ∉ line) (line0 dialog :: lines dialog)
    /\ Forall (fun line => 100 + 6 * Z.of_nat (length line) <= width dialog)
              (line0 dialog :: lines dialog).
Proof.
  unfold invoke.
  pose proof (split_lines_nonempty message) as Hne.
  pose proof (join_split message) as Hjoin.
  pose proof (split_lines_no_newline message) as Hnl.
  pose proof (proj2 (longest_from (split_lines message) 0)) as Hlong.
  fold (longest (split_lines message)) in Hlong.
  destruct (split_lines message) as [| l ls]; [contradiction |].
  eexists. split; [reflexivity |]. cbn [line0 lines width].
  split; [exact Hjoin |]. split; [exact Hnl |].
  eapply Forall_impl; [exact Hlong |]. simpl. intros line H. lia.
Qed.

End MessageFacts.

(** ** The actions that [psa_export] keeps *)

Module ActionFilterFacts.

Import Build PsaExport SequenceFacts ActionFacts MoreExamples Examples.

(** X24. [is_action_for_armature] returns [False] for every armature and
    every action: its pattern asks for a quote after the end of the data
    path, so no curve is matched.  [psa_export] therefore hands
    [build_psa] an empty list of sequences, and every file it writes
    holds the bones with empty sequence and key sections. *)
Theorem no_action_is_exported
        (bind_pose : Blender.Bone -> Psa.Quaternion * Psa.Vector3)
        (pose_at : bool -> nat -> Z -> Q -> Blender.Bone
                   -> Psa.Vector3 * Psa.Quaternion)
        (check_bone_names : list pystr -> result unit)
        (get_export_bone_names : Armature -> list pystr)
        (filepath : pystr) (ctx : Context) (oArmature : option Armature)
        (bFilenameAsPrefix bRotationOnly : bool) :
  let out := psa_export bind_pose pose_at check_bone_names
                        get_export_bone_names filepath ctx oArmature
                        bFilenameAsPrefix bRotationOnly in
  (forall armature action, is_action_for_armature armature action = false)
  /\ (out.2 = ok true ->
      exists records,
        out.1 = write_psa {| Psa.bones := records; Psa.sequences := [];
                             Psa.keys := [] |} filepath).
Proof.
  intros out. split; [exact is_action_for_armature_false |].
  subst out. unfold psa_export.
  destruct (match oArmature with Some a => Some a
                            | None => selected_armature ctx end)
    as [arm |]; [| discriminate].
  rewrite no_action_is_kept. cbn [List.map].
  destruct bFilenameAsPrefix; [discriminate |]. cbn [bind ok].
  unfold build_psa.
  destruct (select_bones _ _) as [e | bones]; cbn [bind]; [discriminate |].
  destruct (build_psa_bones _ _ _ bones _) as [e | psa] eqn:Hbuild;
    [discriminate |].
  intros _. cbn [fst].
  destruct (build_psa_bones_inv _ _ _ _ _ _ Hbuild)
    as [_ [records [start [_ Hseq]]]].
  cbn in Hseq. injection Hseq as <- _. now exists records.
Qed.

Lemma no_action_is_exported_witness :
  is_action_for_armature (armature_of chain) jog_action = false
  /\ exists records,
       (export_of chain [jog_action]).1
       = write_psa {| Psa.bones := records; Psa.sequences := [];
                      Psa.keys := [] |} (codes "a.psa").
Proof.
  split.
  - apply (proj1 (no_action_is_exported rest_pose still_pose
                    any_bone_names all_bone_names (codes "a.psa")
                    (scene_of chain [jog_action]) None false false)).
  - apply (proj2 (no_action_is_exported rest_pose still_pose
                    any_bone_names all_bone_names (codes "a.psa")
                    (scene_of chain [jog_action]) None false false)).
    vm_compute. reflexivity.
Defined.

End ActionFilterFacts.
